(** * poker-helper: the capture-to-decision pipeline, embedded and verified

    A shallow embedding of the Python sources
      - [src/ai/hand_evaluator.py]     (HandRank, HandEvaluator)
      - [src/core/computer_vision.py]  (Card, GameInfo, GameState)
      - [src/core/ai_engine.py]        (EquityCalculator, AIAnalysisEngine)
      - [src/core/decision_manager.py] (DecisionManager._calculate_urgency)
      - [src/core/screen_capture.py]   (ScreenCaptureEngine and its queue)
      - [src/vision/card_detector.py]  (CardDetector fusion)
    one module per source file, followed by the reference definitions
    written after the specification ([Spec]), the concrete inputs of the
    examples ([Samples]) and the properties, one section per component.

    Conventions of the embedding.
      - Python [int] is [Z]; the bit operations are [Z.land], [Z.lor],
        [Z.shiftl], [Z.shiftr], which agree with Python's on negative
        numbers as well.
      - Python [float] is [Q]: thresholds, confidences and equities are
        exact rationals, rounding is not modelled.
      - Python [str] is [string]; [str.upper] is modelled on ASCII.
      - A [dict] is an association list in insertion order, because the
        sources index the result of [items()] by position.
      - Code that may raise returns in the [result] monad; [try]/[except]
        is a [match] on it.
      - [np.random.shuffle] and the clock are inputs of the functions that
        use them.
      - The capture thread and its consumer are modelled by their atomic
        queue operations, one pass of the capture loop at a time. *)

From Stdlib Require Import ZArith List String Ascii QArith Qabs Lia Lqa Bool.
From Stdlib Require Import Qminmax Permutation Sorted DecimalString.
Import ListNotations.

Local Open Scope string_scope.
Local Open Scope list_scope.
Local Open Scope Z_scope.

(** ** Python run-time model *)

Module Py.

(** The exceptions that the modelled code can raise; each carries the
    text that [str(e)] returns. *)
Inductive exn : Type :=
| ValueError (msg : string)
| IndexError (msg : string)
| ZeroDivisionError (msg : string).

Definition str_exn (e : exn) : string :=
  match e with
  | ValueError m | IndexError m | ZeroDivisionError m => m
  end.

Inductive result (A : Type) : Type :=
| Ok (a : A)
| Raise (e : exn).
Arguments Ok {A} a.
Arguments Raise {A} e.

Definition bind {A B} (m : result A) (k : A -> result B) : result B :=
  match m with
  | Ok a => k a
  | Raise e => Raise e
  end.

(** [for x in l: ...] with a body that may raise, collecting results. *)
Fixpoint mapM {A B} (f : A -> result B) (l : list A) : result (list B) :=
  match l with
  | [] => Ok []
  | x :: t =>
      bind (f x) (fun y => bind (mapM f t) (fun ys => Ok (y :: ys)))
  end.

(** [l[0]] *)
Definition index0 {A} (l : list A) : result A :=
  match l with
  | x :: _ => Ok x
  | [] => Raise (IndexError "list index out of range")
  end.

(** [l[i:j]] for non-negative bounds *)
Definition slice {A} (l : list A) (i j : nat) : list A :=
  firstn (j - i) (skipn i l).

(** [sorted(l)] on integers *)
Fixpoint insert_asc (x : Z) (l : list Z) : list Z :=
  match l with
  | [] => [x]
  | y :: t => if x <=? y then x :: l else y :: insert_asc x t
  end.

Definition sorted (l : list Z) : list Z := fold_right insert_asc [] l.

(** [sorted(l, reverse=True)] on integers *)
Definition sorted_reverse (l : list Z) : list Z := rev (sorted l).

(** [set(l)] on integers, as the list of its distinct elements; the
    sources only sort it or test membership, so the order of iteration
    of the set is never observed. *)
Definition set (l : list Z) : list Z := nodup Z.eq_dec l.

(** [max(l)] on a non-empty list of integers; [ValueError] when empty. *)
Definition max (l : list Z) : result Z :=
  match l with
  | [] => Raise (ValueError "max() arg is an empty sequence")
  | x :: t => Ok (fold_left Z.max t x)
  end.

(** [str(n)] on integers *)
Definition str_int (n : Z) : string := NilZero.string_of_int (Z.to_int n).

(** [enumerate(l)] *)
Definition enumerate {A} (l : list A) : list (Z * A) :=
  combine (map Z.of_nat (seq 0 (List.length l))) l.

(** [s.upper()] on ASCII text *)
Definition upper_ascii (c : ascii) : ascii :=
  let n := nat_of_ascii c in
  if ((97 <=? n) && (n <=? 122))%nat then ascii_of_nat (n - 32) else c.

Fixpoint upper (s : string) : string :=
  match s with
  | EmptyString => EmptyString
  | String c t => String (upper_ascii c) (upper t)
  end.

(** Insertion-ordered dictionaries. *)
Section Dict.
Context {K V : Type} (eqb : K -> K -> bool).

Fixpoint get (d : list (K * V)) (k : K) : option V :=
  match d with
  | [] => None
  | (k', v) :: t => if eqb k' k then Some v else get t k
  end.

(** [d.get(k, dflt)] *)
Definition get_default (d : list (K * V)) (k : K) (dflt : V) : V :=
  match get d k with
  | Some v => v
  | None => dflt
  end.

(** [d[k] = v]: an existing key keeps its place, a new one goes last. *)
Fixpoint setitem (d : list (K * V)) (k : K) (v : V) : list (K * V) :=
  match d with
  | [] => [(k, v)]
  | (k', v') :: t =>
      if eqb k' k then (k', v) :: t else (k', v') :: setitem t k v
  end.

Definition keys (d : list (K * V)) : list K := map fst d.
Definition values (d : list (K * V)) : list V := map snd d.
End Dict.

End Py.

Import Py.

Declare Scope py_scope.
Notation "x <- m ;; k" := (Py.bind m (fun x => k))
  (at level 61, m at next level, right associativity) : py_scope.
Notation "' pat <- m ;; k" := (Py.bind m (fun x => match x with pat => k end))
  (at level 61, pat pattern, m at next level, right associativity) : py_scope.
Local Open Scope py_scope.

(** ** src/ai/hand_evaluator.py *)

Module HandEvaluator.

(** [@dataclass class HandRank] *)
Record HandRank : Type := mkHandRank {
  category : Z;
  rank_values : list Z;
  description : string
}.

(** Python's ordering of two lists of integers: the first position where
    they differ decides, a proper prefix is smaller. *)
Fixpoint list_lt (a b : list Z) : bool :=
  match a, b with
  | [], [] => false
  | [], _ :: _ => true
  | _ :: _, [] => false
  | x :: a', y :: b' => if x =? y then list_lt a' b' else x <? y
  end.

Fixpoint list_eq (a b : list Z) : bool :=
  match a, b with
  | [], [] => true
  | x :: a', y :: b' => (x =? y) && list_eq a' b'
  | _, _ => false
  end.

(** [HandRank.__lt__] *)
Definition __lt__ (self other : HandRank) : bool :=
  if negb (category self =? category other)
  then category self <? category other
  else list_lt (rank_values self) (rank_values other).

(** [HandRank.__eq__] *)
Definition __eq__ (self other : HandRank) : bool :=
  (category self =? category other)
  && list_eq (rank_values self) (rank_values other).

(** [a > b]: the class defines no [__gt__], so Python evaluates the
    reflected [b.__lt__(a)]. *)
Definition gt (a b : HandRank) : bool := __lt__ b a.

Definition ranks : string := "23456789TJQKA".
Definition suits : string := "shdc".

(** [HandEvaluator._init_card_map] *)
Definition _init_card_map : list (string * Z) :=
  fold_left
    (fun card_map '(i, rank) =>
       fold_left
         (fun card_map '(j, suit) =>
            let card_int := Z.lor i (Z.shiftl 0x1000 j) in
            setitem String.eqb card_map
              (String rank (String suit EmptyString)) card_int)
         (enumerate (list_ascii_of_string suits)) card_map)
    (enumerate (list_ascii_of_string ranks)) [].

Definition card_map : list (string * Z) := Eval vm_compute in _init_card_map.

(** [HandEvaluator._check_flush]; [None] is Python's [None]. *)
Definition _check_flush (cards : list Z) : option Z :=
  match cards with
  | [] => None
  | c0 :: rest =>
      let first_suit := Z.land c0 0xF000 in
      if forallb (fun card => Z.land card 0xF000 =? first_suit) rest
      then Some (Z.shiftr first_suit 12)
      else None
  end.

(** The [for i in range(len(ranks) - 4)] loop of [_check_straight]. *)
Fixpoint straight_scan (ranks : list Z) (idxs : list nat) : option Z :=
  match idxs with
  | [] => None
  | i :: idxs' =>
      if nth (i + 4) ranks 0 - nth i ranks 0 =? 4
      then Some (nth (i + 4) ranks 0)
      else straight_scan ranks idxs'
  end.

(** [HandEvaluator._check_straight] *)
Definition _check_straight (cards : list Z) : option Z :=
  let ranks := sorted (set (map (fun c => Z.land c 0xF) cards)) in
  if (List.length ranks <? 5)%nat then None
  else
    match straight_scan ranks (seq 0 (List.length ranks - 4)) with
    | Some high => Some high
    | None =>
        if list_eq ranks [0; 1; 2; 3; 12] then Some 3 else None
    end.

(** [HandEvaluator._count_ranks] *)
Definition _count_ranks (cards : list Z) : list (Z * Z) :=
  fold_left
    (fun counts card =>
       let rank := Z.land card 0xF in
       setitem Z.eqb counts rank (get_default Z.eqb counts rank 0 + 1))
    cards [].

(** [HandEvaluator._rank_name] *)
Definition names : list string :=
  ["2"; "3"; "4"; "5"; "6"; "7"; "8"; "9"; "T"; "J"; "Q"; "K"; "A"].

Definition _rank_name (rank : Z) : string :=
  if (0 <=? rank) && (rank <? Z.of_nat (List.length names))
  then nth (Z.to_nat rank) names "" else str_int rank.

(** Truth value of an [Optional[int]] in an [if]. *)
Definition truthy (o : option Z) : bool :=
  match o with
  | Some n => negb (n =? 0)
  | None => false
  end.

Definition unwrap (o : option Z) : Z :=
  match o with Some n => n | None => 0 end.

(** [[r for r, c in rank_counts.items() if p(c)]] *)
Definition ranks_where (p : Z -> bool) (rank_counts : list (Z * Z)) : list Z :=
  map fst (filter (fun rc => p (snd rc)) rank_counts).

(** [HandEvaluator._evaluate_5_cards] *)
Definition _evaluate_5_cards (cards : list Z) : result HandRank :=
  let flush_suit := _check_flush cards in
  if truthy flush_suit then
    let straight_high := _check_straight cards in
    if truthy straight_high then
      Ok (mkHandRank 8 [unwrap straight_high]
            ("Straight Flush, " ++ _rank_name (unwrap straight_high) ++ " high")%string)
    else
      let ranks := sorted_reverse (map (fun c => Z.land c 0xF) cards) in
      r0 <- index0 ranks ;;
      Ok (mkHandRank 5 ranks ("Flush, " ++ _rank_name r0 ++ " high")%string)
  else
  let straight_high := _check_straight cards in
  if truthy straight_high then
    Ok (mkHandRank 4 [unwrap straight_high]
          ("Straight, " ++ _rank_name (unwrap straight_high) ++ " high")%string)
  else
  let rank_counts := _count_ranks cards in
  let quads := ranks_where (fun c => c =? 4) rank_counts in
  match quads with
  | q0 :: _ =>
      kicker <- index0 (ranks_where (fun c => negb (c =? 4)) rank_counts) ;;
      Ok (mkHandRank 7 [q0; kicker] ("Four " ++ _rank_name q0 ++ "s")%string)
  | [] =>
  let trips := ranks_where (fun c => c =? 3) rank_counts in
  let pairs := ranks_where (fun c => c =? 2) rank_counts in
  match trips, pairs with
  | t0 :: _, p0 :: _ =>
      Ok (mkHandRank 6 [t0; p0]
            ("Full House, " ++ _rank_name t0 ++ "s full of "
               ++ _rank_name p0 ++ "s")%string)
  | t0 :: _, [] =>
      let kickers :=
        firstn 2 (sorted_reverse (ranks_where (fun c => c =? 1) rank_counts)) in
      Ok (mkHandRank 3 (t0 :: kickers) ("Three " ++ _rank_name t0 ++ "s")%string)
  | [], _ =>
  if (2 <=? List.length pairs)%nat then
    let pairs_sorted := firstn 2 (sorted_reverse pairs) in
    kicker <- index0 (sorted_reverse (ranks_where (fun c => c =? 1) rank_counts)) ;;
    Ok (mkHandRank 2 (pairs_sorted ++ [kicker])
          ("Two Pair, " ++ _rank_name (nth 0 pairs_sorted 0) ++ "s and "
             ++ _rank_name (nth 1 pairs_sorted 0) ++ "s")%string)
  else
  match pairs with
  | [p0] =>
      let kickers :=
        firstn 3 (sorted_reverse (ranks_where (fun c => c =? 1) rank_counts)) in
      Ok (mkHandRank 1 (p0 :: kickers) ("Pair of " ++ _rank_name p0 ++ "s")%string)
  | _ =>
      let ranks := sorted_reverse (map (fun c => Z.land c 0xF) cards) in
      r0 <- index0 ranks ;;
      Ok (mkHandRank 0 ranks (_rank_name r0 ++ " high")%string)
  end
  end
  end.

(** [itertools.combinations(l, r)]: the [r]-element subsequences of [l],
    in lexicographic order of their positions. *)
Fixpoint combinations {A} (l : list A) (r : nat) : list (list A) :=
  match r with
  | O => [[]]
  | S r' =>
      match l with
      | [] => []
      | x :: t => map (cons x) (combinations t r') ++ combinations t r
      end
  end.

(** The loop shared by [_evaluate_6_cards] and [_evaluate_7_cards]:
    [best_rank] starts as [None] and is replaced when a combination
    ranks strictly higher. *)
Fixpoint best_loop (combos : list (list Z)) (best_rank : option HandRank)
  : result (option HandRank) :=
  match combos with
  | [] => Ok best_rank
  | combo :: rest =>
      rank <- _evaluate_5_cards combo ;;
      best_loop rest
        (match best_rank with
         | None => Some rank
         | Some best => if gt rank best then Some rank else Some best
         end)
  end.

(** [HandEvaluator._evaluate_6_cards] *)
Definition _evaluate_6_cards (cards : list Z) : result (option HandRank) :=
  best_loop (combinations cards 5) None.

(** [HandEvaluator._evaluate_7_cards] *)
Definition _evaluate_7_cards (cards : list Z) : result (option HandRank) :=
  best_loop (combinations cards 5) None.

(** [HandEvaluator._evaluate_best_7] *)
Definition _evaluate_best_7 (cards : list Z) : result (option HandRank) :=
  _evaluate_7_cards cards.

(** [HandEvaluator.evaluate_hand] *)
Definition evaluate_hand (cards : list string) : result (option HandRank) :=
  if (List.length cards <? 5)%nat
  then Raise (ValueError "Need at least 5 cards to evaluate")
  else
    let card_ints :=
      map (fun card => get_default String.eqb card_map (upper card) 0) cards in
    if (List.length cards =? 5)%nat then
      r <- _evaluate_5_cards card_ints ;; Ok (Some r)
    else if (List.length cards =? 6)%nat then _evaluate_6_cards card_ints
    else if (List.length cards =? 7)%nat then _evaluate_7_cards card_ints
    else _evaluate_best_7 (slice card_ints 0 7).

End HandEvaluator.

(** ** src/core/computer_vision.py: the records the engine consumes *)

Module ComputerVision.

(** [@dataclass class Card] *)
Record Card : Type := mkCard {
  rank : string;
  suit : string;
  confidence : Q;
  position : Z * Z;
  bounding_box : Z * Z * Z * Z
}.

(** [Card.card_string] *)
Definition card_string (c : Card) : string := (rank c ++ suit c)%string.

(** [@dataclass class GameInfo]; the fields the engine reads. *)
Record GameInfo : Type := mkGameInfo {
  pot_size : option Q;
  current_bet : option Q;
  betting_round : option string
}.

(** [@dataclass class GameState]; the fields the engine reads. *)
Record GameState : Type := mkGameState {
  timestamp : Q;
  platform : string;
  hole_cards : list Card;
  community_cards : list Card;
  game_info : GameInfo;
  confidence_score : Q
}.

End ComputerVision.

(** ** src/core/ai_engine.py *)

Module AIEngine.
Import ComputerVision.

(** [class ActionType(Enum)] *)
Inductive ActionType : Type := FOLD | CHECK | CALL | BET | RAISE | ALL_IN.

Definition ActionType_eqb (a b : ActionType) : bool :=
  match a, b with
  | FOLD, FOLD | CHECK, CHECK | CALL, CALL | BET, BET
  | RAISE, RAISE | ALL_IN, ALL_IN => true
  | _, _ => false
  end.

(** [@dataclass class HandStrength] *)
Record HandStrength : Type := mkHandStrength {
  raw_strength : Q;
  equity : Q;
  potential : Q;
  hs_category : string;
  hs_description : string
}.

(** [@dataclass class Recommendation]; [amount] and
    [alternative_actions] keep their defaults in every constructor call
    of the engine. *)
Record Recommendation : Type := mkRecommendation {
  action : ActionType;
  amount : option Q;
  rec_confidence : Q;
  reasoning : string;
  alternative_actions : list (ActionType * Q * Q);
  expected_value : Q;
  risk_assessment : string
}.

(** [@dataclass class OpponentModel] *)
Record OpponentModel : Type := mkOpponentModel {
  player_id : string;
  vpip : Q;
  pfr : Q;
  aggression_factor : Q;
  hands_observed : Z
}.

(** [@dataclass class HandAnalysis] *)
Record HandAnalysis : Type := mkHandAnalysis {
  hand_strength : HandStrength;
  pot_odds : Q;
  implied_odds : Q;
  position_advantage : Q;
  opponent_models : list OpponentModel;
  recommendation : Recommendation;
  gto_strategy : list (string * Q);
  exploitative_adjustments : list (string * Q);
  analysis_time_ms : Q
}.

(** Comparison of floats, as booleans. *)
Definition Qgtb (a b : Q) : bool := negb (Qle_bool a b).
Definition Qltb (a b : Q) : bool := negb (Qle_bool b a).

(** *** class EquityCalculator *)

(** [EquityCalculator._create_deck] *)
Definition _create_deck : list string :=
  flat_map
    (fun rank => map (fun suit => (rank ++ suit)%string) ["h"; "d"; "c"; "s"])
    ["A"; "K"; "Q"; "J"; "T"; "9"; "8"; "7"; "6"; "5"; "4"; "3"; "2"].

(** [s[i]] on a string *)
Definition char_at (s : string) (i : nat) : result string :=
  match String.get i s with
  | Some c => Ok (String c EmptyString)
  | None => Raise (IndexError "string index out of range")
  end.

(** [int(s)] on a text of decimal digits; any other text is taken to
    raise [ValueError], which is what Python does for every text over the
    card alphabet that is not a number. *)
Definition is_digit (c : ascii) : bool :=
  ((48 <=? nat_of_ascii c) && (nat_of_ascii c <=? 57))%nat.

Fixpoint digits_value (s : string) (acc : Z) : Z :=
  match s with
  | EmptyString => acc
  | String c t => digits_value t (10 * acc + Z.of_nat (nat_of_ascii c - 48))
  end.

Definition int_of_str (s : string) : result Z :=
  match s with
  | EmptyString =>
      Raise (ValueError "invalid literal for int() with base 10: ''")
  | String _ _ =>
      if forallb is_digit (list_ascii_of_string s)
      then Ok (digits_value s 0)
      else Raise (ValueError
                    ("invalid literal for int() with base 10: '" ++ s ++ "'")%string)
  end.

(** The conversion of a rank to its value, in [_evaluate_hand]. *)
Definition rank_value (rank : string) : result Z :=
  if String.eqb rank "A" then Ok 14
  else if String.eqb rank "K" then Ok 13
  else if String.eqb rank "Q" then Ok 12
  else if String.eqb rank "J" then Ok 11
  else if String.eqb rank "T" then Ok 10
  else int_of_str rank.

(** The [for i in range(len(ranks) - 4)] loop of [_check_straight]. *)
Fixpoint straight_scan (ranks : list Z) (idxs : list nat) : bool :=
  match idxs with
  | [] => false
  | i :: idxs' =>
      if nth i ranks 0 - nth (i + 4) ranks 0 =? 4 then true
      else straight_scan ranks idxs'
  end.

(** [EquityCalculator._check_straight] *)
Definition _check_straight (ranks : list Z) : bool :=
  if (List.length ranks <? 5)%nat then false
  else if straight_scan ranks (seq 0 (List.length ranks - 4)) then true
  else forallb (fun r => existsb (Z.eqb r) (Py.set ranks)) [14; 5; 4; 3; 2].

(** The three accumulators filled by the loop over [all_cards]. *)
Fixpoint tally (all_cards : list Card)
    (rank_values : list Z) (suit_counts : list (string * Z))
    (rank_counts : list (Z * Z))
  : result (list Z * list (string * Z) * list (Z * Z)) :=
  match all_cards with
  | [] => Ok (rank_values, suit_counts, rank_counts)
  | card :: rest =>
      value <- rank_value (rank card) ;;
      tally rest
        (rank_values ++ [value])
        (setitem String.eqb suit_counts (suit card)
           (get_default String.eqb suit_counts (suit card) 0 + 1))
        (setitem Z.eqb rank_counts value
           (get_default Z.eqb rank_counts value 0 + 1))
  end.

(** [max(rank for rank, count in rank_counts.items() if count == n)] *)
Definition max_rank_with (n : Z) (rank_counts : list (Z * Z)) : result Z :=
  Py.max (map fst (filter (fun rc => snd rc =? n) rank_counts)).

(** [EquityCalculator._evaluate_hand] *)
Definition _evaluate_hand (hole_cards board_cards : list Card) : result Z :=
  let all_cards := hole_cards ++ board_cards in
  '(rank_values, suit_counts, rank_counts) <- tally all_cards [] [] [] ;;
  let is_flush := existsb (fun count => 5 <=? count) (values suit_counts) in
  let unique_ranks := sorted_reverse (Py.set rank_values) in
  let is_straight := _check_straight unique_ranks in
  let pair_counts :=
    sorted_reverse (filter (fun count => 2 <=? count) (values rank_counts)) in
  let has n := existsb (Z.eqb n) (values rank_counts) in
  if is_straight && is_flush then
    m <- Py.max unique_ranks ;; Ok (8000 + m)
  else if has 4 then
    m <- max_rank_with 4 rank_counts ;; Ok (7000 + m)
  else if has 3 && has 2 then Ok 6000
  else if is_flush then
    m <- Py.max unique_ranks ;; Ok (5000 + m)
  else if is_straight then
    m <- Py.max unique_ranks ;; Ok (4000 + m)
  else if has 3 then
    m <- max_rank_with 3 rank_counts ;; Ok (3000 + m)
  else if (2 <=? List.length pair_counts)%nat then Ok 2000
  else if has 2 then
    m <- max_rank_with 2 rank_counts ;; Ok (1000 + m)
  else Py.max unique_ranks.

(** [Card(card[0], card[1], 1.0, (0, 0), (0, 0, 0, 0))] *)
Definition card_of_str (card : string) : result Card :=
  r <- char_at card 0 ;;
  s <- char_at card 1 ;;
  Ok (mkCard r s 1 (0, 0) (0, 0, 0, 0)).

(** The dealing loop: [num_opponents] slices of two cards. *)
Fixpoint deal_opponents (simulation_deck : list string) (n : nat)
    (deck_index : nat) : list (list string) * nat :=
  match n with
  | O => ([], deck_index)
  | S n' =>
      let opp_hand := slice simulation_deck deck_index (deck_index + 2) in
      let '(rest, last) := deal_opponents simulation_deck n' (deck_index + 2) in
      (opp_hand :: rest, last)
  end.

(** The board after [board_cards.extend(...)]. *)
Definition complete_board (community_cards : list Card)
    (simulation_deck : list string) (deck_index : nat) : result (list Card) :=
  let cards_needed := 5 - Z.of_nat (List.length community_cards) in
  if 0 <? cards_needed then
    ext <- mapM card_of_str
             (slice simulation_deck deck_index
                (deck_index + Z.to_nat cards_needed)) ;;
    Ok (community_cards ++ ext)
  else Ok community_cards.

(** The two strengths that one pass of the simulation loop compares:
    the player's and [max_opponent_strength]. *)
Definition trial_strengths (hole_cards community_cards : list Card)
    (num_opponents : Z) (simulation_deck : list string) : result (Z * Z) :=
  let '(opponents_cards, deck_index) :=
    deal_opponents simulation_deck (Z.to_nat num_opponents) 0 in
  board_cards <- complete_board community_cards simulation_deck deck_index ;;
  player_strength <- _evaluate_hand hole_cards board_cards ;;
  opponent_strengths <-
    mapM (fun opp => cs <- mapM card_of_str opp ;; _evaluate_hand cs board_cards)
      opponents_cards ;;
  let max_opponent_strength :=
    match opponent_strengths with
    | [] => 0
    | x :: t => fold_left Z.max t x
    end in
  Ok (player_strength, max_opponent_strength).

Section Simulation.
(** [np.random.shuffle]: the permutation drawn in each pass of the
    loop is an input of the model. *)
Variable shuffle : nat -> list string -> list string.

(** The body of [for _ in range(self.num_simulations)], on the
    counters [(wins, ties)]. *)
Fixpoint simulation_loop (hole_cards community_cards : list Card)
    (num_opponents : Z) (available_cards : list string)
    (trials : list nat) (wins ties : Z) : result (Z * Z) :=
  match trials with
  | [] => Ok (wins, ties)
  | t :: rest =>
      let simulation_deck := shuffle t available_cards in
      '(player_strength, max_opponent_strength) <-
        trial_strengths hole_cards community_cards num_opponents
          simulation_deck ;;
      if max_opponent_strength <? player_strength then
        simulation_loop hole_cards community_cards num_opponents
          available_cards rest (wins + 1) ties
      else if player_strength =? max_opponent_strength then
        simulation_loop hole_cards community_cards num_opponents
          available_cards rest wins (ties + 1)
      else
        simulation_loop hole_cards community_cards num_opponents
          available_cards rest wins ties
  end.

(** [EquityCalculator.calculate_equity] *)
Definition calculate_equity (num_simulations : Z)
    (hole_cards community_cards : list Card) (num_opponents : Z)
  : result Q :=
  if negb (List.length hole_cards =? 2)%nat then Ok 0%Q
  else
    let known_cards := map card_string (hole_cards ++ community_cards) in
    let available_cards :=
      filter (fun card => negb (existsb (String.eqb card) known_cards))
        _create_deck in
    '(wins, ties) <-
      simulation_loop hole_cards community_cards num_opponents
        available_cards (seq 0 (Z.to_nat num_simulations)) 0 0 ;;
    if num_simulations =? 0
    then Raise (ZeroDivisionError "float division by zero")
    else Ok ((inject_Z wins + inject_Z ties * (1 # 2))
               / inject_Z num_simulations)%Q.
End Simulation.

(** *** class GTOSolver *)

(** [GTOSolver._get_preflop_gto_range(PositionType.BTN)], the only call
    the engine makes ([_get_gto_baseline] passes an empty history). *)
Definition _get_gto_baseline : list (string * Q) :=
  [("fold", 65 # 100); ("call", 20 # 100); ("raise", 15 # 100)]%Q.

(** *** class AIAnalysisEngine *)

(** The counters kept by the engine object. *)
Record Engine : Type := mkEngine {
  analysis_count : Z;
  total_analysis_time : Q
}.

(** [AIAnalysisEngine._categorize_preflop_hand] *)
Definition _categorize_preflop_hand (hole_cards : list Card) : result string :=
  match hole_cards with
  | [card1; card2] =>
      Ok (if String.eqb (rank card1) (rank card2)
          then "Pocket " ++ rank card1 ++ "s"
          else if String.eqb (suit card1) (suit card2)
          then rank card1 ++ rank card2 ++ " suited"
          else rank card1 ++ rank card2 ++ " offsuit")%string
  | _ => Raise (ValueError "wrong number of values to unpack (expected 2)")
  end.

(** [AIAnalysisEngine._categorize_made_hand] *)
Definition _categorize_made_hand (hole_cards community_cards : list Card)
  : string := "Made hand".

(** [AIAnalysisEngine._calculate_hand_potential] *)
Definition _calculate_hand_potential (hole_cards community_cards : list Card)
  : Q := if (5 <=? List.length community_cards)%nat then 0%Q else (1 # 2)%Q.

(** Truth value of an [Optional[float]]. *)
Definition truthyQ (o : option Q) : bool :=
  match o with
  | Some q => negb (Qeq_bool q 0)
  | None => false
  end.

Definition unwrapQ (o : option Q) : Q :=
  match o with Some q => q | None => 0%Q end.

(** [AIAnalysisEngine._calculate_pot_odds]; the quotient of the two
    floats is the exact quotient of rationals, where the doubles of the
    source round it (to 1.0 for a pot far smaller than the bet, to 0.0
    when pot + bet overflows). *)
Definition _calculate_pot_odds (game_info : GameInfo) : result Q :=
  if negb (truthyQ (pot_size game_info)) || negb (truthyQ (current_bet game_info))
  then Ok 0%Q
  else
    let pot := unwrapQ (pot_size game_info) in
    let bet := unwrapQ (current_bet game_info) in
    if Qeq_bool (pot + bet) 0
    then Raise (ZeroDivisionError "float division by zero")
    else Ok (bet / (pot + bet))%Q.

(** [AIAnalysisEngine._calculate_implied_odds] *)
Definition _calculate_implied_odds (game_info : GameInfo) : result Q :=
  pot_odds <- _calculate_pot_odds game_info ;;
  Ok (pot_odds * (3 # 2))%Q.

(** [AIAnalysisEngine._generate_recommendation] *)
Definition _generate_recommendation (hand_strength : HandStrength)
    (pot_odds implied_odds position_advantage : Q)
    (exploitative_adjustments : list (string * Q)) : Recommendation :=
  let '(action, confidence, reasoning) :=
    if Qgtb (equity hand_strength) (7 # 10)
    then (BET, (9 # 10)%Q, "Strong hand - value betting")
    else if Qgtb (equity hand_strength) (5 # 10)
    then (CALL, (7 # 10)%Q, "Medium strength - calling")
    else if Qgtb pot_odds (3 # 10)
    then (CALL, (6 # 10)%Q, "Good pot odds - calling")
    else (FOLD, (8 # 10)%Q, "Weak hand - folding") in
  mkRecommendation action None confidence reasoning []
    (equity hand_strength - (5 # 10))%Q
    (if Qgtb confidence (7 # 10) then "Medium" else "High").

Section Analysis.
Variable shuffle : nat -> list string -> list string.
(** [f"{equity:.1%}"]: the text of a float is not modelled. *)
Variable format_percent : Q -> string.
(** [simulation_count], given to the constructor. *)
Variable simulation_count : Z.

(** [AIAnalysisEngine._analyze_hand_strength] *)
Definition _analyze_hand_strength (hole_cards community_cards : list Card)
  : result HandStrength :=
  if negb (List.length hole_cards =? 2)%nat
  then Ok (mkHandStrength 0 0 0 "invalid" "Invalid hole cards")
  else
    equity <- calculate_equity shuffle simulation_count
                hole_cards community_cards 1 ;;
    category <-
      (if (List.length community_cards =? 0)%nat
       then _categorize_preflop_hand hole_cards
       else Ok (_categorize_made_hand hole_cards community_cards)) ;;
    Ok (mkHandStrength equity equity
          (_calculate_hand_potential hole_cards community_cards)
          category
          (category ++ " with " ++ format_percent equity ++ " equity")%string).

(** The [try] block of [analyze_hand], up to the construction of the
    analysis; [analysis_time] is the elapsed time it measures. *)
Definition analysis_cycle (game_state : GameState) (analysis_time : Q)
  : result HandAnalysis :=
  hand_strength <-
    _analyze_hand_strength (hole_cards game_state) (community_cards game_state) ;;
  pot_odds <- _calculate_pot_odds (game_info game_state) ;;
  implied_odds <- _calculate_implied_odds (game_info game_state) ;;
  let position_advantage := (1 # 2)%Q in
  let opponent_models := @nil OpponentModel in
  let gto_strategy := _get_gto_baseline in
  let exploitative_adjustments := @nil (string * Q) in
  let recommendation :=
    _generate_recommendation hand_strength pot_odds implied_odds
      position_advantage exploitative_adjustments in
  Ok (mkHandAnalysis hand_strength pot_odds implied_odds position_advantage
        opponent_models recommendation gto_strategy
        exploitative_adjustments analysis_time).

(** The [except Exception as e] branch of [analyze_hand]. *)
Definition safe_fold (e : exn) (analysis_time : Q) : HandAnalysis :=
  mkHandAnalysis
    (mkHandStrength 0 0 0 "unknown" "Analysis error")
    0 0 0 []
    (mkRecommendation FOLD None 1
       ("Analysis error: " ++ str_exn e)%string [] 0 "")
    [] [] analysis_time.

(** [AIAnalysisEngine.analyze_hand]: the analysis and the engine after
    the call. *)
Definition analyze_hand (self : Engine) (game_state : GameState)
    (analysis_time : Q) : HandAnalysis * Engine :=
  match analysis_cycle game_state analysis_time with
  | Ok analysis =>
      (analysis,
       mkEngine (analysis_count self + 1)
         (total_analysis_time self + analysis_time)%Q)
  | Raise e => (safe_fold e analysis_time, self)
  end.
End Analysis.

End AIEngine.

(** ** src/core/decision_manager.py *)

Module DecisionManager.
Import ComputerVision AIEngine.

(** [class UrgencyLevel(Enum)] *)
Inductive UrgencyLevel : Type := LOW | MEDIUM | HIGH | CRITICAL.

(** [DecisionManager._calculate_urgency] *)
Definition _calculate_urgency (analysis : HandAnalysis) (game_state : GameState)
  : UrgencyLevel :=
  if ActionType_eqb (action (recommendation analysis)) ALL_IN
     || Qgtb (equity (hand_strength analysis)) (95 # 100)
     || Qltb (equity (hand_strength analysis)) (5 # 100)
  then HIGH
  else if Qgtb (rec_confidence (recommendation analysis)) (8 # 10)
          || Qgtb (pot_odds analysis) (4 # 10)
  then MEDIUM
  else if Qgtb (rec_confidence (recommendation analysis)) (6 # 10)
  then LOW
  else CRITICAL.

End DecisionManager.

(** ** src/core/screen_capture.py *)

Module ScreenCapture.

(** [@dataclass class CaptureRegion] *)
Record CaptureRegion : Type := mkCaptureRegion {
  x : Z; y : Z; width : Z; height : Z; monitor : Z
}.

(** [@dataclass class CaptureResult]; the pixels of [image] are a list of
    bytes. *)
Record CaptureResult : Type := mkCaptureResult {
  image : option (list Z);
  timestamp : Q;
  region : CaptureRegion;
  success : bool;
  error_message : option string
}.

(** [queue.Queue(maxsize)]: first in, first out; the head of [items] is
    the oldest entry. *)
Record Queue : Type := mkQueue {
  maxsize : Z;
  items : list CaptureResult
}.

Definition qsize (q : Queue) : Z := Z.of_nat (List.length (items q)).

(** [Queue.put_nowait]; [None] is [queue.Full]. *)
Definition put_nowait (q : Queue) (item : CaptureResult) : option Queue :=
  if (0 <? maxsize q) && (maxsize q <=? qsize q) then None
  else Some (mkQueue (maxsize q) (items q ++ [item])).

(** [Queue.get_nowait]; [None] is [queue.Empty]. *)
Definition get_nowait (q : Queue) : option (CaptureResult * Queue) :=
  match items q with
  | [] => None
  | item :: rest => Some (item, mkQueue (maxsize q) rest)
  end.

(** The part of [ScreenCaptureEngine] that the capture loop and its
    consumer share. *)
Record Engine : Type := mkEngine {
  _frame_queue : Queue;
  _capture_count : Z;
  _error_count : Z
}.

(** [ScreenCaptureEngine.__init__] *)
Definition init (max_queue_size : Z) : Engine :=
  mkEngine (mkQueue max_queue_size []) 0 0.

(** One pass of [while not self._stop_event.is_set()] in
    [_capture_loop], for the [result] the backend returned.  A
    [queue.Full] raised by the second [put_nowait] is not caught by
    [except queue.Empty] and reaches the outer handler, which counts an
    error.  The frame callback does not touch the queue and is left out. *)
Definition _capture_loop_pass (self : Engine) (result : CaptureResult) : Engine :=
  let count := _capture_count self + 1 in
  let errors :=
    if negb (success result) then _error_count self + 1 else _error_count self in
  match put_nowait (_frame_queue self) result with
  | Some q => mkEngine q count errors
  | None =>
      match get_nowait (_frame_queue self) with
      | Some (_, q1) =>
          match put_nowait q1 result with
          | Some q2 => mkEngine q2 count errors
          | None => mkEngine q1 count (errors + 1)
          end
      | None => mkEngine (_frame_queue self) count errors
      end
  end.

(** [ScreenCaptureEngine.get_latest_frame] *)
Definition get_latest_frame (self : Engine) : option CaptureResult * Engine :=
  match get_nowait (_frame_queue self) with
  | Some (item, q) =>
      (Some item, mkEngine q (_capture_count self) (_error_count self))
  | None => (None, self)
  end.

(** The capture thread running alone: one pass per backend result. *)
Definition run_captures (self : Engine) (results : list CaptureResult) : Engine :=
  fold_left _capture_loop_pass results self.

End ScreenCapture.

(** ** src/vision/card_detector.py *)

Module CardDetector.
Import AIEngine.

(** [@dataclass class CardDetectionResult] *)
Record CardDetectionResult : Type := mkCardDetectionResult {
  rank : string;
  suit : string;
  confidence : Q;
  position : Z * Z;
  bounding_box : Z * Z * Z * Z;
  detection_method : string
}.

(** [CardDetectionResult.card_string] *)
Definition card_string (d : CardDetectionResult) : string :=
  (rank d ++ suit d)%string.

(** [self.hybrid_confidence_boost], set by the constructor. *)
Definition hybrid_confidence_boost : Q := 1 # 10.

Definition proximity_threshold : Z := 50.

(** The test in the innermost loop of [_merge_detections]. *)
Definition agrees (detection existing : CardDetectionResult) : bool :=
  String.eqb (card_string detection) (card_string existing)
  && (Z.abs (fst (position detection) - fst (position existing))
        <? proximity_threshold)
  && (Z.abs (snd (position detection) - snd (position existing))
        <? proximity_threshold).

(** The search for a group in [_merge_detections]: the detection joins
    the first group with a member it agrees with, or starts a new group
    at the end. *)
Fixpoint place (groups : list (list CardDetectionResult))
    (detection : CardDetectionResult) : list (list CardDetectionResult) :=
  match groups with
  | [] => [[detection]]
  | group :: rest =>
      if existsb (agrees detection) group
      then (group ++ [detection]) :: rest
      else group :: place rest detection
  end.

Definition group_detections (detections : list CardDetectionResult)
  : list (list CardDetectionResult) := fold_left place detections [].

(** [max(group, key=lambda x: x.confidence)] with [best] the maximum so
    far: the first of the largest wins. *)
Fixpoint max_confidence (best : CardDetectionResult)
    (l : list CardDetectionResult) : CardDetectionResult :=
  match l with
  | [] => best
  | d :: t =>
      max_confidence (if Qgtb (confidence d) (confidence best) then d else best) t
  end.

Definition sumZ (l : list Z) : Z := fold_left Z.add l 0.

(** [set(d.detection_method for d in group)] *)
Definition methods_of (group : list CardDetectionResult) : list string :=
  nodup string_dec (map detection_method group).

(** [CardDetector._create_consensus_detection].  [int(avg)] cuts the
    quotient of two integers towards zero, which is [Z.quot]. *)
Definition _create_consensus_detection (group : list CardDetectionResult)
  : option CardDetectionResult :=
  match group with
  | [] => None
  | d0 :: rest =>
      let best_detection := max_confidence d0 rest in
      let n := Z.of_nat (List.length group) in
      let sum_x := sumZ (map (fun d => fst (position d)) group) in
      let sum_y := sumZ (map (fun d => snd (position d)) group) in
      let boosted_confidence :=
        Qmin 1 (confidence best_detection
                + inject_Z (n - 1) * hybrid_confidence_boost) in
      let methods := methods_of group in
      let detection_method :=
        if (1 <? List.length methods)%nat then "hybrid"
        else detection_method best_detection in
      Some (mkCardDetectionResult
              (rank best_detection) (suit best_detection)
              boosted_confidence
              (Z.quot sum_x n, Z.quot sum_y n)
              (bounding_box best_detection)
              detection_method)
  end.

(** The second loop of [_merge_detections]. *)
Definition finalize (group : list CardDetectionResult)
  : list CardDetectionResult :=
  match group with
  | [d] => [d]
  | _ =>
      match _create_consensus_detection group with
      | Some consensus => [consensus]
      | None => []
      end
  end.

(** [CardDetector._merge_detections] *)
Definition _merge_detections (detections : list CardDetectionResult)
  : list CardDetectionResult :=
  match detections with
  | [] => []
  | _ => flat_map finalize (group_detections detections)
  end.

End CardDetector.

(** ** Reference definitions, written after the words of the specification *)

Module Spec.
Import HandEvaluator ComputerVision AIEngine.

(** "compare category first, then tie-break vector lexicographically" *)
Inductive lex_lt : list Z -> list Z -> Prop :=
| lex_prefix : forall y b, lex_lt [] (y :: b)
| lex_head : forall x y a b, x < y -> lex_lt (x :: a) (y :: b)
| lex_tail : forall x a b, lex_lt a b -> lex_lt (x :: a) (x :: b).

Definition rank_lt (a b : HandRank) : Prop :=
  category a < category b
  \/ (category a = category b /\ lex_lt (rank_values a) (rank_values b)).

(** All subsequences of a list, and "all C(n,5) five-card subsets". *)
Fixpoint subsequences {A} (l : list A) : list (list A) :=
  match l with
  | [] => [[]]
  | x :: t => map (cons x) (subsequences t) ++ subsequences t
  end.

Definition five_card_subsets (cards : list Z) : list (list Z) :=
  filter (fun s => (List.length s =? 5)%nat) (subsequences cards).

(** "keep the maximum by the total order": [best] is one of the ranks
    and none of them is strictly above it. *)
Definition is_maximum (best : HandRank) (ranks : list HandRank) : Prop :=
  In best ranks /\ forall r, In r ranks -> __lt__ best r = false.

(** The number of cards that a table of rank counts accounts for. *)
Definition total_count (rank_counts : list (Z * Z)) : Z :=
  fold_right (fun rc acc => snd rc + acc) 0 rank_counts.

(** The result of one simulated deal. *)
Inductive outcome : Type := Win | Tie | Loss.

Definition outcome_eqb (a b : outcome) : bool :=
  match a, b with
  | Win, Win | Tie, Tie | Loss, Loss => true
  | _, _ => false
  end.

Definition count (o : outcome) (l : list outcome) : Z :=
  Z.of_nat (List.length (filter (outcome_eqb o) l)).

(** "Equity = (wins + 0.5 ties) / trials" *)
Definition equity_of (outcomes : list outcome) : Q :=
  ((inject_Z (count Win outcomes) + (1 # 2) * inject_Z (count Tie outcomes))
     / inject_Z (Z.of_nat (List.length outcomes)))%Q.

(** "the player wins the trial if their HandRank is strictly greatest;
    ties among the maximum count as a tie" *)
Definition rank_outcome (player : HandRank) (opponents : list HandRank)
  : outcome :=
  if forallb (fun o => __lt__ o player) opponents then Win
  else if forallb (fun o => negb (__lt__ player o)) opponents then Tie
  else Loss.

(** A card of the simulation in the encoding of the hand evaluator's
    card table. *)
Definition encode (c : Card) : Z :=
  get_default String.eqb card_map (card_string c) 0.

(** "evaluate the player's best hand and each opponent's best hand via
    4.2": the seven cards of a player go through [_evaluate_7_cards]. *)
Definition best_hand (hole board : list Card) : result HandRank :=
  r <- _evaluate_7_cards (map encode (hole ++ board)) ;;
  match r with
  | Some rank => Ok rank
  | None => Raise (ValueError "Need at least 5 cards to evaluate")
  end.

(** One trial as the specification describes it, on the deal that the
    code makes from [simulation_deck]. *)
Definition trial_outcome (hole_cards community_cards : list Card)
    (num_opponents : Z) (simulation_deck : list string) : result outcome :=
  let '(opponents_cards, deck_index) :=
    deal_opponents simulation_deck (Z.to_nat num_opponents) 0 in
  board_cards <- complete_board community_cards simulation_deck deck_index ;;
  player <- best_hand hole_cards board_cards ;;
  opponents <-
    mapM (fun opp => cs <- mapM card_of_str opp ;; best_hand cs board_cards)
      opponents_cards ;;
  Ok (rank_outcome player opponents).

(** The outcome that the code's comparison of strengths amounts to. *)
Definition strength_outcome (player_strength max_opponent_strength : Z)
  : outcome :=
  if max_opponent_strength <? player_strength then Win
  else if player_strength =? max_opponent_strength then Tie
  else Loss.

(** One trial as the code scores it: the strengths of
    [EquityCalculator._evaluate_hand], compared as integers. *)
Definition strength_trial_outcome (hole_cards community_cards : list Card)
    (num_opponents : Z) (simulation_deck : list string) : result outcome :=
  '(player_strength, max_opponent_strength) <-
    trial_strengths hole_cards community_cards num_opponents simulation_deck ;;
  Ok (strength_outcome player_strength max_opponent_strength).

(** The deck that [calculate_equity] shuffles. *)
Definition available_cards (hole_cards community_cards : list Card)
  : list string :=
  let known_cards := map card_string (hole_cards ++ community_cards) in
  filter (fun card => negb (existsb (String.eqb card) known_cards))
    _create_deck.

(** The equity of the specification: every trial scored by 4.2. *)
Definition equity_by_hand_rank (shuffle : nat -> list string -> list string)
    (num_simulations : Z) (hole_cards community_cards : list Card)
    (num_opponents : Z) : result Q :=
  outcomes <-
    mapM (fun t =>
            trial_outcome hole_cards community_cards num_opponents
              (shuffle t (available_cards hole_cards community_cards)))
      (seq 0 (Z.to_nat num_simulations)) ;;
  Ok (equity_of outcomes).

(** The cards of the data model: a rank out of thirteen and a suit out
    of four, each one character. *)
Definition rank_ok (r : string) : bool :=
  existsb (String.eqb r)
    ["2"; "3"; "4"; "5"; "6"; "7"; "8"; "9"; "T"; "J"; "Q"; "K"; "A"].

Definition suit_ok (s : string) : bool :=
  existsb (String.eqb s) ["s"; "h"; "d"; "c"].

Definition card_ok (c : Card) : bool := rank_ok (rank c) && suit_ok (suit c).

(** A card text in the documented format, e.g. "Ah", "Kd". *)
Definition card_text_ok (s : string) : bool :=
  match s with
  | String r (String u EmptyString) =>
      rank_ok (String r EmptyString) && suit_ok (String u EmptyString)
  | _ => false
  end.

(** "urgency = High if recommended action is AllIn or equity >= 0.95 or
    <= 0.05; else Medium if confidence > 0.8 or pot odds > 0.4; else Low
    if confidence > 0.6; else Critical" *)
Definition urgency (analysis : HandAnalysis) : DecisionManager.UrgencyLevel :=
  if ActionType_eqb (action (recommendation analysis)) ALL_IN
     || Qle_bool (95 # 100) (equity (hand_strength analysis))
     || Qle_bool (equity (hand_strength analysis)) (5 # 100)
  then DecisionManager.HIGH
  else if Qgtb (rec_confidence (recommendation analysis)) (8 # 10)
          || Qgtb (pot_odds analysis) (4 # 10)
  then DecisionManager.MEDIUM
  else if Qgtb (rec_confidence (recommendation analysis)) (6 # 10)
  then DecisionManager.LOW
  else DecisionManager.CRITICAL.

(** "the most recent successfully captured frame", among the results that
    wait in the queue (oldest first); [None] is "no frame available". *)
Definition most_recent_success (waiting : list ScreenCapture.CaptureResult)
  : option ScreenCapture.CaptureResult :=
  find ScreenCapture.success (rev waiting).

(** The queue holds no more than its capacity; a capacity of 0 or less
    means no bound, as in [queue.Queue]. *)
Definition within_capacity (self : ScreenCapture.Engine) : Prop :=
  ScreenCapture.maxsize (ScreenCapture._frame_queue self) <= 0
  \/ ScreenCapture.qsize (ScreenCapture._frame_queue self)
     <= ScreenCapture.maxsize (ScreenCapture._frame_queue self).

(** A cluster holds detections of one card, and is never empty. *)
Definition one_card (group : list CardDetector.CardDetectionResult) : Prop :=
  group <> []
  /\ forall a b, In a group -> In b group ->
                 CardDetector.card_string a = CardDetector.card_string b.

(** "members came from more than one distinct strategy" *)
Definition several_strategies (group : list CardDetector.CardDetectionResult)
  : Prop :=
  exists d d', In d group /\ In d' group
               /\ CardDetector.detection_method d
                  <> CardDetector.detection_method d'.

(** "position = arithmetic mean of member positions" *)
Definition mean (l : list Z) : Q :=
  (inject_Z (CardDetector.sumZ l) / inject_Z (Z.of_nat (List.length l)))%Q.

(** "agreeing detections": the same card text, and centres less than
    the proximity threshold of 50 pixels apart on both axes. *)
Definition close (d e : CardDetector.CardDetectionResult) : Prop :=
  CardDetector.card_string d = CardDetector.card_string e
  /\ Z.abs (fst (CardDetector.position d) - fst (CardDetector.position e)) < 50
  /\ Z.abs (snd (CardDetector.position d) - snd (CardDetector.position e)) < 50.

(** A cluster starts with one detection and grows by detections that
    agree with a member it already has. *)
Inductive cluster : list CardDetector.CardDetectionResult -> Prop :=
| cluster_first : forall d, cluster [d]
| cluster_next : forall group d e,
    cluster group -> In e group -> close d e -> cluster (group ++ [d]).

(** "synthesize one consensus Detection": the card and the box of a most
    confident member, the truncated mean of the positions, the boosted
    confidence and the strategy tag. *)
Definition consensus_of (group : list CardDetector.CardDetectionResult)
    (consensus : CardDetector.CardDetectionResult) : Prop :=
  exists best,
    In best group
    /\ (forall d, In d group ->
          (CardDetector.confidence d <= CardDetector.confidence best)%Q)
    /\ CardDetector.rank consensus = CardDetector.rank best
    /\ CardDetector.suit consensus = CardDetector.suit best
    /\ CardDetector.bounding_box consensus = CardDetector.bounding_box best
    /\ CardDetector.position consensus
       = (Z.quot
            (fold_right Z.add 0
               (map (fun d => fst (CardDetector.position d)) group))
            (Z.of_nat (List.length group)),
          Z.quot
            (fold_right Z.add 0
               (map (fun d => snd (CardDetector.position d)) group))
            (Z.of_nat (List.length group)))
    /\ CardDetector.confidence consensus
       = Qmin 1 (CardDetector.confidence best
                 + inject_Z (Z.of_nat (List.length group) - 1) * (1 # 10))
    /\ (several_strategies group ->
        CardDetector.detection_method consensus = "hybrid")
    /\ (~ several_strategies group ->
        CardDetector.detection_method consensus
        = CardDetector.detection_method best).

(** What the fusion layer outputs for a cluster: its only member as it
    is, or the consensus of its two or more members. *)
Definition fused (group : list CardDetector.CardDetectionResult)
    (output : CardDetector.CardDetectionResult) : Prop :=
  group = [output]
  \/ ((2 <= List.length group)%nat /\ consensus_of group output).

(** The strength of a hand, stated on the cards.

    "Convert to rank values (A=14, K=13, Q=12, J=11, T=10, 9-2 = face
    value)" *)
Definition rank_number (r : string) : Z :=
  get_default String.eqb
    [("2", 2); ("3", 3); ("4", 4); ("5", 5); ("6", 6); ("7", 7); ("8", 8);
     ("9", 9); ("T", 10); ("J", 11); ("Q", 12); ("K", 13); ("A", 14)] r 0.

(** The thirteen rank values, highest first. *)
Definition ladder : list Z := [14; 13; 12; 11; 10; 9; 8; 7; 6; 5; 4; 3; 2].

(** How many of the cards have the rank value [r], and whether any has. *)
Definition times (ranks : list Z) (r : Z) : Z :=
  Z.of_nat (count_occ Z.eq_dec ranks r).

Definition held (ranks : list Z) (r : Z) : bool := 0 <? times ranks r.

(** The highest rank value with the property [p]; 0 when none has it. *)
Definition highest (p : Z -> bool) : Z := hd 0 (filter p ladder).

(** Five cards or more of one suit. *)
Definition has_flush (suits : list string) : bool :=
  existsb (fun s => 5 <=? Z.of_nat (count_occ string_dec suits s))
    ["s"; "h"; "d"; "c"].

(** Five consecutive rank values among those held, or A-2-3-4-5. *)
Definition straight_of (held : Z -> bool) : bool :=
  existsb (fun high => forallb (fun k => held (high - k)) [0; 1; 2; 3; 4])
    [14; 13; 12; 11; 10; 9; 8; 7; 6]
  || forallb held [14; 5; 4; 3; 2].

(** The strength of a set of cards: the class of the hand in thousands,
    plus one rank value in the classes that carry one.  A rank counts
    as four, three or two of a kind when exactly that many cards have
    it. *)
Definition strength (cards : list Card) : Z :=
  let ranks := map (fun c => rank_number (rank c)) cards in
  let top := highest (held ranks) in
  let of_a_kind n := fun r => times ranks r =? n in
  let some n := existsb (of_a_kind n) ladder in
  let flush := has_flush (map suit cards) in
  let straight := straight_of (held ranks) in
  let paired := filter (fun r => 2 <=? times ranks r) ladder in
  if straight && flush then 8000 + top
  else if some 4 then 7000 + highest (of_a_kind 4)
  else if some 3 && some 2 then 6000
  else if flush then 5000 + top
  else if straight then 4000 + top
  else if some 3 then 3000 + highest (of_a_kind 3)
  else if (2 <=? List.length paired)%nat then 2000
  else if some 2 then 1000 + highest (of_a_kind 2)
  else top.

(** The card that a two-character text of the deck stands for. *)
Definition card_of_text (s : string) : Card :=
  mkCard (substring 0 1 s) (substring 1 1 s) 1 (0, 0) (0, 0, 0, 0).

(** The [n] cards of the deck from position [i] on. *)
Definition dealt (deck : list string) (i n : nat) : list Card :=
  map card_of_text (firstn n (skipn i deck)).

(** One trial, stated on the shuffled deck: opponent [i] holds the
    cards at positions [2 i] and [2 i + 1], the board is the community
    cards followed by the next cards of the deck up to five, and each
    player is scored by the [strength] of their two cards with the
    board.  The player wins when every opponent is strictly below,
    ties when none is above and one is level, and loses otherwise. *)
Definition trial (hole_cards community_cards : list Card)
    (num_opponents : Z) (deck : list string) : outcome :=
  let n := Z.to_nat num_opponents in
  let board :=
    community_cards
    ++ dealt deck (2 * n) (5 - List.length community_cards) in
  let player := strength (hole_cards ++ board) in
  let opponents :=
    map (fun i => strength (dealt deck (2 * i) 2 ++ board)) (seq 0 n) in
  if forallb (fun o => o <? player) opponents then Win
  else if forallb (fun o => o <=? player) opponents then Tie
  else Loss.

End Spec.

(** ** Concrete inputs used by the examples and counterexamples below *)

Module Samples.
Import ComputerVision AIEngine.

Definition card (r s : string) : Card := mkCard r s 1 (0, 0) (0, 0, 0, 0).

(** A shuffle that leaves the deck as it is. *)
Definition no_shuffle (t : nat) (deck : list string) : list string := deck.

(** [f"{x:.1%}"] stands for any text. *)
Definition no_format (x : Q) : string := "".

(** The boundary case of the urgency tiers: equity 0.95, pot odds 0.2,
    and the recommendation that the baseline policy makes for them. *)
Definition boundary_strength : HandStrength :=
  mkHandStrength (95 # 100) (95 # 100) (1 # 2) "Made hand" "".

Definition boundary_analysis : HandAnalysis :=
  mkHandAnalysis boundary_strength (2 # 10) (3 # 10) (1 # 2) []
    (_generate_recommendation boundary_strength (2 # 10) (3 # 10) (1 # 2) [])
    _get_gto_baseline [] 0.

Definition table_state (hole community : list Card) (pot bet : option Q)
  : GameState :=
  mkGameState 0 "auto" hole community (mkGameInfo pot bet None) 1.

(** A game state whose first hole card carries a rank that is no rank. *)
Definition bad_rank_state : GameState :=
  table_state [card "X" "h"; card "K" "d"] [] (Some 100%Q) (Some 10%Q).

(** A game state whose pot and bet cancel out. *)
Definition zero_pot_state : GameState :=
  table_state [card "A" "h"; card "K" "d"] [] (Some (-10)%Q) (Some 10%Q).

(** A shuffle that brings the deuce and the three of clubs and the deuce
    of diamonds to the top of the deck. *)
Definition rigged_top : list string := ["2c"; "3c"; "2d"].

Definition rigged_shuffle (t : nat) (deck : list string) : list string :=
  rigged_top
  ++ filter (fun c => negb (existsb (String.eqb c) rigged_top)) deck.

(** Aces full of kings for the player on a board that gives any deuce a
    full house as well. *)
Definition full_house_hole : list Card := [card "A" "s"; card "K" "d"].

Definition full_house_board : list Card :=
  [card "A" "h"; card "A" "d"; card "K" "c"; card "2" "s"].

(** Frames of the capture loop: the [t]-th capture, good or failed. *)
Definition region0 : ScreenCapture.CaptureRegion :=
  ScreenCapture.mkCaptureRegion 0 0 800 600 0.

Definition frame (t : Z) : ScreenCapture.CaptureResult :=
  ScreenCapture.mkCaptureResult (Some [t]) (inject_Z t) region0 true None.

Definition failed_frame (t : Z) : ScreenCapture.CaptureResult :=
  ScreenCapture.mkCaptureResult None (inject_Z t) region0 false
    (Some "Failed to capture screen region").

(** Two detections of the ace of hearts, one pixel apart, one from each
    detector; and a king at the place of the first. *)
Definition ace_yolo : CardDetector.CardDetectionResult :=
  CardDetector.mkCardDetectionResult "A" "h" (8 # 10) (10, 10)
    (0, 0, 20, 20) "yolo".

Definition ace_template : CardDetector.CardDetectionResult :=
  CardDetector.mkCardDetectionResult "A" "h" (9 # 10) (11, 10)
    (1, 0, 20, 20) "template".

Definition king_yolo : CardDetector.CardDetectionResult :=
  CardDetector.mkCardDetectionResult "K" "h" (9 # 10) (10, 10)
    (0, 0, 20, 20) "yolo".

(** A detection of the ace of hearts by YOLO, centred at [(x, 0)]. *)
Definition ace_at (x : Z) : CardDetector.CardDetectionResult :=
  CardDetector.mkCardDetectionResult "A" "h" (8 # 10) (x, 0)
    (x, 0, 20, 20) "yolo".

End Samples.

(** ** src/ai/hand_evaluator.py: comparison, strength and the converters *)

Module HandTools.
Import HandEvaluator.

(** What a call ends in: besides the exceptions of the evaluator, the use
    of a missing rank raises [TypeError] or [AttributeError]. *)
Inductive failure : Type :=
| Raised (e : exn)
| TypeError (msg : string)
| AttributeError (msg : string).

Inductive outcome (A : Type) : Type :=
| Returns (a : A)
| Fails (f : failure).
Arguments Returns {A} a.
Arguments Fails {A} f.

Definition lift {A} (r : result A) : outcome A :=
  match r with
  | Ok a => Returns a
  | Raise e => Fails (Raised e)
  end.

Definition no_category : failure :=
  AttributeError "'NoneType' object has no attribute 'category'".

(** [rank1 > rank2] on what [evaluate_hand] returned: [HandRank] has no
    [__gt__], so the reflected [rank2.__lt__(rank1)] runs when [rank2] is a
    rank, and reads [rank1.category]. *)
Definition greater (rank1 rank2 : option HandRank) : outcome bool :=
  match rank1, rank2 with
  | Some a, Some b => Returns (gt a b)
  | None, Some _ => Fails no_category
  | Some _, None =>
      Fails (TypeError "'>' not supported between instances of 'HandRank' and 'NoneType'")
  | None, None =>
      Fails (TypeError "'>' not supported between instances of 'NoneType' and 'NoneType'")
  end.

(** [rank1 < rank2] *)
Definition less (rank1 rank2 : option HandRank) : outcome bool :=
  match rank1, rank2 with
  | Some a, Some b => Returns (__lt__ a b)
  | Some _, None => Fails no_category
  | None, Some _ =>
      Fails (TypeError "'<' not supported between instances of 'NoneType' and 'HandRank'")
  | None, None =>
      Fails (TypeError "'<' not supported between instances of 'NoneType' and 'NoneType'")
  end.

(** [HandEvaluator.compare_hands] *)
Definition compare_hands (hand1 hand2 : list string) : outcome Z :=
  match lift (evaluate_hand hand1) with
  | Fails f => Fails f
  | Returns rank1 =>
      match lift (evaluate_hand hand2) with
      | Fails f => Fails f
      | Returns rank2 =>
          match greater rank1 rank2 with
          | Fails f => Fails f
          | Returns true => Returns 1
          | Returns false =>
              match less rank1 rank2 with
              | Fails f => Fails f
              | Returns true => Returns (-1)
              | Returns false => Returns 0
              end
          end
      end
  end.

(** The arithmetic of [hand_strength] on the rank found. *)
Definition strength_of (rank : HandRank) : Q :=
  let base_strength := (inject_Z (category rank) / 8)%Q in
  let category_adjustment :=
    if existsb (Z.eqb (category rank)) [0; 1; 2; 3; 5] then
      match rank_values rank with
      | r0 :: _ => (inject_Z r0 / 12 * (1 # 10))%Q
      | [] => 0%Q
      end
    else 0%Q in
  Qmin 1 (base_strength + category_adjustment).

(** [HandEvaluator.hand_strength] *)
Definition hand_strength (hole_cards community_cards : list string)
  : outcome Q :=
  let all_cards := hole_cards ++ community_cards in
  match lift (evaluate_hand all_cards) with
  | Fails f => Fails f
  | Returns None => Fails no_category
  | Returns (Some rank) => Returns (strength_of rank)
  end.

(** [cards_to_int_array]; the array is the list of its entries. *)
Definition cards_to_int_array (cards : list string) : list Z :=
  map (fun card => get_default String.eqb card_map (upper card) 0) cards.

(** One pass of the loop of [int_array_to_cards]: the text of a code, or
    nothing when the rank index is out of range. *)
Definition card_of_int (card_int : Z) : list string :=
  let rank_idx := Z.land card_int 0xF in
  let suit_bits := Z.land card_int 0xF000 in
  let suit_idx :=
    if suit_bits =? 0x2000 then 1
    else if suit_bits =? 0x4000 then 2
    else if suit_bits =? 0x8000 then 3
    else 0 in
  if (0 <=? rank_idx) && (rank_idx <? Z.of_nat (String.length ranks))
     && (0 <=? suit_idx) && (suit_idx <? Z.of_nat (String.length suits))
  then
    match String.get (Z.to_nat rank_idx) ranks,
          String.get (Z.to_nat suit_idx) suits with
    | Some r, Some u => [String r (String u EmptyString)]
    | _, _ => []
    end
  else [].

(** [int_array_to_cards] *)
Definition int_array_to_cards (card_ints : list Z) : list string :=
  flat_map card_of_int card_ints.

End HandTools.

(** ** Notions used to state further properties of the hand evaluator *)

Module Shape.

(** The number of tie-break values that each category carries. *)
Definition tiebreak_length (category : Z) : nat :=
  if (category =? 8) || (category =? 4) then 1
  else if (category =? 7) || (category =? 6) then 2
  else if (category =? 3) || (category =? 2) then 3
  else if category =? 1 then 4
  else 5.

(** A rank as [_evaluate_5_cards] builds them. *)
Definition well_shaped (rank : HandEvaluator.HandRank) : Prop :=
  0 <= HandEvaluator.category rank <= 8
  /\ Forall (fun v => 0 <= v < 16) (HandEvaluator.rank_values rank)
  /\ List.length (HandEvaluator.rank_values rank)
     = tiebreak_length (HandEvaluator.category rank).

End Shape.

(** Replaces the tie-break length of a known category by its value. *)
Ltac change_length :=
  match goal with
  | |- context [Shape.tiebreak_length ?c] =>
      let n := eval vm_compute in (Shape.tiebreak_length c) in
      change (Shape.tiebreak_length c) with n
  end.

(** ** src/core/ai_engine.py: GTOSolver and OpponentModelingEngine *)

Module Strategy.
Import AIEngine.

(** [class PositionType(Enum)] *)
Inductive PositionType : Type :=
  UTG | UTG1 | UTG2 | MP | MP2 | CO | BTN | SB | BB.

Definition PositionType_eqb (a b : PositionType) : bool :=
  match a, b with
  | UTG, UTG | UTG1, UTG1 | UTG2, UTG2 | MP, MP | MP2, MP2
  | CO, CO | BTN, BTN | SB, SB | BB, BB => true
  | _, _ => false
  end.

(** [GTOSolver._get_preflop_gto_range] *)
Definition _get_preflop_gto_range (position : PositionType)
  : list (string * Q) :=
  let ranges :=
    [(UTG, [("fold", 85 # 100); ("call", 10 # 100); ("raise", 5 # 100)]);
     (MP, [("fold", 80 # 100); ("call", 12 # 100); ("raise", 8 # 100)]);
     (CO, [("fold", 75 # 100); ("call", 15 # 100); ("raise", 10 # 100)]);
     (BTN, [("fold", 65 # 100); ("call", 20 # 100); ("raise", 15 # 100)]);
     (SB, [("fold", 70 # 100); ("call", 20 # 100); ("raise", 10 # 100)]);
     (BB, [("fold", 60 # 100); ("call", 30 # 100); ("raise", 10 # 100)])]%Q in
  get_default PositionType_eqb ranges position
    [("fold", 75 # 100); ("call", 15 # 100); ("raise", 10 # 100)]%Q.

(** [GTOSolver.get_gto_strategy] *)
Definition get_gto_strategy (position : PositionType)
    (action_history : list string) (stack_sizes : list Q) (blinds : Q * Q)
  : list (string * Q) :=
  match action_history with
  | [] => _get_preflop_gto_range position
  | _ =>
      if existsb (String.eqb "bet") action_history
         || existsb (String.eqb "raise") action_history
      then [("fold", 6 # 10); ("call", 3 # 10); ("raise", 1 # 10)]%Q
      else [("check", 4 # 10); ("bet", 6 # 10)]%Q
  end.

(** [sum(strategy.values())] *)
Definition total (strategy : list (string * Q)) : Q :=
  fold_right Qplus 0%Q (values strategy).

(** [@dataclass class OpponentModel], with all its fields. *)
Record OpponentModel : Type := mkOpponentModel {
  player_id : string;
  vpip : Q;
  pfr : Q;
  aggression_factor : Q;
  c_bet_frequency : Q;
  fold_to_c_bet : Q;
  hands_observed : Z;
  last_updated : Q
}.

(** [OpponentModelingEngine._update_stat]; the weighted average is
    computed in exact rationals, where the doubles of the source round
    each operation: [_update_stat(0.1, 0.1, 3)] is 0.1 here and
    0.10000000000000002 there. *)
Definition _update_stat (current_stat new_value : Q) (sample_size : Z) : Q :=
  if sample_size <=? 1 then new_value
  else
    let weight := Z.min 20 sample_size in
    ((current_stat * (inject_Z weight - 1) + new_value) / inject_Z weight)%Q.

(** [action in actions] *)
Definition action_in (action : ActionType) (actions : list ActionType) : bool :=
  existsb (ActionType_eqb action) actions.

(** [OpponentModelingEngine.update_opponent_model], on the dictionary
    [self.opponent_models]; [now] is the reading of the clock that ends up
    in [last_updated].  The model of a new player is created, entered
    last in the dictionary and then updated in place like any other.
    The tenth added to the aggression factor is the rational 1/10, where
    the source adds the double 0.1 and rounds: after two raises the
    factor is 6/5 here and 1.2000000000000002 there. *)
Definition update_opponent_model (self : list (string * OpponentModel))
    (player_id : string) (action : ActionType) (amount : option Q)
    (position : PositionType) (pot_size : Q) (now : Q)
  : list (string * OpponentModel) :=
  let model :=
    match get String.eqb self player_id with
    | Some model => model
    | None => mkOpponentModel player_id 0 0 1 (1 # 2) (1 # 2) 0 now
    end in
  let hands_observed := hands_observed model + 1 in
  let vpip :=
    if action_in action [CALL; BET; RAISE]
    then _update_stat (vpip model) 1 hands_observed
    else vpip model in
  let aggressive := action_in action [BET; RAISE] in
  let pfr :=
    if aggressive then _update_stat (pfr model) 1 hands_observed
    else pfr model in
  let aggression_factor :=
    if aggressive then Qmin 3 (aggression_factor model + (1 # 10))
    else aggression_factor model in
  setitem String.eqb self player_id
    (mkOpponentModel (Strategy.player_id model) vpip pfr aggression_factor
       (c_bet_frequency model) (fold_to_c_bet model) hands_observed now).

(** [OpponentModelingEngine.get_opponent_model] *)
Definition get_opponent_model (self : list (string * OpponentModel))
    (player_id : string) : option OpponentModel :=
  get String.eqb self player_id.

(** One observed action: the arguments of a call of
    [update_opponent_model], with the reading of the clock. *)
Record Observation : Type := mkObservation {
  who : string;
  what : ActionType;
  how_much : option Q;
  seat : PositionType;
  pot : Q;
  at_time : Q
}.

(** A new engine, [OpponentModelingEngine()], after a run of calls. *)
Definition observe (observations : list Observation)
  : list (string * OpponentModel) :=
  fold_left
    (fun self o =>
       update_opponent_model self (who o) (what o) (how_much o) (seat o)
         (pot o) (at_time o))
    observations [].

(** The observations of one player in a run, in order. *)
Definition observed (player_id : string) (observations : list Observation)
  : list Observation :=
  filter (fun o => String.eqb (who o) player_id) observations.

(** The player put money in the pot; the player bet or raised. *)
Definition voluntary (o : Observation) : bool :=
  action_in (what o) [CALL; BET; RAISE].
Definition aggressive (o : Observation) : bool :=
  action_in (what o) [BET; RAISE].

(** What the model of a player holds after the observations [seen] of
    that player: the number of hands, both frequencies between 0 and 1
    with [pfr] below [vpip], either of them 0 exactly when no action of
    its kind was seen, and an aggression factor that starts from 1 and
    gains a tenth per aggressive action up to 3, all in the exact
    arithmetic of the model. *)
Definition profile (seen : list Observation) (model : OpponentModel) : Prop :=
  hands_observed model = Z.of_nat (List.length seen)
  /\ (0 <= pfr model)%Q /\ (pfr model <= vpip model)%Q /\ (vpip model <= 1)%Q
  /\ (vpip model == 0 <-> filter voluntary seen = [])%Q
  /\ (pfr model == 0 <-> filter aggressive seen = [])%Q
  /\ (aggression_factor model
      == Qmin 3 (1 + inject_Z (Z.of_nat (List.length (filter aggressive seen)))
                     / 10))%Q
  /\ c_bet_frequency model = (1 # 2)%Q
  /\ fold_to_c_bet model = (1 # 2)%Q.

End Strategy.

(** ** src/core/decision_manager.py: the history and the statistics *)

Module Decisions.
Import AIEngine DecisionManager.

(** [@dataclass class Decision] *)
Record Decision : Type := mkDecision {
  decision_id : string;
  timestamp : Q;
  game_state_id : string;
  recommended_action : ActionType;
  amount : option Q;
  confidence : Q;
  hand_strength : Q;
  equity : Q;
  pot_odds : Q;
  expected_value : Q;
  reasoning : string;
  risk_assessment : string;
  alternative_actions : list (string * Q * Q);
  display_text : string;
  voice_text : string;
  urgency : UrgencyLevel;
  processing_time_ms : Q;
  analysis_confidence : Q
}.

(** [l[start:]] for an integer [start]: a negative [start] counts from
    the end, and either way the index is cut to the bounds of the list. *)
Definition slice_from {A} (l : list A) (start : Z) : list A :=
  let n := Z.of_nat (List.length l) in
  let i := if start <? 0 then Z.max (n + start) 0 else Z.min start n in
  skipn (Z.to_nat i) l.

(** [@dataclass class DecisionHistory] *)
Record DecisionHistory : Type := mkDecisionHistory {
  decisions : list Decision;
  max_history : Z
}.

(** [DecisionHistory.add_decision] *)
Definition add_decision (self : DecisionHistory) (decision : Decision)
  : DecisionHistory :=
  let decisions := decisions self ++ [decision] in
  if max_history self <? Z.of_nat (List.length decisions)
  then mkDecisionHistory (slice_from decisions (- max_history self))
         (max_history self)
  else mkDecisionHistory decisions (max_history self).

(** [DecisionHistory.get_recent_decisions] *)
Definition get_recent_decisions (self : DecisionHistory) (count : Z)
  : list Decision :=
  slice_from (decisions self) (- count).

(** [DecisionHistory.get_decisions_by_action] *)
Definition get_decisions_by_action (self : DecisionHistory)
    (action : ActionType) : list Decision :=
  filter (fun d => ActionType_eqb (recommended_action d) action)
    (decisions self).

(** A new history, [DecisionHistory(max_history=...)], after a run of
    [add_decision]. *)
Definition record (max_history : Z) (added : list Decision)
  : DecisionHistory :=
  fold_left add_decision added (mkDecisionHistory [] max_history).

(** [DecisionManager.stats] *)
Record Stats : Type := mkStats {
  decisions_made : Z;
  voice_outputs : Z;
  overlay_updates : Z;
  api_calls : Z;
  average_confidence : Q
}.

(** The statistics set by [DecisionManager.__init__]. *)
Definition new_stats : Stats := mkStats 0 0 0 0 0.

(** [DecisionManager._update_stats] *)
Definition _update_stats (stats : Stats) (decision : Decision) : result Stats :=
  let total_decisions := decisions_made stats + 1 in
  let current_avg := average_confidence stats in
  if total_decisions =? 0
  then Raise (ZeroDivisionError "float division by zero")
  else
    let new_avg :=
      ((current_avg * (inject_Z total_decisions - 1) + confidence decision)
       / inject_Z total_decisions)%Q in
    Ok (mkStats total_decisions (voice_outputs stats) (overlay_updates stats)
          (api_calls stats) new_avg).

(** The statistics of a new manager after a run of decisions. *)
Definition tally (made : list Decision) : result Stats :=
  fold_left (fun stats decision => s <- stats ;; _update_stats s decision)
    made (Ok new_stats).

(** [sum(d.confidence for d in l)] *)
Definition total_confidence (l : list Decision) : Q :=
  fold_right (fun d acc => (confidence d + acc)%Q) 0%Q l.

End Decisions.

(** ** src/vision/card_detector.py: suppression, filtering and statistics *)

Module Detection.
Import AIEngine CardDetector.

(** [detections.sort(key=lambda x: x.confidence, reverse=True)]: the
    sort is stable, detections of equal confidence keep their order. *)
Fixpoint insert_by_confidence (d : CardDetectionResult)
    (l : list CardDetectionResult) : list CardDetectionResult :=
  match l with
  | [] => [d]
  | e :: t =>
      if Qgtb (confidence e) (confidence d)
      then e :: insert_by_confidence d t
      else d :: e :: t
  end.

Definition sort_by_confidence (l : list CardDetectionResult)
  : list CardDetectionResult := fold_right insert_by_confidence [] l.

(** [detections.sort(key=lambda x: x.position[0])], stable as well. *)
Fixpoint insert_by_x (d : CardDetectionResult)
    (l : list CardDetectionResult) : list CardDetectionResult :=
  match l with
  | [] => [d]
  | e :: t =>
      if fst (position e) <? fst (position d)
      then e :: insert_by_x d t
      else d :: e :: t
  end.

Definition sort_by_x (l : list CardDetectionResult)
  : list CardDetectionResult := fold_right insert_by_x [] l.

(** [TemplateCardDetector._calculate_overlap]; the quotient of the two
    integer areas is a true division. *)
Definition _calculate_overlap (det1 det2 : CardDetectionResult) : Q :=
  let '(x1, y1, w1, h1) := bounding_box det1 in
  let '(x2, y2, w2, h2) := bounding_box det2 in
  let left := Z.max x1 x2 in
  let top := Z.max y1 y2 in
  let right := Z.min (x1 + w1) (x2 + w2) in
  let bottom := Z.min (y1 + h1) (y2 + h2) in
  if (left <? right) && (top <? bottom) then
    let intersection := (right - left) * (bottom - top) in
    let area1 := w1 * h1 in
    let area2 := w2 * h2 in
    let union := area1 + area2 - intersection in
    if 0 <? union then (inject_Z intersection / inject_Z union)%Q else 0%Q
  else 0%Q.

(** The body of the loop of [_non_max_suppression]. *)
Definition accept (overlap_threshold : Q)
    (filtered : list CardDetectionResult) (detection : CardDetectionResult)
  : list CardDetectionResult :=
  if existsb
       (fun accepted =>
          Qgtb (_calculate_overlap detection accepted) overlap_threshold)
       filtered
  then filtered
  else filtered ++ [detection].

(** [TemplateCardDetector._non_max_suppression] *)
Definition _non_max_suppression (detections : list CardDetectionResult)
    (overlap_threshold : Q) : list CardDetectionResult :=
  match detections with
  | [] => []
  | _ =>
      fold_left (accept overlap_threshold) (sort_by_confidence detections) []
  end.

(** [CardDetector.detection_stats] *)
Record Stats : Type := mkStats {
  total_detections : Z;
  yolo_detections : Z;
  template_detections : Z;
  hybrid_detections : Z;
  average_confidence : Q
}.

(** The statistics set by [CardDetector.__init__]. *)
Definition new_stats : Stats := mkStats 0 0 0 0 0.

(** [self.min_confidence], set by the constructor. *)
Definition min_confidence : Q := 7 # 10.

(** [sum(d.confidence for d in detections)] *)
Definition sum_confidence (detections : list CardDetectionResult) : Q :=
  fold_left (fun acc d => (acc + confidence d)%Q) detections 0%Q.

Definition len (detections : list CardDetectionResult) : Z :=
  Z.of_nat (List.length detections).

(** [CardDetector._update_stats]; the processing time is not used. *)
Definition _update_stats (stats : Stats)
    (detections : list CardDetectionResult) : Stats :=
  let total := total_detections stats + len detections in
  match detections with
  | [] =>
      mkStats total (yolo_detections stats) (template_detections stats)
        (hybrid_detections stats) (average_confidence stats)
  | _ =>
      let avg_conf := (sum_confidence detections / inject_Z (len detections))%Q in
      let current_avg := average_confidence stats in
      let new_avg :=
        if len detections <? total then
          let prev_total := total - len detections in
          ((current_avg * inject_Z prev_total
            + avg_conf * inject_Z (len detections)) / inject_Z total)%Q
        else avg_conf in
      mkStats total (yolo_detections stats) (template_detections stats)
        (hybrid_detections stats) new_avg
  end.

Section Backends.
(** The two detection engines, for the image at hand: what each returns
    for a region of interest.  [yolo_detector] is [None] when the YOLO
    model is not available. *)
Variable yolo_detector :
  option (option (Z * Z * Z * Z) -> list CardDetectionResult).
Variable template_detector :
  option (Z * Z * Z * Z) -> list CardDetectionResult.

(** [CardDetector._hybrid_detection] *)
Definition _hybrid_detection (roi : option (Z * Z * Z * Z))
  : list CardDetectionResult :=
  let all_detections :=
    match yolo_detector with
    | Some detect => detect roi
    | None => []
    end ++ template_detector roi in
  _merge_detections all_detections.

(** [CardDetector.detect_cards]: the detections and the statistics after
    the call. *)
Definition detect_cards (stats : Stats) (roi : option (Z * Z * Z * Z))
    (method : string) : list CardDetectionResult * Stats :=
  let '(detections, counted) :=
    match (if String.eqb method "yolo" then yolo_detector else None) with
    | Some detect =>
        let detections := detect roi in
        (detections,
         mkStats (total_detections stats)
           (yolo_detections stats + len detections)
           (template_detections stats) (hybrid_detections stats)
           (average_confidence stats))
    | None =>
        if String.eqb method "template" then
          let detections := template_detector roi in
          (detections,
           mkStats (total_detections stats) (yolo_detections stats)
             (template_detections stats + len detections)
             (hybrid_detections stats) (average_confidence stats))
        else
          let detections := _hybrid_detection roi in
          (detections,
           mkStats (total_detections stats) (yolo_detections stats)
             (template_detections stats)
             (hybrid_detections stats + len detections)
             (average_confidence stats))
    end in
  let filtered_detections :=
    sort_by_confidence
      (filter (fun d => Qle_bool min_confidence (confidence d)) detections) in
  (filtered_detections, _update_stats counted filtered_detections).

(** The region that [detect_hole_cards] searches, for an image of
    [h] rows and [w] columns. *)
Definition hole_cards_roi (h w : Z) (player_position : Z * Z)
  : Z * Z * Z * Z :=
  let '(card_width, card_height) := (60, 84) in
  let '(roi_width, roi_height) := (card_width * 3, card_height * 2) in
  let x := Z.max 0 (fst player_position - roi_width / 2) in
  let y := Z.max 0 (snd player_position - roi_height / 2) in
  let roi_width := Z.min roi_width (w - x) in
  let roi_height := Z.min roi_height (h - y) in
  (x, y, roi_width, roi_height).

(** [CardDetector.detect_hole_cards]; [(h, w)] is [image.shape[:2]]. *)
Definition detect_hole_cards (stats : Stats) (h w : Z)
    (player_position : Z * Z) : list CardDetectionResult * Stats :=
  let roi := hole_cards_roi h w player_position in
  let '(detections, stats) := detect_cards stats (Some roi) "hybrid" in
  (firstn 2 detections, stats).

(** [CardDetector.detect_community_cards] *)
Definition detect_community_cards (stats : Stats)
    (community_area : Z * Z * Z * Z) : list CardDetectionResult * Stats :=
  let '(detections, stats) :=
    detect_cards stats (Some community_area) "hybrid" in
  (firstn 5 (sort_by_x detections), stats).
End Backends.

(** The statistics of a new detector after a run of [_update_stats]. *)
Definition tally (batches : list (list CardDetectionResult)) : Stats :=
  fold_left _update_stats batches new_stats.

End Detection.

(** ** Concrete inputs of the further examples *)

Module Examples.

(** A decision to fold, numbered [n]. *)
Definition decision (n : Z) : Decisions.Decision :=
  Decisions.mkDecision ("decision_" ++ Py.str_int n)%string (inject_Z n) ""
    AIEngine.FOLD None (8 # 10) 0 0 0 0 "Weak hand - folding" "Medium" []
    "" "" DecisionManager.MEDIUM 0 1.

End Examples.

(** * Counting dictionaries and sets of ranks

    The notions that relate the dictionaries filled by
    [EquityCalculator._evaluate_hand] to the cards they were filled
    from. *)
Module Tally.

Section Counting.
Context {K : Type} (eqb : K -> K -> bool).
Variable dec : forall a b : K, {a = b} + {a <> b}.

Definition occurrences (seen : list K) (k : K) : Z :=
  Z.of_nat (count_occ dec seen k).

(** The dictionary [d] counts the keys of [seen]: it has one entry for
    each key that occurs, with the number of its occurrences. *)
Definition counts (d : list (K * Z)) (seen : list K) : Prop :=
  NoDup (keys d)
  /\ forall k, get eqb d k
               = if 0 <? occurrences seen k
                 then Some (occurrences seen k) else None.
End Counting.

(** Every list of [n] booleans. *)
Fixpoint vectors (n : nat) : list (list bool) :=
  match n with
  | O => [[]]
  | S n' => map (cons true) (vectors n') ++ map (cons false) (vectors n')
  end.

(** A set of rank values given by thirteen booleans, one for each value
    from 14 down to 2: as a descending list, and as a test. *)
Definition select (bits : list bool) : list Z :=
  map fst (filter snd (combine Spec.ladder bits)).

Definition lookup (bits : list bool) (r : Z) : bool :=
  nth (Z.to_nat (14 - r)) bits false.

End Tally.

(** * Properties *)

(** ** Comparisons of floats *)

Section QBool.
Import AIEngine.

Lemma Qgtb_true (a b : Q) : Qgtb a b = true <-> (b < a)%Q.
Proof.
  unfold Qgtb. rewrite negb_true_iff.
  split; intro H.
  - apply Qnot_le_lt. intro Hle. apply Qle_bool_iff in Hle. congruence.
  - destruct (Qle_bool a b) eqn:E; [|reflexivity].
    apply Qle_bool_iff in E. exfalso. exact (Qlt_not_le _ _ H E).
Qed.

Lemma Qgtb_false (a b : Q) : Qgtb a b = false <-> (a <= b)%Q.
Proof.
  unfold Qgtb. rewrite negb_false_iff. apply Qle_bool_iff.
Qed.

Lemma Qltb_true (a b : Q) : Qltb a b = true <-> (a < b)%Q.
Proof. unfold Qltb. apply (Qgtb_true b a). Qed.

Lemma Qltb_false (a b : Q) : Qltb a b = false <-> (b <= a)%Q.
Proof. unfold Qltb. apply (Qgtb_false b a). Qed.
End QBool.

(** ** The order on hand ranks *)

Section HandRankOrder.
Import HandEvaluator.

Lemma list_lt_spec (a b : list Z) : list_lt a b = true <-> Spec.lex_lt a b.
Proof.
  revert b. induction a as [|x a IH]; intros [|y b]; simpl.
  - split; [discriminate | inversion 1].
  - split; [constructor | reflexivity].
  - split; [discriminate | inversion 1].
  - destruct (Z.eqb_spec x y) as [->|Hne].
    + rewrite IH. split; [now constructor 3|].
      inversion 1; subst; [lia | assumption].
    + rewrite Z.ltb_lt. split; [now constructor 2|].
      inversion 1; subst; [assumption | contradiction].
Qed.

Lemma list_eq_spec (a b : list Z) : list_eq a b = true <-> a = b.
Proof.
  revert b. induction a as [|x a IH]; intros [|y b]; simpl;
    try (split; [discriminate | discriminate]); try tauto.
  rewrite andb_true_iff, Z.eqb_eq, IH.
  split; [intros [-> ->]; reflexivity | inversion 1; auto].
Qed.

Lemma list_lt_irrefl (a : list Z) : list_lt a a = false.
Proof. induction a as [|x a IH]; simpl; [|rewrite Z.eqb_refl]; auto. Qed.

Lemma list_lt_asym (a b : list Z) : list_lt a b = true -> list_lt b a = false.
Proof.
  revert b. induction a as [|x a IH]; intros [|y b]; simpl; auto; try discriminate.
  destruct (Z.eqb_spec x y) as [->|Hne].
  - rewrite Z.eqb_refl. apply IH.
  - destruct (Z.eqb_spec y x); [congruence|]. rewrite Z.ltb_lt, Z.ltb_ge. lia.
Qed.

Lemma list_lt_trans (a b c : list Z) :
  list_lt a b = true -> list_lt b c = true -> list_lt a c = true.
Proof.
  revert b c. induction a as [|x a IH]; intros [|y b] [|z c]; simpl;
    auto; try discriminate.
  destruct (Z.eqb_spec x y) as [->|Hxy].
  - destruct (Z.eqb_spec y z); [apply IH | auto].
  - destruct (Z.eqb_spec y z) as [->|Hyz].
    + destruct (Z.eqb_spec x z); [contradiction | auto].
    + rewrite !Z.ltb_lt. intros H1 H2.
      destruct (Z.eqb_spec x z); [lia | apply Z.ltb_lt; lia].
Qed.

Lemma list_trichotomy (a b : list Z) :
  list_lt a b = true \/ a = b \/ list_lt b a = true.
Proof.
  revert b. induction a as [|x a IH]; intros [|y b]; simpl; auto.
  destruct (Z.eqb_spec x y) as [->|Hxy].
  - rewrite Z.eqb_refl. destruct (IH b) as [H|[->|H]]; auto.
  - destruct (Z.eqb_spec y x); [congruence|].
    rewrite !Z.ltb_lt. lia.
Qed.

Lemma lt_spec (a b : HandRank) : __lt__ a b = true <-> Spec.rank_lt a b.
Proof.
  unfold __lt__, Spec.rank_lt.
  destruct (Z.eqb_spec (category a) (category b)) as [E|N]; simpl.
  - rewrite list_lt_spec. split; [auto | intros [H|[_ H]]; [lia | assumption]].
  - rewrite Z.ltb_lt. split; [auto | intros [H|[H _]]; [assumption | contradiction]].
Qed.

Lemma eq_spec (a b : HandRank) :
  __eq__ a b = true <-> category a = category b /\ rank_values a = rank_values b.
Proof. unfold __eq__. now rewrite andb_true_iff, Z.eqb_eq, list_eq_spec. Qed.

Lemma lt_asym (a b : HandRank) : __lt__ a b = true -> __lt__ b a = false.
Proof.
  unfold __lt__.
  destruct (Z.eqb_spec (category a) (category b)) as [E|N]; simpl.
  - rewrite E, Z.eqb_refl. simpl. apply list_lt_asym.
  - destruct (Z.eqb_spec (category b) (category a)); [congruence|]. simpl.
    rewrite Z.ltb_lt, Z.ltb_ge. lia.
Qed.

Lemma lt_trans (a b c : HandRank) :
  __lt__ a b = true -> __lt__ b c = true -> __lt__ a c = true.
Proof.
  rewrite !lt_spec. unfold Spec.rank_lt.
  intros [H1|[E1 L1]] [H2|[E2 L2]]; try (left; lia).
  right. split; [congruence|].
  apply list_lt_spec. eapply list_lt_trans; apply list_lt_spec; eassumption.
Qed.

Lemma lt_total (a b : HandRank) :
  __lt__ a b = true \/ __eq__ a b = true \/ __lt__ b a = true.
Proof.
  rewrite !lt_spec, eq_spec. unfold Spec.rank_lt.
  destruct (Z.lt_trichotomy (category a) (category b)) as [H|[H|H]]; auto.
  destruct (list_trichotomy (rank_values a) (rank_values b)) as [L|[L|L]].
  - left. right. split; [assumption | now apply list_lt_spec].
  - auto.
  - right. right. right. split; [auto | now apply list_lt_spec].
Qed.

(** Not being strictly below is transitive: the order is a total
    preorder on ranks, a total order on (category, tie-break). *)
Lemma not_lt_trans (a b c : HandRank) :
  __lt__ a b = false -> __lt__ b c = false -> __lt__ a c = false.
Proof.
  intros H1 H2. destruct (__lt__ a c) eqn:E; [|reflexivity].
  destruct (lt_total b c) as [H|[H|H]]; [congruence| |].
  - apply eq_spec in H. destruct H as [Hc Hr].
    assert (__lt__ a b = true); [|congruence].
    apply lt_spec. apply lt_spec in E. unfold Spec.rank_lt in *.
    rewrite Hc, Hr. exact E.
  - assert (__lt__ a b = true) by (eapply lt_trans; eassumption). congruence.
Qed.

(** C6. The comparison of [HandRank] is a total order on
    (category, tie-break vector): [__lt__] compares the category first
    and then the tie-break vectors lexicographically; it is asymmetric
    (hence antisymmetric) and transitive; any two ranks are strictly
    ordered one way or equal; and two ranks with the same category and
    the same tie-break vector compare as equal and are not strictly
    ordered either way.  [__eq__] holds of no other ranks: two ranks are
    equal exactly when category and tie-break vector are the same, so of
    [a < b], [a == b] and [b < a] exactly one holds, and [a > b] is
    [b < a]. *)
Theorem HandRank_total_order :
  (forall a b, __lt__ a b = true <->
     category a < category b
     \/ (category a = category b
         /\ Spec.lex_lt (rank_values a) (rank_values b)))
  /\ (forall a b, __lt__ a b = true -> __lt__ b a = false)
  /\ (forall a b c, __lt__ a b = true -> __lt__ b c = true -> __lt__ a c = true)
  /\ (forall a b, __lt__ a b = true \/ __eq__ a b = true \/ __lt__ b a = true)
  /\ (forall a b, category a = category b -> rank_values a = rank_values b ->
        __eq__ a b = true /\ __lt__ a b = false /\ gt a b = false)
  /\ (forall a b, __eq__ a b = true <->
        category a = category b /\ rank_values a = rank_values b)
  /\ (forall a b, __eq__ a b = true -> __lt__ a b = false /\ __lt__ b a = false)
  /\ (forall a b, __lt__ a b = true -> __eq__ a b = false /\ __eq__ b a = false)
  /\ (forall a b, __eq__ a b = false ->
        (__lt__ a b = true /\ __lt__ b a = false)
        \/ (__lt__ b a = true /\ __lt__ a b = false))
  /\ (forall a b, gt a b = __lt__ b a).
Proof.
  assert (Tie : forall a b, category a = category b ->
                            rank_values a = rank_values b ->
                            __lt__ a b = false /\ __lt__ b a = false).
  { intros a b Hc Hr. unfold __lt__. rewrite Hc, Hr, Z.eqb_refl. simpl.
    split; apply list_lt_irrefl. }
  assert (Apart : forall a b, __lt__ a b = true -> __eq__ a b = false).
  { intros a b L. destruct (__eq__ a b) eqn:E; [|reflexivity].
    apply eq_spec in E. destruct E as [Hc Hr].
    destruct (Tie a b Hc Hr). congruence. }
  split; [exact lt_spec|].
  split; [exact lt_asym|].
  split; [exact lt_trans|].
  split; [exact lt_total|].
  split.
  { intros a b Hc Hr. split; [apply eq_spec; auto|]. unfold gt.
    apply Tie; assumption. }
  split; [exact eq_spec|].
  split.
  { intros a b E. apply eq_spec in E. destruct E as [Hc Hr].
    apply Tie; assumption. }
  split.
  { intros a b L. split; [now apply Apart|].
    destruct (__eq__ b a) eqn:E; [|reflexivity].
    apply eq_spec in E. destruct E as [Hc Hr].
    destruct (Tie b a Hc Hr). congruence. }
  split.
  { intros a b E. destruct (lt_total a b) as [L|[L|L]].
    - left. split; [exact L | now apply lt_asym].
    - congruence.
    - right. split; [exact L | now apply lt_asym]. }
  reflexivity.
Qed.

Lemma HandRank_total_order_witness :
  let a := mkHandRank 6 [11; 5] "Full House, Ks full of 7s" in
  let b := mkHandRank 6 [11; 5] "another text" in
  let c := mkHandRank 7 [7; 3] "Four 9s" in
  __eq__ a b = true /\ __lt__ a b = false /\ gt a b = false
  /\ __lt__ a c = true /\ __lt__ c a = false
  /\ __eq__ a c = false /\ __eq__ c a = false.
Proof.
  intros a b c.
  destruct HandRank_total_order
    as (Hspec & Hasym & _ & _ & Htie & _ & _ & Hapart & _).
  destruct (Htie a b eq_refl eq_refl) as (H1 & H2 & H3).
  assert (Hac : __lt__ a c = true) by (apply Hspec; left; simpl; lia).
  destruct (Hapart a c Hac) as [E1 E2].
  pose proof (Hasym a c Hac) as Hca.
  repeat split; assumption.
Defined.
End HandRankOrder.

(** ** The baseline policy and the urgency tiers *)

Section Policy.
Import ComputerVision AIEngine DecisionManager.

(** C8. The baseline policy of [_generate_recommendation]: equity above
    0.70 gives Bet with confidence 0.90; equity in (0.50, 0.70] gives Call
    with confidence 0.70; equity at most 0.50 with pot odds above 0.30
    gives Call with confidence 0.60; anything else gives Fold with
    confidence 0.80; the expected value is equity - 0.5, which is
    positive exactly when equity is above 0.5. *)
Theorem baseline_policy :
  forall hand_strength pot_odds implied_odds position_advantage adjustments,
    let r := _generate_recommendation hand_strength pot_odds implied_odds
               position_advantage adjustments in
    let e := equity hand_strength in
    ((7 # 10 < e)%Q -> action r = BET /\ rec_confidence r = (9 # 10)%Q)
    /\ ((5 # 10 < e)%Q -> (e <= 7 # 10)%Q ->
        action r = CALL /\ rec_confidence r = (7 # 10)%Q)
    /\ ((e <= 5 # 10)%Q -> (3 # 10 < pot_odds)%Q ->
        action r = CALL /\ rec_confidence r = (6 # 10)%Q)
    /\ ((e <= 5 # 10)%Q -> (pot_odds <= 3 # 10)%Q ->
        action r = FOLD /\ rec_confidence r = (8 # 10)%Q)
    /\ (expected_value r == e - (1 # 2))%Q
    /\ ((0 < expected_value r)%Q <-> (1 # 2 < e)%Q).
Proof.
  intros hs po io pa ea r e. subst r e. unfold _generate_recommendation.
  destruct (Qgtb (equity hs) (7 # 10)) eqn:E1;
    [apply Qgtb_true in E1 | apply Qgtb_false in E1];
  (destruct (Qgtb (equity hs) (5 # 10)) eqn:E2;
    [apply Qgtb_true in E2 | apply Qgtb_false in E2]);
  (destruct (Qgtb po (3 # 10)) eqn:E3;
    [apply Qgtb_true in E3 | apply Qgtb_false in E3]);
  simpl; repeat split; intros; try reflexivity; try lra.
Qed.

Lemma baseline_policy_witness :
  let strong := mkHandStrength (95 # 100) (95 # 100) (1 # 2) "Made hand" "" in
  let weak := mkHandStrength (3 # 10) (3 # 10) (1 # 2) "Made hand" "" in
  action (_generate_recommendation strong (2 # 10) (3 # 10) (1 # 2) []) = BET
  /\ action (_generate_recommendation weak (1 # 10) (3 # 20) (1 # 2) []) = FOLD.
Proof.
  intros strong weak. split.
  - apply (baseline_policy strong (2 # 10) (3 # 10) (1 # 2) []). simpl. lra.
  - apply (baseline_policy weak (1 # 10) (3 # 20) (1 # 2) []); simpl; lra.
Defined.

(** C4, the claim as stated fails at its own boundary case: with equity
    exactly 0.95, pot odds 0.2 and the Bet of confidence 0.90 that the
    baseline policy recommends, the code answers Medium, where the tiers
    of the specification answer High. *)
Lemma urgency_boundary_is_not_high :
  (equity (hand_strength Samples.boundary_analysis) == 95 # 100)%Q
  /\ (pot_odds Samples.boundary_analysis == 2 # 10)%Q
  /\ action (recommendation Samples.boundary_analysis) = BET
  /\ Spec.urgency Samples.boundary_analysis = HIGH
  /\ _calculate_urgency Samples.boundary_analysis
       (Samples.table_state [] [] None None) = MEDIUM
  /\ _calculate_urgency Samples.boundary_analysis
       (Samples.table_state [] [] None None)
     <> Spec.urgency Samples.boundary_analysis.
Proof.
  repeat split; try reflexivity. discriminate.
Qed.

(** C4, as the code has it: the urgency is High if the action is AllIn
    or equity is strictly above 0.95 or strictly below 0.05; else Medium if
    confidence is above 0.8 or pot odds are above 0.4; else Low if
    confidence is above 0.6; else Critical.  With equity exactly 0.95 the
    first tier does not apply: the Bet of confidence 0.90 that the baseline
    policy recommends there is Medium. *)
Theorem urgency_tiers :
  forall analysis game_state,
    let e := equity (hand_strength analysis) in
    let c := rec_confidence (recommendation analysis) in
    let a := action (recommendation analysis) in
    let u := _calculate_urgency analysis game_state in
    (a = ALL_IN \/ (95 # 100 < e)%Q \/ (e < 5 # 100)%Q -> u = HIGH)
    /\ (a <> ALL_IN -> (5 # 100 <= e)%Q -> (e <= 95 # 100)%Q ->
        ((8 # 10 < c)%Q \/ (4 # 10 < pot_odds analysis)%Q -> u = MEDIUM)
        /\ ((c <= 8 # 10)%Q -> (pot_odds analysis <= 4 # 10)%Q ->
            ((6 # 10 < c)%Q -> u = LOW) /\ ((c <= 6 # 10)%Q -> u = CRITICAL)))
    /\ ((e == 95 # 100)%Q ->
        recommendation analysis
        = _generate_recommendation (hand_strength analysis) (pot_odds analysis)
            (implied_odds analysis) (position_advantage analysis)
            (exploitative_adjustments analysis) ->
        u = MEDIUM).
Proof.
  intros analysis gs e c a u. subst e c a u. unfold _calculate_urgency.
  assert (Hact : forall x, ActionType_eqb x ALL_IN = true <-> x = ALL_IN)
    by (intros []; simpl; split; congruence).
  destruct (ActionType_eqb (action (recommendation analysis)) ALL_IN) eqn:EA.
  { apply Hact in EA. simpl. repeat split; intros; try reflexivity;
      try contradiction.
    rewrite H0 in EA. unfold _generate_recommendation in EA.
    destruct (Qgtb (equity (hand_strength analysis)) (7 # 10));
      [|destruct (Qgtb (equity (hand_strength analysis)) (5 # 10));
        [|destruct (Qgtb (pot_odds analysis) (3 # 10))]]; discriminate. }
  assert (Hna : action (recommendation analysis) <> ALL_IN)
    by (intro H; apply Hact in H; congruence).
  simpl.
  destruct (Qgtb (equity (hand_strength analysis)) (95 # 100)) eqn:E1;
    [apply Qgtb_true in E1 | apply Qgtb_false in E1]; simpl.
  { repeat split; intros; try reflexivity; lra. }
  destruct (Qltb (equity (hand_strength analysis)) (5 # 100)) eqn:E2;
    [apply Qltb_true in E2 | apply Qltb_false in E2]; simpl.
  { repeat split; intros; try reflexivity; lra. }
  destruct (Qgtb (rec_confidence (recommendation analysis)) (8 # 10)) eqn:E3;
    [apply Qgtb_true in E3 | apply Qgtb_false in E3]; simpl.
  { repeat split; intros; try reflexivity; try lra.
    destruct H as [H|[H|H]]; [contradiction | lra | lra]. }
  destruct (Qgtb (pot_odds analysis) (4 # 10)) eqn:E4;
    [apply Qgtb_true in E4 | apply Qgtb_false in E4]; simpl.
  { repeat split; intros; try reflexivity; try lra.
    destruct H as [H|[H|H]]; [contradiction | lra | lra]. }
  assert (Hbase : (equity (hand_strength analysis) == 95 # 100)%Q ->
                  recommendation analysis
                  = _generate_recommendation (hand_strength analysis)
                      (pot_odds analysis) (implied_odds analysis)
                      (position_advantage analysis)
                      (exploitative_adjustments analysis) -> False).
  { intros He Hr. rewrite Hr in E3. unfold _generate_recommendation in E3.
    destruct (Qgtb (equity (hand_strength analysis)) (7 # 10)) eqn:E7.
    - simpl in E3. lra.
    - apply Qgtb_false in E7. lra. }
  destruct (Qgtb (rec_confidence (recommendation analysis)) (6 # 10)) eqn:E5;
    [apply Qgtb_true in E5 | apply Qgtb_false in E5];
    repeat split; intros; try reflexivity; try lra;
    try (exfalso; apply Hbase; assumption);
    try (destruct H as [H|[H|H]]; [contradiction | lra | lra]);
    try (destruct H2 as [H2|H2]; lra).
Qed.

Lemma urgency_tiers_witness :
  _calculate_urgency Samples.boundary_analysis
    (Samples.table_state [] [] None None) = MEDIUM.
Proof.
  apply (urgency_tiers Samples.boundary_analysis
           (Samples.table_state [] [] None None)).
  - reflexivity.
  - reflexivity.
Defined.

End Policy.

(** ** Failure of the analysis cycle *)

Section Degradation.
Import ComputerVision AIEngine.

(** Two ways in which the cycle does raise: a rank that [int] rejects,
    and a pot that cancels the bet. *)
Lemma analysis_cycle_raises_on_bad_rank :
  analysis_cycle Samples.no_shuffle Samples.no_format 1
    Samples.bad_rank_state 0
  = Raise (ValueError "invalid literal for int() with base 10: 'X'").
Proof. vm_compute. reflexivity. Qed.

Lemma analysis_cycle_raises_on_zero_pot :
  analysis_cycle Samples.no_shuffle Samples.no_format 1
    Samples.zero_pot_state 0
  = Raise (ZeroDivisionError "float division by zero").
Proof. vm_compute. reflexivity. Qed.

(** C9. Whenever the analysis cycle of [analyze_hand] raises an
    exception [e], [analyze_hand] still returns an analysis; its
    recommendation is Fold with confidence 1.0 and the rationale
    "Analysis error: " followed by the text of [e], and the counters of
    the engine are left as they were.  The exception does not reach the
    caller: [analyze_hand] returns a [HandAnalysis] on every input. *)
Theorem analyze_hand_degrades_to_fold :
  forall shuffle format_percent simulation_count self game_state
         analysis_time e,
    analysis_cycle shuffle format_percent simulation_count game_state
      analysis_time = Raise e ->
    let out := analyze_hand shuffle format_percent simulation_count self
                 game_state analysis_time in
    action (recommendation (fst out)) = FOLD
    /\ rec_confidence (recommendation (fst out)) = 1%Q
    /\ reasoning (recommendation (fst out))
       = ("Analysis error: " ++ str_exn e)%string
    /\ snd out = self.
Proof.
  intros shuffle fmt n self gs t e Hraise out. subst out.
  unfold analyze_hand. rewrite Hraise. simpl. repeat split.
Qed.

Lemma analyze_hand_degrades_to_fold_witness :
  let out := analyze_hand Samples.no_shuffle Samples.no_format 1
               (mkEngine 0 0) Samples.bad_rank_state 0 in
  action (recommendation (fst out)) = FOLD
  /\ rec_confidence (recommendation (fst out)) = 1%Q
  /\ reasoning (recommendation (fst out))
     = "Analysis error: invalid literal for int() with base 10: 'X'"
  /\ snd out = mkEngine 0 0.
Proof.
  exact (analyze_hand_degrades_to_fold Samples.no_shuffle Samples.no_format 1
           (mkEngine 0 0) Samples.bad_rank_state 0 _
           analysis_cycle_raises_on_bad_rank).
Defined.

End Degradation.

(** ** The card table of the hand evaluator *)

Section CardTable.
Import HandEvaluator.

Lemma existsb_eqb_In (x : string) (l : list string) :
  existsb (String.eqb x) l = true -> In x l.
Proof.
  intro H. apply existsb_exists in H. destruct H as (y & Hy & E).
  apply String.eqb_eq in E. now subst.
Qed.

(** The texts of the documented format are the 52 keys of the table. *)
Lemma card_text_ok_key (s : string) :
  Spec.card_text_ok s = true -> In s (keys card_map).
Proof.
  destruct s as [|r [|u [|x t]]]; simpl; try discriminate.
  intro H. apply andb_true_iff in H. destruct H as [Hr Hu].
  apply existsb_eqb_In in Hr. apply existsb_eqb_In in Hu.
  simpl in Hr, Hu.
  repeat (destruct Hr as [Hr|Hr]; [inversion Hr; subst; clear Hr|]);
    try contradiction;
    repeat (destruct Hu as [Hu|Hu]; [inversion Hu; subst; clear Hu|]);
    try contradiction; vm_compute; tauto.
Qed.

(** Looked up as it is written, every key has a code that is not 0 ... *)
Lemma keys_are_recognised :
  forallb (fun s => match get String.eqb card_map s with
                    | Some n => negb (n =? 0)
                    | None => false
                    end) (keys card_map) = true.
Proof. vm_compute. reflexivity. Qed.

(** ... and upper-cased, none of them is found. *)
Lemma upper_keys_are_unknown :
  forallb (fun s => match get String.eqb card_map (upper s) with
                    | Some _ => false
                    | None => true
                    end) (keys card_map) = true.
Proof. vm_compute. reflexivity. Qed.

Lemma documented_card_encodes_as_0 (s : string) :
  Spec.card_text_ok s = true ->
  get_default String.eqb card_map (upper s) 0 = 0.
Proof.
  intro H. apply card_text_ok_key in H.
  pose proof upper_keys_are_unknown as K.
  rewrite forallb_forall in K. specialize (K s H).
  unfold get_default. destruct (get String.eqb card_map (upper s)); [discriminate|].
  reflexivity.
Qed.

Lemma documented_hand_encodes_as_zeros (cards : list string) :
  Forall (fun s => Spec.card_text_ok s = true) cards ->
  map (fun card => get_default String.eqb card_map (upper card) 0) cards
  = repeat 0 (List.length cards).
Proof.
  induction 1 as [|s t Hs _ IH]; simpl; [reflexivity|].
  now rewrite documented_card_encodes_as_0, IH.
Qed.

(** In the ASCII model no text at all is found once upper-cased: every
    key ends in one of the lower-case letters s, h, d, c, and an
    upper-cased character is none of them. *)
Lemma upper_ascii_is_no_suit (c : ascii) :
  existsb (Ascii.eqb (upper_ascii c)) (list_ascii_of_string suits) = false.
Proof. destruct c as [[] [] [] [] [] [] [] []]; vm_compute; reflexivity. Qed.

Lemma keys_end_in_a_suit :
  forallb (fun k => match k with
                    | String _ (String u EmptyString) =>
                        existsb (Ascii.eqb u) (list_ascii_of_string suits)
                    | _ => false
                    end) (keys card_map) = true.
Proof. vm_compute. reflexivity. Qed.

Lemma get_none {V} (d : list (string * V)) (x : string) :
  (forall k, In k (keys d) -> String.eqb k x = false) ->
  get String.eqb d x = None.
Proof.
  induction d as [|[k v] t IH]; simpl; intro H; [reflexivity|].
  rewrite (H k (or_introl eq_refl)). apply IH.
  intros k' Hk'. apply H. now right.
Qed.

Lemma upper_is_never_a_key (s : string) :
  get String.eqb card_map (upper s) = None
  /\ get_default String.eqb card_map (upper s) 0 = 0.
Proof.
  assert (G : get String.eqb card_map (upper s) = None).
  { apply get_none. intros k Hk.
    pose proof keys_end_in_a_suit as K. rewrite forallb_forall in K.
    specialize (K k Hk).
    destruct (String.eqb_spec k (upper s)) as [E|]; [|reflexivity].
    exfalso. subst k.
    destruct s as [|a [|b [|c t]]]; cbn [upper] in K; try discriminate.
    rewrite upper_ascii_is_no_suit in K. discriminate. }
  split; [exact G|]. unfold get_default. now rewrite G.
Qed.

(** C1. [evaluate_hand] upper-cases each card text before the lookup, the
    keys of the card table carry lower-case suits, and a text that is not
    found becomes the integer 0: every card in the documented format
    (rank, then lower-case suit) would be found as it is written, with a
    code other than 0, and is encoded as 0 once upper-cased.  Hence any
    two hands of five documented cards evaluate to the same [HandRank],
    whatever the cards. *)
Theorem evaluate_hand_is_constant_on_documented_cards :
  forall hand1 hand2,
    List.length hand1 = 5%nat -> List.length hand2 = 5%nat ->
    Forall (fun s => Spec.card_text_ok s = true) hand1 ->
    Forall (fun s => Spec.card_text_ok s = true) hand2 ->
    (forall s, In s (hand1 ++ hand2) ->
       (exists n, get String.eqb card_map s = Some n /\ n <> 0)
       /\ get String.eqb card_map (upper s) = None
       /\ get_default String.eqb card_map (upper s) 0 = 0)
    /\ evaluate_hand hand1 = evaluate_hand hand2
    /\ evaluate_hand hand1
       = Ok (Some (mkHandRank 0 [0; 0; 0; 0; 0] "2 high")).
Proof.
  intros h1 h2 L1 L2 F1 F2.
  assert (E : forall h, List.length h = 5%nat ->
                Forall (fun s => Spec.card_text_ok s = true) h ->
                evaluate_hand h
                = Ok (Some (mkHandRank 0 [0; 0; 0; 0; 0] "2 high"))).
  { intros h L F. unfold evaluate_hand.
    rewrite (documented_hand_encodes_as_zeros h F), L. reflexivity. }
  split; [|split; [rewrite (E h1 L1 F1), (E h2 L2 F2); reflexivity
                  | exact (E h1 L1 F1)]].
  intros s Hin.
  assert (Hs : Spec.card_text_ok s = true).
  { apply in_app_or in Hin. rewrite Forall_forall in F1, F2.
    destruct Hin; auto. }
  pose proof (card_text_ok_key s Hs) as Hk.
  pose proof keys_are_recognised as K1. pose proof upper_keys_are_unknown as K2.
  rewrite forallb_forall in K1, K2. specialize (K1 s Hk). specialize (K2 s Hk).
  split; [|split].
  - destruct (get String.eqb card_map s) as [n|]; [|discriminate].
    exists n. split; [reflexivity|].
    apply negb_true_iff, Z.eqb_neq in K1. exact K1.
  - destruct (get String.eqb card_map (upper s)); [discriminate | reflexivity].
  - now apply documented_card_encodes_as_0.
Qed.

Lemma evaluate_hand_is_constant_on_documented_cards_witness :
  evaluate_hand ["Ah"; "Kh"; "Qh"; "Jh"; "Th"]
  = evaluate_hand ["7c"; "2d"; "9s"; "4h"; "Jc"].
Proof.
  apply (evaluate_hand_is_constant_on_documented_cards
           ["Ah"; "Kh"; "Qh"; "Jh"; "Th"] ["7c"; "2d"; "9s"; "4h"; "Jc"]);
    try reflexivity;
    repeat (constructor; [reflexivity|]); constructor.
Defined.

End CardTable.

(** ** The frame queue *)

Section FrameQueue.
Import ScreenCapture.

(** C3, the claim as stated fails twice.  After two good captures the
    queue holds both and [get_latest_frame] hands out the older one; and
    after a failed capture it hands out the error-tagged result. *)
Lemma get_latest_frame_is_not_the_latest_success :
  (let self := run_captures (init 10) [Samples.frame 1; Samples.frame 2] in
   fst (get_latest_frame self) = Some (Samples.frame 1)
   /\ Spec.most_recent_success (items (_frame_queue self))
      = Some (Samples.frame 2)
   /\ fst (get_latest_frame self)
      <> Spec.most_recent_success (items (_frame_queue self)))
  /\ (let self := run_captures (init 10) [Samples.failed_frame 1] in
      fst (get_latest_frame self) = Some (Samples.failed_frame 1)
      /\ success (Samples.failed_frame 1) = false
      /\ Spec.most_recent_success (items (_frame_queue self)) = None).
Proof. vm_compute. repeat split; discriminate. Qed.

Lemma init_within_capacity (max_queue_size : Z) :
  Spec.within_capacity (init max_queue_size).
Proof. unfold Spec.within_capacity, init, qsize. simpl. lia. Qed.

(** What one pass of the capture loop leaves in the queue: the new result
    is the last entry, whether the capture succeeded or not; before it
    come the entries that were there, without the oldest when the queue
    was full; and the capacity is respected again. *)
Lemma capture_pass_enqueues (self : Engine) (result : CaptureResult) :
  Spec.within_capacity self ->
  Spec.within_capacity (_capture_loop_pass self result)
  /\ maxsize (_frame_queue (_capture_loop_pass self result))
     = maxsize (_frame_queue self)
  /\ exists kept,
       items (_frame_queue (_capture_loop_pass self result)) = kept ++ [result]
       /\ (kept = items (_frame_queue self)
           \/ kept = tl (items (_frame_queue self))).
Proof.
  unfold Spec.within_capacity, _capture_loop_pass, put_nowait, get_nowait, qsize.
  destruct self as [[m its] cc ec]; simpl. intro Hcap.
  destruct ((0 <? m) && (m <=? Z.of_nat (List.length its))) eqn:Full; simpl.
  - apply andb_true_iff in Full. rewrite Z.ltb_lt, Z.leb_le in Full.
    destruct its as [|x rest]; simpl in *; [lia|].
    replace ((0 <? m) && (m <=? Z.of_nat (List.length rest))) with false.
    + simpl. rewrite length_app. simpl. split; [lia|].
      split; [reflexivity|]. exists rest. auto.
    + symmetry. apply andb_false_iff. right. apply Z.leb_gt. lia.
  - apply andb_false_iff in Full. rewrite Z.ltb_ge, Z.leb_gt in Full.
    rewrite length_app. simpl. split; [lia|].
    split; [reflexivity|]. exists its. auto.
Qed.

Lemma run_captures_within_capacity (results : list CaptureResult)
    (self : Engine) :
  Spec.within_capacity self -> Spec.within_capacity (run_captures self results).
Proof.
  revert self. induction results as [|r rs IH]; intros self H; simpl.
  - exact H.
  - apply IH. apply capture_pass_enqueues. exact H.
Qed.

Lemma run_captures_snoc (results : list CaptureResult) (r : CaptureResult)
    (self : Engine) :
  run_captures self (results ++ [r])
  = _capture_loop_pass (run_captures self results) r.
Proof. unfold run_captures. now rewrite fold_left_app. Qed.

(** C3, as the code has it: [get_latest_frame] is a single
    [get_nowait], so it returns at once on every state of the engine.
    When the queue holds at least one captured result it returns one of
    them and takes it out of the queue, leaving the others and the
    counters as they were; the result may be an error-tagged failed
    capture, since the capture loop queues those as well.  When the queue
    is empty it returns [None]. *)
Theorem get_latest_frame_returns_a_queued_result :
  forall self,
    (items (_frame_queue self) = [] -> get_latest_frame self = (None, self))
    /\ (items (_frame_queue self) <> [] ->
        exists result,
          fst (get_latest_frame self) = Some result
          /\ In result (items (_frame_queue self))
          /\ Permutation (items (_frame_queue self))
               (result :: items (_frame_queue (snd (get_latest_frame self))))
          /\ _capture_count (snd (get_latest_frame self)) = _capture_count self
          /\ _error_count (snd (get_latest_frame self)) = _error_count self)
    /\ (forall max_queue_size results result,
          In result
            (items (_frame_queue
                      (run_captures (init max_queue_size)
                         (results ++ [result]))))).
Proof.
  intros [[m its] cc ec]. unfold get_latest_frame, get_nowait. simpl.
  split; [|split].
  - intros ->. reflexivity.
  - destruct its as [|x rest]; [congruence|]. intros _.
    exists x. simpl. repeat split; auto.
  - intros n rs r. rewrite run_captures_snoc.
    destruct (capture_pass_enqueues (run_captures (init n) rs) r)
      as (_ & _ & kept & E & _).
    + apply run_captures_within_capacity, init_within_capacity.
    + rewrite E. apply in_or_app. right. left. reflexivity.
Qed.

Lemma get_latest_frame_returns_a_queued_result_witness :
  exists result,
    fst (get_latest_frame
           (run_captures (init 2)
              [Samples.frame 1; Samples.failed_frame 2; Samples.frame 3]))
    = Some result
    /\ In result [Samples.failed_frame 2; Samples.frame 3].
Proof.
  destruct (get_latest_frame_returns_a_queued_result
              (run_captures (init 2)
                 [Samples.frame 1; Samples.failed_frame 2; Samples.frame 3]))
    as (_ & H & _).
  destruct H as (r & E & Hin & _); [discriminate|].
  exists r. split; [exact E | exact Hin].
Defined.

End FrameQueue.

(** ** Fusion of detections *)

Section Fusion.
Import CardDetector.

Lemma agrees_same_card (d e : CardDetectionResult) :
  agrees d e = true -> card_string d = card_string e.
Proof.
  unfold agrees. rewrite !andb_true_iff. intros [[H _] _].
  now apply String.eqb_eq.
Qed.

Lemma place_one_card (groups : list (list CardDetectionResult))
    (d : CardDetectionResult) :
  Forall Spec.one_card groups -> Forall Spec.one_card (place groups d).
Proof.
  induction 1 as [|g gs Hg HF IH]; simpl.
  - constructor; [|constructor]. split; [discriminate|].
    intros a b [<-|[]] [<-|[]]. reflexivity.
  - destruct (existsb (agrees d) g) eqn:E.
    + constructor; [|assumption]. destruct Hg as [Hne Hsame].
      apply existsb_exists in E. destruct E as (e & He & Hag).
      apply agrees_same_card in Hag.
      split; [destruct g; discriminate|].
      intros a b Ha Hb. apply in_app_or in Ha. apply in_app_or in Hb.
      destruct Ha as [Ha|[<-|[]]], Hb as [Hb|[<-|[]]]; auto.
      * rewrite Hag. auto.
      * rewrite Hag. auto.
    + constructor; assumption.
Qed.

Lemma place_permutation (groups : list (list CardDetectionResult))
    (d : CardDetectionResult) :
  Permutation (List.concat (place groups d)) (d :: List.concat groups).
Proof.
  induction groups as [|g gs IH]; simpl.
  - reflexivity.
  - destruct (existsb (agrees d) g); simpl.
    + rewrite <- app_assoc. simpl.
      rewrite <- Permutation_middle. reflexivity.
    + rewrite IH. rewrite Permutation_middle. reflexivity.
Qed.

Lemma fold_place_one_card (ds : list CardDetectionResult) :
  forall groups, Forall Spec.one_card groups ->
                 Forall Spec.one_card (fold_left place ds groups).
Proof.
  induction ds as [|d ds IH]; intros groups H; simpl; [assumption|].
  apply IH. now apply place_one_card.
Qed.

Lemma fold_place_permutation (ds : list CardDetectionResult) :
  forall groups,
    Permutation (List.concat (fold_left place ds groups)) (List.concat groups ++ ds).
Proof.
  induction ds as [|d ds IH]; intros groups; simpl.
  - now rewrite app_nil_r.
  - rewrite IH, place_permutation. simpl.
    rewrite <- Permutation_middle. reflexivity.
Qed.

Lemma max_confidence_in (l : list CardDetectionResult) :
  forall best, In (max_confidence best l) (best :: l).
Proof.
  induction l as [|d t IH]; intros best; simpl; [auto|].
  specialize (IH (if AIEngine.Qgtb (confidence d) (confidence best)
                  then d else best)).
  destruct IH as [E|H]; [|auto].
  rewrite <- E.
  destruct (AIEngine.Qgtb (confidence d) (confidence best)); auto.
Qed.

Lemma max_confidence_ge (l : list CardDetectionResult) :
  forall best d, In d (best :: l) ->
                 (confidence d <= confidence (max_confidence best l))%Q.
Proof.
  induction l as [|x t IH]; intros best d Hd; simpl.
  - destruct Hd as [<-|[]]. apply Qle_refl.
  - destruct (AIEngine.Qgtb (confidence x) (confidence best)) eqn:E.
    + apply Qgtb_true in E. destruct Hd as [<-|[<-|Hd]].
      * eapply Qle_trans; [apply Qlt_le_weak, E | apply IH; left; reflexivity].
      * apply IH. left. reflexivity.
      * apply IH. right. exact Hd.
    + apply Qgtb_false in E. destruct Hd as [<-|[<-|Hd]].
      * apply IH. left. reflexivity.
      * eapply Qle_trans; [exact E | apply IH; left; reflexivity].
      * apply IH. right. exact Hd.
Qed.

Lemma several_methods (group : list CardDetectionResult) :
  (1 < List.length (methods_of group))%nat <-> Spec.several_strategies group.
Proof.
  unfold methods_of, Spec.several_strategies. split.
  - intro H.
    pose proof (NoDup_nodup string_dec (map detection_method group)) as ND.
    assert (I : forall m, In m (nodup string_dec (map detection_method group))
                          -> exists d, In d group /\ detection_method d = m).
    { intros m Hm. apply nodup_In, in_map_iff in Hm.
      destruct Hm as (d & E & Hd). eauto. }
    destruct (nodup string_dec (map detection_method group))
      as [|m1 [|m2 rest]]; simpl in H; try lia.
    destruct (I m1 (or_introl eq_refl)) as (d1 & H1 & E1).
    destruct (I m2 (or_intror (or_introl eq_refl))) as (d2 & H2 & E2).
    exists d1, d2. repeat split; auto.
    rewrite E1, E2. intro E.
    inversion ND as [|? ? Hn _]. apply Hn. left. symmetry. exact E.
  - intros (d & d' & Hd & Hd' & Hne).
    assert (I1 : In (detection_method d)
                   (nodup string_dec (map detection_method group)))
      by (apply nodup_In, in_map; assumption).
    assert (I2 : In (detection_method d')
                   (nodup string_dec (map detection_method group)))
      by (apply nodup_In, in_map; assumption).
    destruct (nodup string_dec (map detection_method group))
      as [|m1 [|m2 rest]]; simpl in *; try lia; try contradiction.
    destruct I1 as [I1|[]], I2 as [I2|[]]. congruence.
Qed.

(** With a rank of one character, the text of a card determines its rank
    and its suit. *)
Lemma card_string_injective (d e : CardDetectionResult) :
  String.length (rank d) = 1%nat -> String.length (rank e) = 1%nat ->
  card_string d = card_string e -> rank d = rank e /\ suit d = suit e.
Proof.
  unfold card_string.
  destruct (rank d) as [|a [|? ?]], (rank e) as [|b [|? ?]]; simpl;
    try discriminate.
  intros _ _ H. inversion H. auto.
Qed.

(** Cutting the quotient towards zero moves it by less than one, and not
    at all when the division is exact. *)
Lemma quot_is_close_to_the_quotient (s n : Z) :
  0 < n ->
  (Qabs (inject_Z (Z.quot s n) - inject_Z s / inject_Z n) < 1)%Q
  /\ (Z.rem s n = 0 -> (inject_Z (Z.quot s n) == inject_Z s / inject_Z n)%Q).
Proof.
  intro Hn.
  pose proof (Z.quot_rem' s n) as E.
  assert (B : Z.abs (Z.rem s n) < n)
    by (pose proof (Z.rem_bound_abs s n); lia).
  assert (D : ~ (inject_Z n == 0)%Q) by (unfold Qeq; simpl; lia).
  assert (Q : (inject_Z s / inject_Z n
               == inject_Z (Z.quot s n) + inject_Z (Z.rem s n) / inject_Z n)%Q).
  { rewrite E at 1. rewrite inject_Z_plus, inject_Z_mult. field. exact D. }
  split.
  - rewrite Q.
    setoid_replace (inject_Z (Z.quot s n)
                    - (inject_Z (Z.quot s n)
                       + inject_Z (Z.rem s n) / inject_Z n))%Q
      with (- (inject_Z (Z.rem s n) / inject_Z n))%Q by ring.
    rewrite Qabs_opp. apply Qabs_Qlt_condition.
    assert (P : (0 < inject_Z n)%Q) by (unfold Qlt; simpl; lia).
    split.
    + apply Qlt_shift_div_l; [exact P|].
      setoid_replace (-(1) * inject_Z n)%Q with (inject_Z (- n))
        by (rewrite inject_Z_opp; ring).
      rewrite <- Zlt_Qlt. lia.
    + apply Qlt_shift_div_r; [exact P|].
      rewrite Qmult_1_l, <- Zlt_Qlt. lia.
  - intro R. rewrite Q, R. unfold Qdiv.
    rewrite Qmult_0_l, Qplus_0_r. reflexivity.
Qed.

(** The coordinate of a consensus against the arithmetic mean of the
    members' coordinates. *)
Lemma truncated_mean_is_close_to_the_mean (coordinates : list Z) :
  coordinates <> [] ->
  let n := Z.of_nat (List.length coordinates) in
  (Qabs (inject_Z (Z.quot (sumZ coordinates) n) - Spec.mean coordinates) < 1)%Q
  /\ (Z.rem (sumZ coordinates) n = 0 ->
      (inject_Z (Z.quot (sumZ coordinates) n) == Spec.mean coordinates)%Q).
Proof.
  intros Hne n. unfold Spec.mean. fold n.
  apply quot_is_close_to_the_quotient.
  subst n. destruct coordinates; [congruence | simpl List.length; lia].
Qed.

(** C7, the claim as stated fails on the position: the two detections of
    the ace of hearts at x = 10 and x = 11 merge into one consensus at
    x = 10, where the arithmetic mean is 10.5. *)
Lemma consensus_position_is_not_the_mean :
  exists consensus,
    _merge_detections [Samples.ace_yolo; Samples.ace_template] = [consensus]
    /\ fst (position consensus) = 10
    /\ (Spec.mean [10; 11]%Z == 21 # 2)%Q
    /\ ~ (inject_Z (fst (position consensus)) == Spec.mean [10; 11]%Z)%Q.
Proof.
  eexists. split; [vm_compute; reflexivity|].
  split; [reflexivity|]. split; [reflexivity|].
  vm_compute. discriminate.
Qed.

Lemma agrees_close (d e : CardDetectionResult) :
  agrees d e = true <-> Spec.close d e.
Proof.
  unfold agrees, Spec.close, proximity_threshold.
  rewrite !andb_true_iff, String.eqb_eq, !Z.ltb_lt. tauto.
Qed.

Lemma place_cluster (groups : list (list CardDetectionResult))
    (d : CardDetectionResult) :
  Forall Spec.cluster groups -> Forall Spec.cluster (place groups d).
Proof.
  induction 1 as [|g gs Hg HF IH]; simpl.
  - repeat constructor.
  - destruct (existsb (agrees d) g) eqn:E.
    + constructor; [|assumption].
      apply existsb_exists in E. destruct E as (e & He & Hag).
      apply (Spec.cluster_next g d e Hg He). now apply agrees_close.
    + constructor; assumption.
Qed.

Lemma fold_place_cluster (ds : list CardDetectionResult) :
  forall groups, Forall Spec.cluster groups ->
                 Forall Spec.cluster (fold_left place ds groups).
Proof.
  induction ds as [|d ds IH]; intros groups H; simpl; [assumption|].
  apply IH. now apply place_cluster.
Qed.

Lemma sumZ_is_the_sum (l : list Z) : sumZ l = fold_right Z.add 0 l.
Proof.
  unfold sumZ. rewrite <- fold_left_rev_right.
  assert (G : forall a b, fold_right (fun y x => x + y) a b
                          = fold_right Z.add a b).
  { intros a b. induction b as [|x t IH]; simpl; [reflexivity|].
    rewrite IH. lia. }
  rewrite G. clear G.
  assert (H : forall a l', fold_right Z.add a l' = a + fold_right Z.add 0 l').
  { intros a l'. induction l' as [|x t IH]; simpl; [lia|]. rewrite IH. lia. }
  induction l as [|x t IH]; simpl; [reflexivity|].
  rewrite fold_right_app. simpl. rewrite H, IH. lia.
Qed.

(** What the second loop of [_merge_detections] makes of a cluster. *)
Lemma finalize_fused (group : list CardDetectionResult) :
  group <> [] ->
  exists output, finalize group = [output] /\ Spec.fused group output.
Proof.
  intro Hne. destruct group as [|d0 [|d1 rest]]; [congruence| |].
  - exists d0. split; [reflexivity | now left].
  - set (g := d0 :: d1 :: rest).
    set (best := max_confidence d0 (d1 :: rest)).
    assert (Hbest : In best g) by apply max_confidence_in.
    assert (Hge : forall d, In d g -> (confidence d <= confidence best)%Q)
      by (intros d Hd; apply max_confidence_ge; exact Hd).
    eexists. split; [reflexivity|]. right.
    split; [simpl; lia|]. exists best.
    split; [exact Hbest|]. split; [exact Hge|].
    split; [reflexivity|]. split; [reflexivity|]. split; [reflexivity|].
    split.
    { cbn [position]. fold g. now rewrite !sumZ_is_the_sum. }
    split; [reflexivity|].
    cbv beta iota zeta delta [detection_method]. fold detection_method.
    split.
    + intro Hs. apply several_methods in Hs.
      apply Nat.ltb_lt in Hs. fold g. rewrite Hs. reflexivity.
    + intro Hs.
      assert (E : (1 <? List.length (methods_of g))%nat = false).
      { apply Nat.ltb_ge. apply Nat.nlt_ge. intro H. apply Hs.
        now apply several_methods. }
      fold g. rewrite E. reflexivity.
Qed.

Lemma flat_map_finalize_fused (groups : list (list CardDetectionResult)) :
  Forall Spec.one_card groups ->
  Forall2 Spec.fused groups (flat_map finalize groups).
Proof.
  induction 1 as [|g gs [Hne _] _ IH]; simpl; [constructor|].
  destruct (finalize_fused g Hne) as (out & E & F). rewrite E.
  simpl. constructor; assumption.
Qed.

Lemma merge_detections_is_the_fusion (detections : list CardDetectionResult) :
  _merge_detections detections
  = flat_map finalize (group_detections detections).
Proof. destruct detections; reflexivity. Qed.

Lemma place_keeps_merged (groups : list (list CardDetectionResult))
    (x d : CardDetectionResult) :
  (exists g, In g groups /\ In d g /\ (2 <= List.length g)%nat) ->
  exists g, In g (place groups x) /\ In d g /\ (2 <= List.length g)%nat.
Proof.
  induction groups as [|g0 gs IH]; intros (g & Hg & Hd & L); [contradiction|].
  simpl. destruct (existsb (agrees x) g0) eqn:E.
  - destruct Hg as [<-|Hg].
    + exists (g0 ++ [x]). split; [now left|].
      split; [apply in_or_app; now left|]. rewrite length_app. simpl. lia.
    + exists g. split; [now right | auto].
  - destruct Hg as [<-|Hg].
    + exists g0. split; [now left | auto].
    + destruct IH as (g' & Hg' & Hd' & L'); [eauto|].
      exists g'. split; [now right | auto].
Qed.

Lemma fold_place_keeps_merged (xs : list CardDetectionResult)
    (d : CardDetectionResult) :
  forall groups,
    (exists g, In g groups /\ In d g /\ (2 <= List.length g)%nat) ->
    exists g, In g (fold_left place xs groups) /\ In d g
              /\ (2 <= List.length g)%nat.
Proof.
  induction xs as [|x xs IH]; intros groups H; simpl; [exact H|].
  apply IH. now apply place_keeps_merged.
Qed.

Lemma place_merges (groups : list (list CardDetectionResult))
    (d : CardDetectionResult) :
  (exists g e, In g groups /\ In e g /\ agrees d e = true) ->
  exists g, In g (place groups d) /\ In d g /\ (2 <= List.length g)%nat.
Proof.
  induction groups as [|g0 gs IH]; intros (g & e & Hg & He & Ha);
    [contradiction|].
  simpl. destruct (existsb (agrees d) g0) eqn:E.
  - exists (g0 ++ [d]). split; [now left|].
    split; [apply in_or_app; right; now left|].
    rewrite length_app. simpl.
    destruct g0; [discriminate | simpl; lia].
  - destruct Hg as [<-|Hg].
    + assert (X : existsb (agrees d) g0 = true)
        by (apply existsb_exists; eauto).
      congruence.
    + destruct IH as (g' & Hg' & Hd' & L'); [eauto|].
      exists g'. split; [now right | auto].
Qed.

(** A detection that agrees with one given before it is merged: it ends
    in a cluster of two or more. *)
Lemma agreeing_detections_are_merged (pre post : list CardDetectionResult)
    (d : CardDetectionResult) :
  (exists e, In e pre /\ Spec.close d e) ->
  exists g, In g (group_detections (pre ++ d :: post)) /\ In d g
            /\ (2 <= List.length g)%nat.
Proof.
  intros (e & He & Hc). unfold group_detections.
  rewrite fold_left_app. cbn [fold_left].
  apply fold_place_keeps_merged. apply place_merges.
  assert (I : In e (List.concat (fold_left place pre []))).
  { eapply Permutation_in; [symmetry; apply fold_place_permutation|].
    exact He. }
  apply in_concat in I. destruct I as (g & Hg & Heg).
  exists g, e. split; [exact Hg|]. split; [exact Heg|].
  now apply agrees_close.
Qed.

(** C7, as the code has it.
    (1) A cluster of two or more detections becomes exactly one consensus
    detection: it carries the card of its most confident member [best],
    which is the card of every member; its position is the sum of the
    member positions divided by their number, each coordinate cut towards
    zero to an integer; its confidence is
    min(1.0, confidence of best + (size - 1) * 0.1), which is at least the
    confidence of every member when those are at most 1; its tag is
    "hybrid" when the members came from more than one strategy and the
    tag of [best], shared by all, otherwise.
    (2) Every cluster yields one detection of the output, the clusters
    partition the input, and a cluster holds one card only.
    (3) Two detections of the same card less than 50 pixels apart on both
    axes merge into one; two detections of different (rank, suit) are
    both passed on unchanged, also at the same position.
    (4) On every input the output is, cluster by cluster and in the order
    of the clusters, the only member of the cluster as it is or the
    consensus of its two or more members.  The clusters partition the
    input; each holds one card and grew from its first member by
    detections that agree with a member already in it; and a detection
    that agrees with one given before it always ends in a cluster of two
    or more, so it is never passed on as it is.
    (5) The clustering is greedy, so two detections that agree may end in
    different clusters and the output may hold two detections that
    agree: of the ace of hearts seen at x = 0, 55 and 49, the third joins
    the first, and the second is passed on as it is although it agrees
    with the third and with the consensus. *)
Theorem consensus_of_clusters :
  (forall detections group,
      In group (group_detections detections) ->
      (2 <= List.length group)%nat ->
      exists best consensus,
        finalize group = [consensus]
        /\ In best group
        /\ (forall d, In d group ->
              (confidence d <= confidence best)%Q
              /\ card_string d = card_string best)
        /\ rank consensus = rank best /\ suit consensus = suit best
        /\ position consensus
           = (Z.quot (sumZ (map (fun d => fst (position d)) group))
                (Z.of_nat (List.length group)),
              Z.quot (sumZ (map (fun d => snd (position d)) group))
                (Z.of_nat (List.length group)))
        /\ confidence consensus
           = Qmin 1 (confidence best
                     + inject_Z (Z.of_nat (List.length group) - 1) * (1 # 10))
        /\ ((forall d, In d group -> (confidence d <= 1)%Q) ->
            forall d, In d group -> (confidence d <= confidence consensus)%Q)
        /\ (Spec.several_strategies group ->
            detection_method consensus = "hybrid")
        /\ (~ Spec.several_strategies group ->
            forall d, In d group ->
                      detection_method consensus = detection_method d))
  /\ (forall detections,
        List.length (_merge_detections detections)
        = List.length (group_detections detections)
        /\ Permutation (List.concat (group_detections detections)) detections
        /\ Forall Spec.one_card (group_detections detections))
  /\ (forall d1 d2,
        card_string d1 = card_string d2 ->
        Z.abs (fst (position d2) - fst (position d1)) < 50 ->
        Z.abs (snd (position d2) - snd (position d1)) < 50 ->
        exists consensus, _merge_detections [d1; d2] = [consensus])
  /\ (forall d1 d2,
        String.length (rank d1) = 1%nat -> String.length (rank d2) = 1%nat ->
        (rank d1, suit d1) <> (rank d2, suit d2) ->
        _merge_detections [d1; d2] = [d1; d2])
  /\ (forall detections,
      exists clusters,
        Permutation (List.concat clusters) detections
        /\ Forall Spec.cluster clusters
        /\ Forall Spec.one_card clusters
        /\ Forall2 Spec.fused clusters (_merge_detections detections)
        /\ forall pre d post,
             detections = pre ++ d :: post ->
             (exists e, In e pre /\ Spec.close d e) ->
             exists c, In c clusters /\ In d c /\ (2 <= List.length c)%nat)
  /\ (exists consensus,
        _merge_detections
          [Samples.ace_at 0; Samples.ace_at 55; Samples.ace_at 49]
        = [consensus; Samples.ace_at 55]
        /\ Spec.close (Samples.ace_at 49) (Samples.ace_at 55)
        /\ Spec.close consensus (Samples.ace_at 55)).
Proof.
  assert (Hgroups : forall ds, Forall Spec.one_card (group_detections ds)).
  { intro ds. apply fold_place_one_card. constructor. }
  split; [|split; [|split; [|split; [|split]]]].
  - intros ds g Hg Hlen.
    pose proof (Hgroups ds) as HF. rewrite Forall_forall in HF.
    destruct (HF g Hg) as [_ Hsame].
    destruct g as [|d0 [|d1 rest]]; simpl in Hlen; try lia.
    set (g := d0 :: d1 :: rest) in *.
    set (best := max_confidence d0 (d1 :: rest)).
    assert (Hbest : In best g) by apply max_confidence_in.
    assert (Hge : forall d, In d g -> (confidence d <= confidence best)%Q)
      by (intros d Hd; apply max_confidence_ge; exact Hd).
    exists best. eexists. split; [reflexivity|].
    split; [exact Hbest|].
    split; [intros d Hd; split; [apply Hge | apply Hsame]; assumption|].
    split; [reflexivity|]. split; [reflexivity|].
    split; [reflexivity|]. split; [reflexivity|].
    cbv beta iota zeta delta [confidence detection_method].
    fold confidence. fold detection_method.
    split; [|split].
    + intros H1 d Hd. apply Q.min_glb; [apply H1; exact Hd|].
      eapply Qle_trans; [apply Hge; exact Hd|].
      rewrite <- (Qplus_0_r (confidence best)) at 1.
      apply Qplus_le_r. apply Qmult_le_0_compat; [|discriminate].
      change 0%Q with (inject_Z 0). rewrite <- Zle_Qle. subst g. simpl List.length. lia.
    + intro Hs. apply several_methods in Hs.
      apply Nat.ltb_lt in Hs. fold g. rewrite Hs. reflexivity.
    + intros Hs d Hd.
      assert (E : (1 <? List.length (methods_of g))%nat = false).
      { apply Nat.ltb_ge. apply Nat.nlt_ge. intro H. apply Hs.
        now apply several_methods. }
      fold g. rewrite E. fold best.
      destruct (string_dec (detection_method best) (detection_method d))
        as [Eq|Ne]; [exact Eq|].
      exfalso. apply Hs. exists best, d. auto.
  - intro ds. split; [|split].
    + unfold _merge_detections. destruct ds as [|d ds]; [reflexivity|].
      pose proof (Hgroups (d :: ds)) as HF.
      induction HF as [|g gs [Hne _] _ IH]; simpl; [reflexivity|].
      rewrite length_app, IH. f_equal.
      destruct g as [|a [|b t]]; [congruence | reflexivity | reflexivity].
    + unfold group_detections. rewrite fold_place_permutation. reflexivity.
    + apply Hgroups.
  - intros d1 d2 Hc Hx Hy. unfold _merge_detections, group_detections. simpl.
    assert (E : agrees d2 d1 = true).
    { unfold agrees, proximity_threshold. rewrite Hc, String.eqb_refl. simpl.
      apply andb_true_iff. split; apply Z.ltb_lt; assumption. }
    rewrite E. simpl. eexists. reflexivity.
  - intros d1 d2 L1 L2 Hne. unfold _merge_detections, group_detections. simpl.
    assert (E : agrees d2 d1 = false).
    { unfold agrees.
      destruct (String.eqb (card_string d2) (card_string d1)) eqn:Es;
        [|reflexivity].
      apply String.eqb_eq in Es.
      destruct (card_string_injective d2 d1 L2 L1 Es) as [Er Esu].
      exfalso. apply Hne. now rewrite Er, Esu. }
    rewrite E. reflexivity.
  - intro ds. exists (group_detections ds).
    split; [unfold group_detections; rewrite fold_place_permutation;
            reflexivity|].
    split; [apply fold_place_cluster; constructor|].
    split; [apply Hgroups|].
    split.
    + rewrite merge_detections_is_the_fusion.
      apply flat_map_finalize_fused, Hgroups.
    + intros pre d post -> H. now apply agreeing_detections_are_merged.
  - eexists. split; [vm_compute; reflexivity|].
    split; unfold Spec.close; simpl; repeat split; lia.
Qed.

Lemma consensus_of_clusters_witness :
  (exists consensus,
     _merge_detections [Samples.ace_yolo; Samples.ace_template] = [consensus])
  /\ _merge_detections [Samples.ace_yolo; Samples.king_yolo]
     = [Samples.ace_yolo; Samples.king_yolo].
Proof.
  destruct consensus_of_clusters as (_ & _ & Hsame & Hdiff & _).
  split.
  - apply Hsame; [reflexivity | simpl; lia | simpl; lia].
  - apply Hdiff; [reflexivity | reflexivity | discriminate].
Defined.

End Fusion.

(** ** The evaluation of five cards never raises *)

Section FiveCards.
Import HandEvaluator.

Lemma insert_asc_length (x : Z) (l : list Z) :
  List.length (insert_asc x l) = S (List.length l).
Proof.
  induction l as [|y t IH]; simpl; [reflexivity|].
  destruct (x <=? y); simpl; [reflexivity | now rewrite IH].
Qed.

Lemma sorted_length (l : list Z) : List.length (sorted l) = List.length l.
Proof.
  induction l as [|x t IH]; simpl; [reflexivity|].
  unfold sorted in *. now rewrite insert_asc_length, IH.
Qed.

Lemma sorted_reverse_length (l : list Z) :
  List.length (sorted_reverse l) = List.length l.
Proof. unfold sorted_reverse. now rewrite length_rev, sorted_length. Qed.

Lemma index0_total {A} (l : list A) :
  l <> [] -> exists x, index0 l = Ok x.
Proof. destruct l; [congruence | simpl; eauto]. Qed.

Lemma nonempty_length {A} (l : list A) : (0 < List.length l)%nat -> l <> [].
Proof. destruct l; simpl; [lia | discriminate]. Qed.

(** Every card is counted once. *)
Lemma setitem_total_count (d : list (Z * Z)) (k : Z) :
  Spec.total_count (setitem Z.eqb d k (get_default Z.eqb d k 0 + 1))
  = Spec.total_count d + 1.
Proof.
  induction d as [|[k' v'] t IH]; simpl; [reflexivity|].
  unfold get_default in *. simpl.
  destruct (k' =? k); simpl; [lia|]. rewrite IH. lia.
Qed.

Lemma setitem_positive (d : list (Z * Z)) (k : Z) :
  Forall (fun rc => 1 <= snd rc) d ->
  Forall (fun rc => 1 <= snd rc)
    (setitem Z.eqb d k (get_default Z.eqb d k 0 + 1)).
Proof.
  induction 1 as [|[k' v'] t Hv Ht IH]; simpl.
  - constructor; [simpl; lia | constructor].
  - unfold get_default in *. simpl in *.
    destruct (k' =? k); constructor; simpl; auto; lia.
Qed.

Lemma count_ranks_total (cards : list Z) :
  Spec.total_count (_count_ranks cards) = Z.of_nat (List.length cards)
  /\ Forall (fun rc => 1 <= snd rc) (_count_ranks cards).
Proof.
  unfold _count_ranks.
  set (step := fun (counts : list (Z * Z)) (card : Z) =>
                 let rank := Z.land card 0xF in
                 setitem Z.eqb counts rank
                   (get_default Z.eqb counts rank 0 + 1)).
  assert (G : forall d,
             Forall (fun rc => 1 <= snd rc) d ->
             Spec.total_count (fold_left step cards d)
             = Spec.total_count d + Z.of_nat (List.length cards)
             /\ Forall (fun rc => 1 <= snd rc) (fold_left step cards d)).
  { induction cards as [|c cs IH]; intros d Hd.
    - simpl. split; [lia | assumption].
    - cbn [fold_left List.length].
      assert (Hs : Forall (fun rc => 1 <= snd rc) (step d c))
        by (apply setitem_positive; exact Hd).
      destruct (IH _ Hs) as [E F].
      split; [|exact F]. rewrite E. unfold step.
      rewrite setitem_total_count. lia. }
  destruct (G [] (Forall_nil _)) as [E F]. split; [|exact F].
  rewrite E. simpl. lia.
Qed.

Lemma ranks_where_nil (p : Z -> bool) (d : list (Z * Z)) :
  ranks_where p d = [] -> forall rc, In rc d -> p (snd rc) = false.
Proof.
  unfold ranks_where. induction d as [|x t IH]; simpl; [contradiction|].
  destruct (p (snd x)) eqn:E; simpl; [discriminate|].
  intros H rc [<-|Hin]; auto.
Qed.

(** Four of a kind among five cards leaves a kicker. *)
Lemma quads_have_a_kicker (d : list (Z * Z)) :
  Spec.total_count d = 5 ->
  ranks_where (fun c => negb (c =? 4)) d <> [].
Proof.
  intros T H.
  assert (A : forall rc, In rc d -> snd rc = 4).
  { intros rc Hin. pose proof (ranks_where_nil _ d H rc Hin) as E.
    apply negb_false_iff, Z.eqb_eq in E. exact E. }
  assert (M : Spec.total_count d = 4 * Z.of_nat (List.length d)).
  { clear T H. induction d as [|x t IH]; simpl; [reflexivity|].
    rewrite (A x (or_introl eq_refl)), IH; [lia|].
    intros rc Hin. apply A. now right. }
  lia.
Qed.

(** Two pairs among five cards leave a kicker. *)
Lemma two_pairs_have_a_kicker (d : list (Z * Z)) :
  Spec.total_count d = 5 ->
  Forall (fun rc => 1 <= snd rc) d ->
  ranks_where (fun c => c =? 4) d = [] ->
  ranks_where (fun c => c =? 3) d = [] ->
  (2 <= List.length (ranks_where (fun c => (c =? 2)%Z) d))%nat ->
  ranks_where (fun c => c =? 1) d <> [].
Proof.
  intros T P Q4 Q3 L2 Q1.
  assert (A : forall rc, In rc d -> snd rc = 2 \/ 5 <= snd rc).
  { intros rc Hin. rewrite Forall_forall in P.
    pose proof (P rc Hin).
    pose proof (ranks_where_nil _ d Q4 rc Hin) as E4.
    pose proof (ranks_where_nil _ d Q3 rc Hin) as E3.
    pose proof (ranks_where_nil _ d Q1 rc Hin) as E1.
    simpl in *. rewrite Z.eqb_neq in E4, E3, E1. lia. }
  assert (M : 2 * Z.of_nat (List.length (ranks_where (fun c => c =? 2) d))
              <= Spec.total_count d
              /\ (Spec.total_count d
                  = 2 * Z.of_nat (List.length (ranks_where (fun c => c =? 2) d))
                  \/ 5 <= Spec.total_count d
                          - 2 * Z.of_nat (List.length
                                            (ranks_where (fun c => c =? 2) d)))).
  { clear T P Q4 Q3 L2 Q1. unfold ranks_where.
    induction d as [|x t IH]; [simpl; lia|].
    destruct IH as [I1 I2]; [intros rc Hin; apply A; now right|].
    change (Spec.total_count (x :: t)) with (snd x + Spec.total_count t).
    cbn [filter].
    destruct (A x (or_introl eq_refl)) as [E|E];
      destruct (Z.eqb_spec (snd x) 2); cbn [map List.length];
      rewrite ?Nat2Z.inj_succ; lia. }
  lia.
Qed.

Lemma evaluate_5_cards_total (cards : list Z) :
  List.length cards = 5%nat -> exists r, _evaluate_5_cards cards = Ok r.
Proof.
  intro L.
  destruct (count_ranks_total cards) as [T P]. rewrite L in T.
  assert (Hr : exists r0 rest,
             sorted_reverse (map (fun c => Z.land c 0xF) cards) = r0 :: rest).
  { pose proof (sorted_reverse_length (map (fun c => Z.land c 0xF) cards)) as E.
    rewrite length_map, L in E.
    destruct (sorted_reverse (map (fun c => Z.land c 0xF) cards));
      [discriminate | eauto]. }
  destruct Hr as (r0 & rest & Hr).
  unfold _evaluate_5_cards.
  destruct (truthy (_check_flush cards)).
  { destruct (truthy (_check_straight cards)); [eauto|].
    rewrite Hr. simpl. eauto. }
  destruct (truthy (_check_straight cards)); [eauto|].
  destruct (ranks_where (fun c => c =? 4) (_count_ranks cards)) eqn:Q4.
  2:{ destruct (index0_total _ (quads_have_a_kicker _ T)) as (k & Ek).
      rewrite Ek. simpl. eauto. }
  destruct (ranks_where (fun c => c =? 3) (_count_ranks cards)) eqn:Q3.
  2:{ destruct (ranks_where (fun c => c =? 2) (_count_ranks cards)); eauto. }
  destruct (2 <=? List.length
                    (ranks_where (fun c => (c =? 2)%Z) (_count_ranks cards)))%nat
    eqn:L2.
  { apply Nat.leb_le in L2.
    pose proof (two_pairs_have_a_kicker _ T P Q4 Q3 L2) as K.
    assert (K' : sorted_reverse
                   (ranks_where (fun c => c =? 1) (_count_ranks cards)) <> []).
    { apply nonempty_length. rewrite sorted_reverse_length.
      destruct (ranks_where (fun c => c =? 1) (_count_ranks cards));
        [congruence | simpl; lia]. }
    destruct (index0_total _ K') as (k & Ek).
    destruct (ranks_where (fun c => c =? 2) (_count_ranks cards));
      rewrite Ek; simpl; eauto. }
  destruct (ranks_where (fun c => c =? 2) (_count_ranks cards))
    as [|p0 [|p1 ps]]; simpl in L2; try discriminate.
  - rewrite Hr. simpl. eauto.
  - eauto.
Qed.

End FiveCards.

(** ** The best five of six or seven cards *)

Section BestOfSeven.
Import HandEvaluator.

Lemma filter_length_cons {A} (x : A) (r : nat) (L : list (list A)) :
  filter (fun s => (List.length s =? S r)%nat) (map (cons x) L)
  = map (cons x) (filter (fun s => (List.length s =? r)%nat) L).
Proof.
  induction L as [|s t IH]; simpl; [reflexivity|].
  destruct (List.length s =? r)%nat; simpl; now rewrite IH.
Qed.

Lemma filter_length_0_cons {A} (x : A) (L : list (list A)) :
  filter (fun s => (List.length s =? 0)%nat) (map (cons x) L) = [].
Proof. induction L as [|s t IH]; simpl; [reflexivity | exact IH]. Qed.

(** [itertools.combinations] lists the subsequences of the given length,
    in the order in which [Spec.subsequences] lists them. *)
Lemma combinations_are_the_subsequences {A} (l : list A) :
  forall r,
    combinations l r
    = filter (fun s => (List.length s =? r)%nat) (Spec.subsequences l).
Proof.
  induction l as [|x t IH]; intros [|r]; simpl; try reflexivity.
  - rewrite filter_app, filter_length_0_cons, <- IH.
    destruct t; reflexivity.
  - now rewrite filter_app, filter_length_cons, <- !IH.
Qed.

Lemma five_card_subsets_length (cards : list Z) :
  Forall (fun s => List.length s = 5%nat) (Spec.five_card_subsets cards).
Proof.
  apply Forall_forall. intros s H. unfold Spec.five_card_subsets in H.
  apply filter_In in H. destruct H as [_ H]. now apply Nat.eqb_eq.
Qed.

Lemma mapM_total {A B} (f : A -> result B) (l : list A) :
  Forall (fun x => exists y, f x = Ok y) l ->
  exists ys, mapM f l = Ok ys /\ List.length ys = List.length l.
Proof.
  induction 1 as [|x t [y Hy] _ [ys [E L]]]; simpl.
  - exists []. auto.
  - rewrite Hy, E. simpl. exists (y :: ys). simpl. auto.
Qed.

(** The loop keeps a rank that none of the ranks seen is strictly above. *)
Lemma best_loop_maximum (combos : list (list Z)) :
  forall ranks best_rank,
    mapM _evaluate_5_cards combos = Ok ranks ->
    match best_rank, ranks with
    | None, [] => best_loop combos best_rank = Ok None
    | _, _ =>
        exists best,
          best_loop combos best_rank = Ok (Some best)
          /\ (Some best = best_rank \/ In best ranks)
          /\ (forall r, Some r = best_rank \/ In r ranks ->
                        __lt__ best r = false)
    end.
Proof.
  induction combos as [|c cs IH]; intros ranks best_rank Hm; simpl in Hm.
  - inversion Hm; subst. destruct best_rank as [b|]; simpl; [|reflexivity].
    exists b. split; [reflexivity|]. split; [auto|].
    intros r [E|[]]. inversion E; subst. unfold __lt__.
    rewrite Z.eqb_refl. simpl. apply list_lt_irrefl.
  - destruct (_evaluate_5_cards c) as [rank|e] eqn:Ec; [|discriminate].
    simpl in Hm.
    destruct (mapM _evaluate_5_cards cs) as [rs|e] eqn:Ecs; [|discriminate].
    simpl in Hm. inversion Hm; subst ranks. clear Hm.
    assert (Step :
      exists best,
        best_loop (c :: cs) best_rank = Ok (Some best)
        /\ (Some best = best_rank \/ In best (rank :: rs))
        /\ (forall r, Some r = best_rank \/ In r (rank :: rs) ->
                      __lt__ best r = false)).
    { simpl. rewrite Ec. simpl.
      destruct best_rank as [b|].
      - destruct (gt rank b) eqn:G; unfold gt in G.
        + specialize (IH rs (Some rank) eq_refl). simpl in IH.
          destruct IH as (best & E & Hin & Hmax).
          exists best. split; [exact E|]. split.
          * destruct Hin as [Hin|Hin]; [inversion Hin; subst; auto | auto].
          * intros r [Hr|[Hr|Hr]].
            -- inversion Hr; subst r.
               apply (not_lt_trans best rank b);
                 [apply Hmax; auto | now apply lt_asym].
            -- subst r. apply Hmax. auto.
            -- apply Hmax. auto.
        + specialize (IH rs (Some b) eq_refl). simpl in IH.
          destruct IH as (best & E & Hin & Hmax).
          exists best. split; [exact E|]. split.
          * destruct Hin as [Hin|Hin]; [inversion Hin; subst; auto | auto].
          * intros r [Hr|[Hr|Hr]].
            -- inversion Hr; subst r. apply Hmax. auto.
            -- subst r.
               apply (not_lt_trans best b rank); [apply Hmax; auto | exact G].
            -- apply Hmax. auto.
      - specialize (IH rs (Some rank) eq_refl). simpl in IH.
        destruct IH as (best & E & Hin & Hmax).
        exists best. split; [exact E|]. split.
        + destruct Hin as [Hin|Hin]; [inversion Hin; subst; auto | auto].
        + intros r [Hr|[Hr|Hr]]; [discriminate | subst r | ]; apply Hmax; auto. }
    destruct best_rank; exact Step.
Qed.

Lemma brute_force_maximum (cards : list Z) (n : nat) :
  List.length (Spec.five_card_subsets cards) = S n ->
  exists ranks best,
    mapM _evaluate_5_cards (Spec.five_card_subsets cards) = Ok ranks
    /\ List.length ranks = S n
    /\ best_loop (combinations cards 5) None = Ok (Some best)
    /\ Spec.is_maximum best ranks
    /\ (forall m, Spec.is_maximum m ranks -> __eq__ best m = true).
Proof.
  intro Hn.
  destruct (mapM_total _evaluate_5_cards (Spec.five_card_subsets cards))
    as (ranks & Em & El).
  { eapply Forall_impl; [|apply five_card_subsets_length].
    intros s Hs. now apply evaluate_5_cards_total. }
  rewrite Hn in El.
  pose proof (best_loop_maximum _ ranks None Em) as H. simpl in H.
  destruct ranks as [|r0 rs]; [discriminate|].
  destruct H as (best & Eb & Hin & Hmax).
  exists (r0 :: rs), best. split; [exact Em|]. split; [exact El|].
  split.
  { rewrite combinations_are_the_subsequences. exact Eb. }
  assert (Hb : In best (r0 :: rs)) by (destruct Hin; [discriminate | auto]).
  split; [split; [exact Hb | intros r Hr; apply Hmax; auto]|].
  intros m [Hm1 Hm2].
  destruct (lt_total best m) as [H|[H|H]]; [|exact H|].
  - rewrite Hmax in H; [discriminate | auto].
  - rewrite (Hm2 best Hb) in H. discriminate.
Qed.

(** Six and seven card texts reach the two loops with the codes of the
    card table. *)
Lemma evaluate_hand_of_six_or_seven (cards : list string) :
  (List.length cards = 7%nat ->
   evaluate_hand cards
   = _evaluate_7_cards
       (map (fun card => get_default String.eqb card_map (upper card) 0) cards))
  /\ (List.length cards = 6%nat ->
      evaluate_hand cards
      = _evaluate_6_cards
          (map (fun card => get_default String.eqb card_map (upper card) 0)
             cards)).
Proof.
  split; intro L; unfold evaluate_hand; rewrite L; reflexivity.
Qed.

(** C5. For seven cards, [_evaluate_7_cards] returns the maximum, under
    the order of [HandRank], of [_evaluate_5_cards] over the 21
    five-card subsets: the evaluation of every subset succeeds, the
    result is one of the 21 ranks, none of them is strictly above it, and
    every maximum of the 21 compares equal to it.  Likewise
    [_evaluate_6_cards] over the 6 five-card subsets of six cards.  The
    cards need not even be distinct. *)
Theorem best_of_seven_is_the_brute_force_maximum :
  forall cards,
    (List.length cards = 7%nat ->
     exists ranks best,
       mapM _evaluate_5_cards (Spec.five_card_subsets cards) = Ok ranks
       /\ List.length ranks = 21%nat
       /\ _evaluate_7_cards cards = Ok (Some best)
       /\ Spec.is_maximum best ranks
       /\ (forall m, Spec.is_maximum m ranks -> __eq__ best m = true))
    /\ (List.length cards = 6%nat ->
        exists ranks best,
          mapM _evaluate_5_cards (Spec.five_card_subsets cards) = Ok ranks
          /\ List.length ranks = 6%nat
          /\ _evaluate_6_cards cards = Ok (Some best)
          /\ Spec.is_maximum best ranks
          /\ (forall m, Spec.is_maximum m ranks -> __eq__ best m = true)).
Proof.
  intro cards. split; intro L.
  - apply (brute_force_maximum cards 20).
    do 8 (destruct cards as [|? cards]; try discriminate). reflexivity.
  - apply (brute_force_maximum cards 5).
    do 7 (destruct cards as [|? cards]; try discriminate). reflexivity.
Qed.

Lemma best_of_seven_is_the_brute_force_maximum_witness :
  exists ranks best,
    mapM _evaluate_5_cards
      (Spec.five_card_subsets
         [0x200C; 0x400B; 0x800A; 0x1009; 0x8008; 0x2007; 0x1006]) = Ok ranks
    /\ List.length ranks = 21%nat
    /\ _evaluate_7_cards
         [0x200C; 0x400B; 0x800A; 0x1009; 0x8008; 0x2007; 0x1006]
       = Ok (Some best)
    /\ Spec.is_maximum best ranks
    /\ (forall m, Spec.is_maximum m ranks -> __eq__ best m = true).
Proof.
  apply (best_of_seven_is_the_brute_force_maximum
           [0x200C; 0x400B; 0x800A; 0x1009; 0x8008; 0x2007; 0x1006]).
  reflexivity.
Defined.

End BestOfSeven.

(** ** The Monte Carlo equity *)

Section Equity.
Import ComputerVision AIEngine.

(** Deciding, for texts, that a list has no duplicates and that it lies
    within another. *)
Lemma NoDup_by_nodup (l : list string) : nodup string_dec l = l -> NoDup l.
Proof. intro H. rewrite <- H. apply NoDup_nodup. Qed.

Lemma incl_by_forallb (l l' : list string) :
  forallb (fun x => existsb (String.eqb x) l') l = true -> incl l l'.
Proof.
  intros H x Hx. rewrite forallb_forall in H.
  apply existsb_eqb_In. now apply H.
Qed.

(** C2, the claim as stated fails.  First, the trials are not scored by
    the hand-ranking engine: on the board Ah Ad Kc 2s + 2d the player's
    aces full of kings and the opponent's deuces full of aces both score
    6000 in [_evaluate_hand], so the code counts a tie and returns 0.5,
    while by [HandRank] the player is strictly greatest and the equity of
    the trial is 1.  Second, not every number of opponents yields an
    equity: before the flop, the 26th opponent finds the deck empty and
    the evaluation of no cards raises. *)
Lemma equity_is_not_scored_by_hand_rank :
  (exists code spec,
     calculate_equity Samples.rigged_shuffle 1
       Samples.full_house_hole Samples.full_house_board 1 = Ok code
     /\ Spec.equity_by_hand_rank Samples.rigged_shuffle 1
          Samples.full_house_hole Samples.full_house_board 1 = Ok spec
     /\ (code == 1 # 2)%Q /\ (spec == 1)%Q /\ ~ (code == spec)%Q)
  /\ Permutation
       (Samples.rigged_shuffle 0
          (Spec.available_cards Samples.full_house_hole Samples.full_house_board))
       (Spec.available_cards Samples.full_house_hole Samples.full_house_board)
  /\ calculate_equity Samples.no_shuffle 1
       [Samples.card "A" "h"; Samples.card "K" "d"] [] 26
     = Raise (ValueError "max() arg is an empty sequence").
Proof.
  split; [|split].
  - eexists. eexists. split; [vm_compute; reflexivity|].
    split; [vm_compute; reflexivity|].
    split; [reflexivity|]. split; [reflexivity|]. discriminate.
  - apply NoDup_Permutation_bis.
    + apply NoDup_by_nodup. vm_compute. reflexivity.
    + vm_compute. apply le_n.
    + apply incl_by_forallb. vm_compute. reflexivity.
  - vm_compute. reflexivity.
Qed.

(** *** The simplified evaluation never raises on cards of the data model *)

Lemma rank_value_total (r : string) :
  Spec.rank_ok r = true -> exists v, rank_value r = Ok v.
Proof.
  intro H. apply existsb_eqb_In in H. simpl in H.
  repeat (destruct H as [H|H]; [subst r; vm_compute; eauto|]).
  contradiction.
Qed.

Lemma tally_total (cards : list Card) :
  Forall (fun c => Spec.card_ok c = true) cards ->
  forall rank_values suit_counts rank_counts,
  exists rank_values' suit_counts' rank_counts',
    tally cards rank_values suit_counts rank_counts
    = Ok (rank_values', suit_counts', rank_counts')
    /\ (rank_values <> [] \/ cards <> [] -> rank_values' <> []).
Proof.
  induction 1 as [|c cs Hc _ IH]; intros rv sc rc; simpl.
  - exists rv, sc, rc. split; [reflexivity|]. intros [H|H]; congruence.
  - unfold Spec.card_ok in Hc. apply andb_true_iff in Hc.
    destruct (rank_value_total _ (proj1 Hc)) as (v & Ev). rewrite Ev. simpl.
    destruct (IH (rv ++ [v])
                (setitem String.eqb sc (suit c)
                   (get_default String.eqb sc (suit c) 0 + 1))
                (setitem Z.eqb rc v (get_default Z.eqb rc v 0 + 1)))
      as (rv' & sc' & rc' & E & Hne).
    exists rv', sc', rc'. split; [exact E|].
    intros _. apply Hne. left. destruct rv; discriminate.
Qed.

Lemma max_total (l : list Z) : l <> [] -> exists m, Py.max l = Ok m.
Proof. destruct l; [congruence | simpl; eauto]. Qed.

Lemma set_nonempty (l : list Z) : l <> [] -> Py.set l <> [].
Proof.
  destruct l as [|x t]; [congruence|]. intros _ H.
  assert (I : In x (Py.set (x :: t))) by (apply nodup_In; left; reflexivity).
  rewrite H in I. contradiction.
Qed.

Lemma max_rank_with_total (n : Z) (rank_counts : list (Z * Z)) :
  existsb (Z.eqb n) (values rank_counts) = true ->
  exists m, max_rank_with n rank_counts = Ok m.
Proof.
  intro H. apply max_total. apply existsb_exists in H.
  destruct H as (c & Hc & E). apply Z.eqb_eq in E. subst c.
  unfold values in Hc. apply in_map_iff in Hc. destruct Hc as (rc & E & Hin).
  intro Hnil.
  assert (I : In (fst rc)
                (map fst (filter (fun rc => snd rc =? n) rank_counts))).
  { apply in_map. apply filter_In. split; [exact Hin|]. now apply Z.eqb_eq. }
  rewrite Hnil in I. contradiction.
Qed.

Lemma evaluate_hand_total (hole_cards board_cards : list Card) :
  Forall (fun c => Spec.card_ok c = true) (hole_cards ++ board_cards) ->
  hole_cards ++ board_cards <> [] ->
  exists strength, _evaluate_hand hole_cards board_cards = Ok strength.
Proof.
  intros F Hne. unfold _evaluate_hand.
  destruct (tally_total _ F [] [] []) as (rv & sc & rc & E & Hrv).
  rewrite E. cbn [Py.bind].
  assert (U : sorted_reverse (Py.set rv) <> []).
  { apply nonempty_length. rewrite sorted_reverse_length.
    pose proof (set_nonempty rv (Hrv (or_intror Hne))).
    destruct (Py.set rv); [congruence | simpl; lia]. }
  destruct (max_total _ U) as (m & Em).
  destruct (_check_straight (sorted_reverse (Py.set rv))
            && existsb (fun count => 5 <=? count) (values sc)).
  { rewrite Em. cbn [Py.bind]. eauto. }
  destruct (existsb (Z.eqb 4) (values rc)) eqn:H4.
  { destruct (max_rank_with_total 4 rc H4) as (x & Ex). rewrite Ex. cbn [Py.bind]. eauto. }
  destruct (existsb (Z.eqb 3) (values rc) && existsb (Z.eqb 2) (values rc));
    [eauto|].
  destruct (existsb (fun count => 5 <=? count) (values sc)).
  { rewrite Em. cbn [Py.bind]. eauto. }
  destruct (_check_straight (sorted_reverse (Py.set rv))).
  { rewrite Em. cbn [Py.bind]. eauto. }
  destruct (existsb (Z.eqb 3) (values rc)) eqn:H3.
  { destruct (max_rank_with_total 3 rc H3) as (x & Ex). rewrite Ex. cbn [Py.bind]. eauto. }
  destruct (2 <=? List.length
                    (sorted_reverse
                       (filter (fun count => (2 <=? count)%Z) (values rc))))%nat;
    [eauto|].
  destruct (existsb (Z.eqb 2) (values rc)) eqn:H2.
  { destruct (max_rank_with_total 2 rc H2) as (x & Ex). rewrite Ex. cbn [Py.bind]. eauto. }
  eauto.
Qed.

(** *** One trial never raises when the deck covers the deal *)

Lemma deck_cards_are_cards :
  forallb (fun s => match card_of_str s with
                    | Ok c => Spec.card_ok c
                    | Raise _ => false
                    end) _create_deck = true.
Proof. vm_compute. reflexivity. Qed.

Lemma card_of_str_total (s : string) :
  In s _create_deck ->
  exists c, card_of_str s = Ok c /\ Spec.card_ok c = true.
Proof.
  intro H. pose proof deck_cards_are_cards as D.
  rewrite forallb_forall in D. specialize (D s H).
  destruct (card_of_str s) as [c|e]; [eauto | discriminate].
Qed.

Lemma slice_incl {A} (l : list A) (i j : nat) : incl (slice l i j) l.
Proof.
  unfold slice. intros x H.
  assert (F : forall n (k : list A), incl (firstn n k) k).
  { induction n as [|n IH]; intros [|y k] z Hz; simpl in *; try contradiction.
    destruct Hz as [->|Hz]; [now left | right; now apply IH]. }
  assert (S : forall n (k : list A), incl (skipn n k) k).
  { induction n as [|n IH]; intros [|y k] z Hz; simpl in *; auto.
    right. now apply IH. }
  apply (S i). apply (F (j - i)%nat). exact H.
Qed.

Lemma slice_nonempty {A} (l : list A) (i j : nat) :
  (i < List.length l)%nat -> (i < j)%nat -> slice l i j <> [].
Proof.
  intros Hi Hj. apply nonempty_length. unfold slice.
  rewrite length_firstn, length_skipn. lia.
Qed.

Lemma mapM_Forall {A B} (f : A -> result B) (P : B -> Prop) (l : list A) :
  Forall (fun x => exists y, f x = Ok y /\ P y) l ->
  exists ys, mapM f l = Ok ys /\ Forall P ys
             /\ List.length ys = List.length l.
Proof.
  induction 1 as [|x t (y & Hy & Py) _ (ys & E & F & L)]; simpl.
  - exists []. auto.
  - rewrite Hy, E. cbn [Py.bind]. exists (y :: ys). simpl. auto.
Qed.

Lemma cards_of_strs_total (strs : list string) :
  incl strs _create_deck ->
  exists cs, mapM card_of_str strs = Ok cs
             /\ Forall (fun c => Spec.card_ok c = true) cs
             /\ List.length cs = List.length strs.
Proof.
  intro H. apply mapM_Forall. apply Forall_forall. intros s Hs.
  apply card_of_str_total. now apply H.
Qed.

Lemma deal_opponents_incl (simulation_deck : list string) (n : nat) :
  forall deck_index,
    Forall (fun opp => incl opp simulation_deck)
      (fst (deal_opponents simulation_deck n deck_index))
    /\ snd (deal_opponents simulation_deck n deck_index)
       = (deck_index + 2 * n)%nat.
Proof.
  induction n as [|n IH]; intro i; simpl.
  - split; [constructor | lia].
  - specialize (IH (i + 2)%nat).
    destruct (deal_opponents simulation_deck n (i + 2)) as [rest last].
    simpl in *. destruct IH as [F E]. split.
    + constructor; [apply slice_incl | exact F].
    + lia.
Qed.

Lemma complete_board_total (community_cards : list Card)
    (simulation_deck : list string) (deck_index : nat) :
  incl simulation_deck _create_deck ->
  Forall (fun c => Spec.card_ok c = true) community_cards ->
  community_cards <> [] \/ (deck_index < List.length simulation_deck)%nat ->
  exists board_cards,
    complete_board community_cards simulation_deck deck_index = Ok board_cards
    /\ Forall (fun c => Spec.card_ok c = true) board_cards
    /\ board_cards <> [].
Proof.
  intros Hd Hc Hne. unfold complete_board.
  destruct (0 <? 5 - Z.of_nat (List.length community_cards)) eqn:N.
  - apply Z.ltb_lt in N.
    destruct (cards_of_strs_total
                (slice simulation_deck deck_index
                   (deck_index
                    + Z.to_nat (5 - Z.of_nat (List.length community_cards)))))
      as (ext & E & F & L).
    { intros x Hx. apply Hd. eapply slice_incl. exact Hx. }
    rewrite E. cbn [Py.bind]. exists (community_cards ++ ext).
    split; [reflexivity|]. split; [apply Forall_app; auto|].
    destruct Hne as [Hne|Hne].
    + destruct community_cards; [congruence | discriminate].
    + assert (X : ext <> []).
      { apply nonempty_length. rewrite L.
        assert (S : slice simulation_deck deck_index
                      (deck_index
                       + Z.to_nat (5 - Z.of_nat (List.length community_cards)))
                    <> []) by (apply slice_nonempty; lia).
        destruct (slice simulation_deck deck_index
                    (deck_index
                     + Z.to_nat (5 - Z.of_nat (List.length community_cards))));
          [congruence | simpl; lia]. }
      destruct community_cards; simpl; [exact X | discriminate].
  - apply Z.ltb_ge in N. exists community_cards.
    split; [reflexivity|]. split; [exact Hc|].
    destruct community_cards; [simpl in N; lia | discriminate].
Qed.

Lemma trial_strengths_total (hole_cards community_cards : list Card)
    (num_opponents : Z) (simulation_deck : list string) :
  incl simulation_deck _create_deck ->
  Forall (fun c => Spec.card_ok c = true) hole_cards ->
  Forall (fun c => Spec.card_ok c = true) community_cards ->
  community_cards <> []
  \/ (2 * Z.to_nat num_opponents < List.length simulation_deck)%nat ->
  exists strengths,
    trial_strengths hole_cards community_cards num_opponents simulation_deck
    = Ok strengths.
Proof.
  intros Hd Hh Hc Hne. unfold trial_strengths.
  destruct (deal_opponents_incl simulation_deck (Z.to_nat num_opponents) 0)
    as [Fo Ei].
  destruct (deal_opponents simulation_deck (Z.to_nat num_opponents) 0)
    as [opponents_cards deck_index].
  cbn [fst snd] in Fo, Ei. rewrite Nat.add_0_l in Ei. subst deck_index.
  destruct (complete_board_total community_cards simulation_deck
              (2 * Z.to_nat num_opponents) Hd Hc)
    as (board & Eb & Fb & Nb).
  { destruct Hne; [now left | right; lia]. }
  rewrite Eb. cbn [Py.bind].
  destruct (evaluate_hand_total hole_cards board) as (p & Ep).
  { apply Forall_app. auto. }
  { destruct hole_cards; simpl; [exact Nb | discriminate]. }
  rewrite Ep. cbn [Py.bind].
  destruct (mapM_Forall
              (fun opp => cs <- mapM card_of_str opp ;; _evaluate_hand cs board)
              (fun _ => True) opponents_cards)
    as (os & Eo & _ & _).
  { eapply Forall_impl; [|exact Fo]. intros opp Hopp.
    destruct (cards_of_strs_total opp) as (cs & Ecs & Fcs & _).
    { intros x Hx. apply Hd, Hopp, Hx. }
    rewrite Ecs. cbn [Py.bind].
    destruct (evaluate_hand_total cs board) as (v & Ev).
    { apply Forall_app. auto. }
    { destruct cs; simpl; [exact Nb | discriminate]. }
    exists v. auto. }
  rewrite Eo. cbn [Py.bind]. eauto.
Qed.

(** *** The loop counts wins and ties *)

Lemma count_cons (o x : Spec.outcome) (l : list Spec.outcome) :
  Spec.count o (x :: l)
  = (if Spec.outcome_eqb o x then 1 else 0) + Spec.count o l.
Proof.
  unfold Spec.count. simpl. destruct (Spec.outcome_eqb o x); simpl List.length; lia.
Qed.

Lemma simulation_loop_counts (shuffle : nat -> list string -> list string)
    (hole_cards community_cards : list Card) (num_opponents : Z)
    (available_cards : list string) (trials : list nat) :
  forall outcomes wins ties,
    mapM (fun t =>
            Spec.strength_trial_outcome hole_cards community_cards
              num_opponents (shuffle t available_cards)) trials
    = Ok outcomes ->
    simulation_loop shuffle hole_cards community_cards num_opponents
      available_cards trials wins ties
    = Ok (wins + Spec.count Spec.Win outcomes,
          ties + Spec.count Spec.Tie outcomes).
Proof.
  induction trials as [|t rest IH]; intros outcomes wins ties Hm;
    cbn [mapM] in Hm.
  - inversion Hm; subst. simpl. unfold Spec.count. simpl.
    now rewrite !Z.add_0_r.
  - unfold Spec.strength_trial_outcome in Hm at 1.
    cbn [simulation_loop].
    destruct (trial_strengths hole_cards community_cards num_opponents
                (shuffle t available_cards)) as [[p m]|e];
      [|discriminate].
    cbn [Py.bind] in Hm |- *.
    destruct (mapM _ rest) as [os|e] eqn:Er; [|discriminate].
    cbn [Py.bind] in Hm. inversion Hm; subst outcomes. clear Hm.
    rewrite !count_cons. unfold Spec.strength_outcome.
    destruct (m <? p).
    + rewrite (IH os (wins + 1) ties eq_refl).
      cbn [Spec.outcome_eqb]. cbv iota. f_equal. f_equal; lia.
    + destruct (p =? m).
      * rewrite (IH os wins (ties + 1) eq_refl).
        cbn [Spec.outcome_eqb]. cbv iota. f_equal. f_equal; lia.
      * rewrite (IH os wins ties eq_refl). reflexivity.
Qed.

Lemma create_deck_NoDup : NoDup _create_deck.
Proof. apply NoDup_by_nodup. vm_compute. reflexivity. Qed.

(** The known cards take at most their number out of the deck. *)
Lemma available_cards_length (hole_cards community_cards : list Card) :
  (52 <= List.length (Spec.available_cards hole_cards community_cards)
         + List.length (hole_cards ++ community_cards))%nat.
Proof.
  unfold Spec.available_cards.
  set (known := map card_string (hole_cards ++ community_cards)).
  pose proof (filter_length (fun c => existsb (String.eqb c) known) _create_deck)
    as E.
  assert (R : (List.length
                 (filter (fun c => existsb (String.eqb c) known) _create_deck)
               <= List.length known)%nat).
  { apply NoDup_incl_length.
    - apply NoDup_filter, create_deck_NoDup.
    - intros x Hx. apply filter_In in Hx. apply existsb_eqb_In, (proj2 Hx). }
  assert (L : List.length _create_deck = 52%nat) by reflexivity.
  assert (K : List.length known = List.length (hole_cards ++ community_cards))
    by (unfold known; apply length_map).
  lia.
Qed.

(** What the comparison of the two strengths decides. *)
Lemma strength_outcome_spec (player_strength max_opponent_strength : Z) :
  (Spec.strength_outcome player_strength max_opponent_strength = Spec.Win
   <-> max_opponent_strength < player_strength)
  /\ (Spec.strength_outcome player_strength max_opponent_strength = Spec.Tie
      <-> player_strength = max_opponent_strength)
  /\ (Spec.strength_outcome player_strength max_opponent_strength = Spec.Loss
      <-> player_strength < max_opponent_strength).
Proof.
  unfold Spec.strength_outcome.
  destruct (Z.ltb_spec max_opponent_strength player_strength);
    [|destruct (Z.eqb_spec player_strength max_opponent_strength)];
    repeat split; intros; try discriminate; try reflexivity; lia.
Qed.

End Equity.

(** ** The wheel *)

Section Wheel.
Import HandEvaluator.

Lemma insert_asc_permutation (x : Z) (l : list Z) :
  Permutation (insert_asc x l) (x :: l).
Proof.
  induction l as [|y t IH]; simpl; [reflexivity|].
  destruct (x <=? y); [reflexivity|].
  rewrite IH. apply perm_swap.
Qed.

Lemma insert_asc_sorted (x : Z) (l : list Z) :
  StronglySorted Z.le l -> StronglySorted Z.le (insert_asc x l).
Proof.
  induction 1 as [|y t Ht IH Hy]; simpl.
  - repeat constructor.
  - destruct (Z.leb_spec x y) as [Hxy|Hxy].
    + constructor; [constructor; assumption|].
      constructor; [exact Hxy|].
      eapply Forall_impl; [|exact Hy]. intros z Hz. simpl in Hz. lia.
    + constructor; [exact IH|].
      eapply Permutation_Forall.
      * symmetry. apply insert_asc_permutation.
      * constructor; [lia | exact Hy].
Qed.

Lemma sorted_permutation (l : list Z) : Permutation (sorted l) l.
Proof.
  induction l as [|x t IH]; simpl; [reflexivity|].
  unfold sorted in *. simpl. rewrite insert_asc_permutation. now constructor.
Qed.

Lemma sorted_is_sorted (l : list Z) : StronglySorted Z.le (sorted l).
Proof.
  induction l as [|x t IH]; simpl; [constructor|].
  unfold sorted in *. simpl. now apply insert_asc_sorted.
Qed.

Lemma StronglySorted_unique (l : list Z) :
  forall l', StronglySorted Z.le l -> StronglySorted Z.le l' ->
             Permutation l l' -> l = l'.
Proof.
  induction l as [|x t IH]; intros l' S S' P.
  - apply Permutation_nil in P. now subst.
  - destruct l' as [|y t'].
    + symmetry in P. apply Permutation_nil in P. discriminate.
    + inversion S as [|? ? St Fx]; subst. inversion S' as [|? ? St' Fy]; subst.
      assert (E : x = y).
      { assert (I1 : In x (y :: t'))
          by (apply (Permutation_in _ P); left; reflexivity).
        assert (I2 : In y (x :: t)).
        { symmetry in P. apply (Permutation_in _ P). left. reflexivity. }
        rewrite Forall_forall in Fx, Fy.
        destruct I1 as [I1|I1]; [congruence|].
        destruct I2 as [I2|I2]; [congruence|].
        pose proof (Fx y I2). pose proof (Fy x I1). lia. }
      subst y. f_equal. apply IH; auto.
      now apply Permutation_cons_inv in P.
Qed.

Lemma sorted_of_permutation (l l' : list Z) :
  Permutation l l' -> StronglySorted Z.le l' -> sorted l = l'.
Proof.
  intros P S. apply StronglySorted_unique; [apply sorted_is_sorted | exact S|].
  rewrite sorted_permutation. exact P.
Qed.

Lemma check_flush_mixed (cards : list Z) :
  (exists c c', In c cards /\ In c' cards
                /\ Z.land c 0xF000 <> Z.land c' 0xF000) ->
  _check_flush cards = None.
Proof.
  intros (c & c' & Hc & Hc' & Hne).
  destruct cards as [|c0 rest]; [contradiction|]. unfold _check_flush.
  destruct (forallb (fun card => Z.land card 0xF000 =? Z.land c0 0xF000) rest)
    eqn:F; [|reflexivity].
  rewrite forallb_forall in F. exfalso. apply Hne.
  assert (A : forall x, In x (c0 :: rest) ->
                        Z.land x 0xF000 = Z.land c0 0xF000).
  { intros x [<-|Hx]; [reflexivity|]. apply Z.eqb_eq. now apply F. }
  now rewrite (A c Hc), (A c' Hc').
Qed.

(** On card codes the wheel is a five-high straight: five cards whose
    ranks are A, 2, 3, 4, 5 in any order (the codes 12, 0, 1, 2, 3), not
    all of one suit, evaluate to category 4 with the tie-break [3], the
    code of the five, and so not to [12], the code of the ace. *)
Lemma wheel_is_five_high_on_card_codes (cards : list Z) :
  Permutation (map (fun c => Z.land c 0xF) cards) [12; 0; 1; 2; 3] ->
  (exists c c', In c cards /\ In c' cards
                /\ Z.land c 0xF000 <> Z.land c' 0xF000) ->
  _evaluate_5_cards cards = Ok (mkHandRank 4 [3] "Straight, 5 high").
Proof.
  intros P M. unfold _evaluate_5_cards.
  rewrite (check_flush_mixed cards M). cbn [truthy].
  assert (S : _check_straight cards = Some 3).
  { unfold _check_straight, Py.set.
    rewrite nodup_fixed_point.
    2:{ apply (Permutation_NoDup (l := [12; 0; 1; 2; 3]));
          [now symmetry|].
        apply NoDup_nodup with (decA := Z.eq_dec) (l := [12; 0; 1; 2; 3]). }
    rewrite (sorted_of_permutation _ [0; 1; 2; 3; 12]).
    - reflexivity.
    - rewrite P. change [0; 1; 2; 3; 12] with (sorted [12; 0; 1; 2; 3]).
      symmetry. apply sorted_permutation.
    - change [0; 1; 2; 3; 12] with (sorted [12; 0; 1; 2; 3]).
      apply sorted_is_sorted. }
  rewrite S. reflexivity.
Qed.

Lemma wheel_codes_example :
  _evaluate_5_cards
    (map (fun s => get_default String.eqb card_map s 0)
       ["4s"; "Ah"; "5h"; "2d"; "3c"])
  = Ok (mkHandRank 4 [3] "Straight, 5 high").
Proof.
  apply wheel_is_five_high_on_card_codes.
  - vm_compute. apply NoDup_Permutation_bis.
    + apply NoDup_nodup with (decA := Z.eq_dec) (l := [2; 12; 3; 0; 1]).
    + apply le_n.
    + intros x Hx. simpl in *. tauto.
  - exists 0x1002, 0x200C. vm_compute. repeat split; auto; discriminate.
Qed.

(** C10, at the entry point of the evaluator: the wheel A-2-3-4-5 of mixed
    suits, written in the documented format, does not evaluate to a
    straight.  Every card text misses the card table once upper-cased, the
    five cards become five zeros, and the result is the high-card rank
    "2 high"; the same hand on card codes evaluates to the five-high
    straight. *)
Theorem wheel_in_documented_format_is_not_a_straight :
  evaluate_hand ["Ah"; "2d"; "3c"; "4s"; "5h"]
  = Ok (Some (mkHandRank 0 [0; 0; 0; 0; 0] "2 high"))
  /\ _evaluate_5_cards
       (map (fun s => get_default String.eqb card_map s 0)
          ["Ah"; "2d"; "3c"; "4s"; "5h"])
     = Ok (mkHandRank 4 [3] "Straight, 5 high").
Proof. split; vm_compute; reflexivity. Qed.

End Wheel.

(** ** The trials of the equity simulation *)

Section Scoring.
Import ComputerVision AIEngine Tally.

(** *** Dictionaries that count *)
Section Counting.
Context {K : Type} (eqb : K -> K -> bool).
Hypothesis eqb_ok : forall a b, eqb a b = true <-> a = b.
Variable dec : forall a b : K, {a = b} + {a <> b}.

Lemma counting_get_setitem (d : list (K * Z)) (k : K) (v : Z) (k' : K) :
  get eqb (setitem eqb d k v) k'
  = if eqb k k' then Some v else get eqb d k'.
Proof.
  induction d as [|[k0 v0] t IH]; simpl; [reflexivity|].
  destruct (eqb k0 k) eqn:E; simpl.
  - apply eqb_ok in E. subst k0. destruct (eqb k k'); reflexivity.
  - destruct (eqb k0 k') eqn:E'; [|exact IH].
    destruct (eqb k k') eqn:E''; [|reflexivity].
    apply eqb_ok in E', E''. subst k0 k.
    assert (X : eqb k' k' = true) by now apply eqb_ok.
    congruence.
Qed.

Lemma counting_keys_setitem (d : list (K * Z)) (k : K) (v : Z) (x : K) :
  In x (keys (setitem eqb d k v)) -> x = k \/ In x (keys d).
Proof.
  induction d as [|[k0 v0] t IH]; simpl.
  - intros [H|[]]. now left.
  - destruct (eqb k0 k); simpl; [tauto|].
    intros [H|H]; [tauto|]. destruct (IH H); tauto.
Qed.

Lemma counting_setitem_NoDup (d : list (K * Z)) (k : K) (v : Z) :
  NoDup (keys d) -> NoDup (keys (setitem eqb d k v)).
Proof.
  induction d as [|[k0 v0] t IH]; simpl; intros N.
  - repeat constructor. intros [].
  - inversion N as [|? ? Hn Ht]; subst.
    destruct (eqb k0 k) eqn:E; simpl; [exact N|].
    constructor; [|now apply IH].
    intros H. apply counting_keys_setitem in H. destruct H as [H|H].
    + subst k0. assert (X : eqb k k = true) by now apply eqb_ok.
      congruence.
    + exact (Hn H).
Qed.

Lemma counts_empty : counts eqb dec [] [].
Proof. split; [constructor | reflexivity]. Qed.

Lemma counts_get_default (d : list (K * Z)) (seen : list K) (k : K) :
  counts eqb dec d seen -> get_default eqb d k 0 = occurrences dec seen k.
Proof.
  intros [_ G]. unfold get_default. rewrite G.
  destruct (Z.ltb_spec 0 (occurrences dec seen k)); [reflexivity|].
  unfold Tally.occurrences in *. lia.
Qed.

Lemma counts_step (d : list (K * Z)) (seen : list K) (k : K) :
  counts eqb dec d seen ->
  counts eqb dec (setitem eqb d k (get_default eqb d k 0 + 1))
    (seen ++ [k]).
Proof.
  intros C. pose proof (counts_get_default d seen k C) as D.
  destruct C as [N G]. split; [now apply counting_setitem_NoDup|].
  intros k'. rewrite counting_get_setitem, G, D.
  unfold Tally.occurrences. rewrite !count_occ_app. cbn [count_occ].
  destruct (eqb k k') eqn:E.
  - apply eqb_ok in E. subst k'.
    destruct (dec k k) as [_|X]; [|congruence].
    destruct (Z.ltb_spec 0 (Z.of_nat (count_occ dec seen k + 1)));
      [f_equal; lia | lia].
  - destruct (dec k k') as [X|_].
    + apply eqb_ok in X. congruence.
    + now rewrite Nat.add_0_r.
Qed.

Lemma counts_In (d : list (K * Z)) (seen : list K) (k : K) (v : Z) :
  counts eqb dec d seen ->
  In (k, v) d <-> (0 < occurrences dec seen k /\ v = occurrences dec seen k).
Proof.
  intros [N G]. specialize (G k).
  assert (X : In (k, v) d <-> get eqb d k = Some v).
  { clear G. induction d as [|[k0 v0] t IH]; simpl.
    - split; [intros [] | discriminate].
    - inversion N as [|? ? Hn Ht]; subst.
      destruct (eqb k0 k) eqn:E.
      + apply eqb_ok in E. subst k0. split.
        * intros [H|H]; [congruence|].
          exfalso. apply Hn. change k with (fst (k, v)).
          now apply in_map.
        * intros H. left. congruence.
      + rewrite <- (IH Ht). split; [|tauto].
        intros [H|H]; [|exact H].
        inversion H; subst.
        assert (Y : eqb k k = true) by now apply eqb_ok.
        congruence. }
  rewrite X, G.
  destruct (Z.ltb_spec 0 (occurrences dec seen k)) as [P|P].
  - split; [intros E; inversion E; auto | intros [_ ->]; reflexivity].
  - split; [discriminate | lia].
Qed.

(** A counting dictionary holds, in some order, the keys seen with the
    number of times each was seen. *)
Lemma counts_canonical (d : list (K * Z)) (seen universe : list K) :
  counts eqb dec d seen ->
  NoDup universe ->
  (forall k, In k seen -> In k universe) ->
  Permutation d
    (map (fun k => (k, occurrences dec seen k))
       (filter (fun k => 0 <? occurrences dec seen k) universe)).
Proof.
  intros C Nu Hu. apply NoDup_Permutation.
  - apply (NoDup_map_inv fst). exact (proj1 C).
  - apply (NoDup_map_inv fst). rewrite map_map. cbn [fst].
    rewrite map_id. now apply NoDup_filter.
  - intros [k v]. rewrite (counts_In d seen k v C), in_map_iff. split.
    + intros [P ->]. exists k. split; [reflexivity|].
      apply filter_In. split; [|now apply Z.ltb_lt].
      apply Hu. apply (count_occ_In dec). unfold Tally.occurrences in P. lia.
    + intros (k' & E & F). inversion E; subst.
      apply filter_In in F. destruct F as [_ F].
      apply Z.ltb_lt in F. split; [exact F | reflexivity].
Qed.

End Counting.

(** *** Lists up to order *)
Lemma existsb_Permutation {A} (f : A -> bool) (l l' : list A) :
  Permutation l l' -> existsb f l = existsb f l'.
Proof.
  induction 1; simpl; try congruence.
  - destruct (f x), (f y); reflexivity.
Qed.

Lemma existsb_map {A B} (f : B -> bool) (g : A -> B) (l : list A) :
  existsb f (map g l) = existsb (fun x => f (g x)) l.
Proof. induction l; simpl; congruence. Qed.

Lemma existsb_filter {A} (f p : A -> bool) (l : list A) :
  existsb f (filter p l) = existsb (fun x => p x && f x) l.
Proof.
  induction l as [|x t IH]; simpl; [reflexivity|].
  destruct (p x); simpl; congruence.
Qed.

Lemma existsb_ext_in {A} (f g : A -> bool) (l : list A) :
  (forall x, In x l -> f x = g x) -> existsb f l = existsb g l.
Proof.
  induction l as [|x t IH]; simpl; intros H; [reflexivity|].
  rewrite (H x) by now left. f_equal. apply IH. intros; apply H; now right.
Qed.

Lemma filter_map_swap {A B} (f : B -> bool) (g : A -> B) (l : list A) :
  filter f (map g l) = map g (filter (fun x => f (g x)) l).
Proof.
  induction l as [|x t IH]; simpl; [reflexivity|].
  destruct (f (g x)); simpl; congruence.
Qed.

Lemma filter_filter {A} (f p : A -> bool) (l : list A) :
  filter f (filter p l) = filter (fun x => p x && f x) l.
Proof.
  induction l as [|x t IH]; simpl; [reflexivity|].
  destruct (p x); simpl; [destruct (f x)|]; congruence.
Qed.

Lemma Permutation_filter {A} (f : A -> bool) (l l' : list A) :
  Permutation l l' -> Permutation (filter f l) (filter f l').
Proof.
  induction 1; simpl.
  - constructor.
  - destruct (f x); [now constructor | assumption].
  - destruct (f x), (f y); try apply Permutation_refl.
    apply perm_swap.
  - eapply Permutation_trans; eassumption.
Qed.

(** [max] returns the element that bounds the others. *)
Lemma fold_max_spec (t : list Z) (x : Z) :
  In (fold_left Z.max t x) (x :: t)
  /\ forall y, In y (x :: t) -> y <= fold_left Z.max t x.
Proof.
  revert x. induction t as [|a t IH]; intros x; simpl.
  - split; [now left | intros y [->|[]]; lia].
  - destruct (IH (Z.max x a)) as [I B]. split.
    + destruct I as [I|I]; [|right; now right].
      rewrite <- I. destruct (Z.max_spec x a) as [[_ ->]|[_ ->]];
        [right; now left | now left].
    + intros y [->|[->|H]].
      * specialize (B (Z.max y a) (or_introl eq_refl)). lia.
      * specialize (B (Z.max x y) (or_introl eq_refl)). lia.
      * apply B. now right.
Qed.

Lemma max_intro (l : list Z) (m : Z) :
  In m l -> (forall x, In x l -> x <= m) -> Py.max l = Ok m.
Proof.
  destruct l as [|x t]; [intros []|]. intros I B. unfold Py.max.
  destruct (fold_max_spec t x) as [I' B'].
  f_equal. apply Z.le_antisymm; [apply B, I' | apply B', I].
Qed.

Lemma StronglySorted_filter {A} (R : A -> A -> Prop) (p : A -> bool)
    (l : list A) :
  StronglySorted R l -> StronglySorted R (filter p l).
Proof.
  induction 1 as [|x t S IH F]; simpl; [constructor|].
  destruct (p x); [|exact IH]. constructor; [exact IH|].
  apply Forall_forall. intros y Hy. apply filter_In in Hy.
  rewrite Forall_forall in F. apply F. tauto.
Qed.

Lemma filter_rev {A} (p : A -> bool) (l : list A) :
  filter p (rev l) = rev (filter p l).
Proof.
  induction l as [|x t IH]; simpl; [reflexivity|].
  rewrite filter_app, IH. simpl. destruct (p x); simpl;
    [reflexivity | now rewrite app_nil_r].
Qed.


(** *** The dictionaries of [_evaluate_hand] *)
Lemma rank_value_number (r : string) :
  Spec.rank_ok r = true ->
  rank_value r = Ok (Spec.rank_number r) /\ In (Spec.rank_number r) Spec.ladder.
Proof.
  intros H. unfold Spec.rank_ok in H. apply existsb_exists in H.
  destruct H as (x & Hin & E). apply String.eqb_eq in E. subst x.
  simpl in Hin.
  repeat (destruct Hin as [<-|Hin];
          [split; [reflexivity | vm_compute; intuition congruence]|]).
  contradiction.
Qed.

Lemma tally_counts (cards : list Card) :
  Forall (fun c => Spec.card_ok c = true) cards ->
  forall rank_values suit_counts rank_counts suits,
    counts String.eqb string_dec suit_counts suits ->
    counts Z.eqb Z.eq_dec rank_counts rank_values ->
    exists suit_counts' rank_counts',
      tally cards rank_values suit_counts rank_counts
      = Ok (rank_values ++ map (fun c => Spec.rank_number (rank c)) cards,
            suit_counts', rank_counts')
      /\ counts String.eqb string_dec suit_counts' (suits ++ map suit cards)
      /\ counts Z.eqb Z.eq_dec rank_counts'
           (rank_values ++ map (fun c => Spec.rank_number (rank c)) cards).
Proof.
  induction 1 as [|c cards Hc _ IH]; intros rv sc rc suits Cs Cr.
  - exists sc, rc. cbn [tally map]. rewrite !app_nil_r. auto.
  - unfold Spec.card_ok in Hc. apply andb_prop in Hc.
    destruct (rank_value_number (rank c) (proj1 Hc)) as [E _].
    cbn [tally map]. rewrite E. cbn [Py.bind].
    destruct (IH (rv ++ [Spec.rank_number (rank c)])
                (setitem String.eqb sc (suit c)
                   (get_default String.eqb sc (suit c) 0 + 1))
                (setitem Z.eqb rc (Spec.rank_number (rank c))
                   (get_default Z.eqb rc (Spec.rank_number (rank c)) 0 + 1))
                (suits ++ [suit c]))
      as (sc' & rc' & Et & Cs' & Cr').
    + apply counts_step; [apply String.eqb_eq | exact Cs].
    + apply counts_step; [apply Z.eqb_eq | exact Cr].
    + exists sc', rc'. rewrite <- !app_assoc in *. cbn [app] in *. auto.
Qed.

(** *** Sets of ranks as descending lists *)
Lemma ladder_NoDup : NoDup Spec.ladder.
Proof.
  assert (E : Spec.ladder = nodup Z.eq_dec Spec.ladder) by reflexivity.
  rewrite E. apply NoDup_nodup.
Qed.

Lemma ladder_descends : StronglySorted Z.ge Spec.ladder.
Proof.
  unfold Spec.ladder.
  repeat (constructor; [|repeat (constructor; [lia|]); constructor]).
  constructor.
Qed.

Lemma ladder_reversed_ascends : StronglySorted Z.le (rev Spec.ladder).
Proof.
  cbv [Spec.ladder rev app].
  repeat (constructor; [|repeat (constructor; [lia|]); constructor]).
  constructor.
Qed.

Lemma held_In (ranks : list Z) (r : Z) :
  Spec.held ranks r = true <-> In r ranks.
Proof.
  unfold Spec.held, Spec.times. rewrite Z.ltb_lt, (count_occ_In Z.eq_dec).
  lia.
Qed.

(** [sorted(set(rank_values), reverse=True)] lists the ranks held, from
    the highest down. *)
Lemma unique_ranks_ladder (rank_values : list Z) :
  (forall r, In r rank_values -> In r Spec.ladder) ->
  sorted_reverse (Py.set rank_values)
  = filter (Spec.held rank_values) Spec.ladder.
Proof.
  intros Hl. unfold sorted_reverse.
  rewrite (sorted_of_permutation (Py.set rank_values)
             (rev (filter (Spec.held rank_values) Spec.ladder))).
  - apply rev_involutive.
  - apply NoDup_Permutation.
    + apply NoDup_nodup.
    + apply NoDup_rev. apply NoDup_filter. exact ladder_NoDup.
    + intros x. unfold Py.set. rewrite nodup_In, <- in_rev, filter_In.
      rewrite held_In. split; [intros H; split; auto | tauto].
  - rewrite <- filter_rev. apply StronglySorted_filter.
    exact ladder_reversed_ascends.
Qed.

(** The highest of the ranks with a property is one of them and bounds
    them; it is the [max] of their list. *)
Lemma highest_spec (p : Z -> bool) :
  filter p Spec.ladder <> [] ->
  In (Spec.highest p) (filter p Spec.ladder)
  /\ forall y, In y (filter p Spec.ladder) -> y <= Spec.highest p.
Proof.
  intros Hne. unfold Spec.highest.
  pose proof (StronglySorted_filter Z.ge p _ ladder_descends) as S.
  destruct (filter p Spec.ladder) as [|x t]; [congruence|].
  cbn [hd]. split; [now left|].
  intros y [->|Hy]; [lia|].
  inversion S as [|? ? _ F]; subst. rewrite Forall_forall in F.
  specialize (F y Hy). lia.
Qed.

Lemma max_of_ladder (p : Z -> bool) :
  filter p Spec.ladder <> [] ->
  Py.max (filter p Spec.ladder) = Ok (Spec.highest p).
Proof.
  intros Hne. destruct (highest_spec p Hne) as [I B].
  now apply max_intro.
Qed.

Lemma select_of_test (h : Z -> bool) (l : list Z) :
  map fst (filter snd (combine l (map h l))) = filter h l.
Proof.
  induction l as [|x t IH]; simpl; [reflexivity|].
  destruct (h x); simpl; congruence.
Qed.

Lemma vectors_complete (bits : list bool) :
  In bits (vectors (List.length bits)).
Proof.
  induction bits as [|b t IH]; simpl; [now left|].
  apply in_or_app. destruct b; [left | right]; now apply in_map.
Qed.

Lemma check_straight_on_vectors :
  forallb (fun bits =>
             Bool.eqb (_check_straight (select bits))
               (Spec.straight_of (lookup bits)))
    (vectors 13) = true.
Proof. vm_compute. reflexivity. Qed.

(** [_check_straight] on the descending list of the ranks held: five
    consecutive ranks, or the wheel. *)
Lemma check_straight_ladder (h : Z -> bool) :
  _check_straight (filter h Spec.ladder) = Spec.straight_of h.
Proof.
  pose proof check_straight_on_vectors as B.
  rewrite forallb_forall in B.
  specialize (B (map h Spec.ladder) (vectors_complete _)).
  apply eqb_prop in B. unfold select in B.
  rewrite select_of_test in B. rewrite B. reflexivity.
Qed.


(** *** The strength returned by [_evaluate_hand] *)
Lemma rank_counts_canonical (rank_counts : list (Z * Z)) (ranks : list Z) :
  counts Z.eqb Z.eq_dec rank_counts ranks ->
  (forall r, In r ranks -> In r Spec.ladder) ->
  Permutation rank_counts
    (map (fun r => (r, Spec.times ranks r))
       (filter (Spec.held ranks) Spec.ladder)).
Proof.
  intros C Hl.
  exact (counts_canonical Z.eqb Z.eqb_eq Z.eq_dec rank_counts ranks
           Spec.ladder C ladder_NoDup Hl).
Qed.

(** [n in rank_counts.values()] *)
Lemma count_in_values (rank_counts : list (Z * Z)) (ranks : list Z) (n : Z) :
  counts Z.eqb Z.eq_dec rank_counts ranks ->
  (forall r, In r ranks -> In r Spec.ladder) ->
  1 <= n ->
  existsb (Z.eqb n) (values rank_counts)
  = existsb (fun r => Spec.times ranks r =? n) Spec.ladder.
Proof.
  intros C Hl Hn. unfold values.
  rewrite (existsb_Permutation _ _ _
             (Permutation_map snd (rank_counts_canonical _ _ C Hl))).
  rewrite map_map. cbn [snd]. rewrite existsb_map, existsb_filter.
  apply existsb_ext_in. intros r _. unfold Spec.held.
  destruct (Z.eqb_spec n (Spec.times ranks r)) as [E|E].
  - rewrite <- E. rewrite Z.eqb_refl.
    destruct (Z.ltb_spec 0 n); [reflexivity | lia].
  - rewrite andb_false_r. symmetry. apply Z.eqb_neq. congruence.
Qed.

(** [max(rank for rank, count in rank_counts.items() if count == n)] *)
Lemma max_rank_with_highest (rank_counts : list (Z * Z)) (ranks : list Z)
    (n : Z) :
  counts Z.eqb Z.eq_dec rank_counts ranks ->
  (forall r, In r ranks -> In r Spec.ladder) ->
  1 <= n ->
  existsb (fun r => Spec.times ranks r =? n) Spec.ladder = true ->
  max_rank_with n rank_counts
  = Ok (Spec.highest (fun r => Spec.times ranks r =? n)).
Proof.
  intros C Hl Hn He. unfold max_rank_with.
  assert (Ne : filter (fun r => Spec.times ranks r =? n) Spec.ladder <> []).
  { apply existsb_exists in He. destruct He as (r & Hr & E).
    intros X. assert (I : In r (filter (fun r => Spec.times ranks r =? n)
                                  Spec.ladder))
      by (apply filter_In; auto).
    rewrite X in I. exact I. }
  destruct (highest_spec _ Ne) as [I B].
  assert (P : Permutation
                (map fst (filter (fun rc => snd rc =? n) rank_counts))
                (filter (fun r => Spec.times ranks r =? n) Spec.ladder)).
  { rewrite (Permutation_map fst
               (Permutation_filter (fun rc => snd rc =? n) _ _
                  (rank_counts_canonical _ _ C Hl))).
    rewrite filter_map_swap, map_map. cbn [fst snd]. rewrite map_id.
    rewrite filter_filter.
    erewrite filter_ext; [apply Permutation_refl|].
    intros r. cbv beta. unfold Spec.held.
    destruct (Z.eqb_spec (Spec.times ranks r) n) as [E|E].
    - rewrite E. destruct (Z.ltb_spec 0 n); [reflexivity | lia].
    - apply andb_false_r. }
  apply max_intro.
  - apply (Permutation_in _ (Permutation_sym P)). exact I.
  - intros y Hy. apply (Permutation_in _ P) in Hy. now apply B.
Qed.

(** [len(pair_counts)] *)
Lemma pair_counts_length (rank_counts : list (Z * Z)) (ranks : list Z) :
  counts Z.eqb Z.eq_dec rank_counts ranks ->
  (forall r, In r ranks -> In r Spec.ladder) ->
  List.length
    (sorted_reverse (filter (fun count => 2 <=? count) (values rank_counts)))
  = List.length (filter (fun r => 2 <=? Spec.times ranks r) Spec.ladder).
Proof.
  intros C Hl. rewrite sorted_reverse_length. unfold values.
  rewrite (Permutation_length
             (Permutation_filter (fun count => 2 <=? count) _ _
                (Permutation_map snd (rank_counts_canonical _ _ C Hl)))).
  rewrite map_map. cbn [snd]. rewrite filter_map_swap, length_map.
  rewrite filter_filter. f_equal. apply filter_ext. intros r.
  unfold Spec.held.
  destruct (Z.leb_spec 2 (Spec.times ranks r)).
  - destruct (Z.ltb_spec 0 (Spec.times ranks r)); [reflexivity | lia].
  - apply andb_false_r.
Qed.

(** [any(count >= 5 for count in suit_counts.values())] *)
Lemma flush_in_values (suit_counts : list (string * Z)) (suits : list string) :
  counts String.eqb string_dec suit_counts suits ->
  (forall s, In s suits -> Spec.suit_ok s = true) ->
  existsb (fun count => 5 <=? count) (values suit_counts)
  = Spec.has_flush suits.
Proof.
  intros C Hs. unfold values, Spec.has_flush.
  assert (N : NoDup ["s"; "h"; "d"; "c"]%string).
  { assert (E : ["s"; "h"; "d"; "c"]%string
                = nodup string_dec ["s"; "h"; "d"; "c"]%string)
      by reflexivity.
    rewrite E. apply NoDup_nodup. }
  assert (U : forall s, In s suits -> In s ["s"; "h"; "d"; "c"]%string).
  { intros s I. specialize (Hs s I). unfold Spec.suit_ok in Hs.
    apply existsb_exists in Hs. destruct Hs as (x & Hx & E).
    apply String.eqb_eq in E. now subst. }
  rewrite (existsb_Permutation _ _ _
             (Permutation_map snd
                (counts_canonical String.eqb String.eqb_eq string_dec
                   suit_counts suits _ C N U))).
  rewrite map_map. cbn [snd]. rewrite existsb_map, existsb_filter.
  apply existsb_ext_in. intros s _. unfold occurrences.
  destruct (Z.leb_spec 5 (Z.of_nat (count_occ string_dec suits s)));
    [|apply andb_false_r].
  destruct (Z.ltb_spec 0 (Z.of_nat (count_occ string_dec suits s)));
    [reflexivity | lia].
Qed.

(** On cards of the data model [_evaluate_hand] returns the strength of
    the cards it is given, and does not raise when there is one at
    least. *)
Lemma evaluate_hand_strength (hole_cards board_cards : list Card) :
  Forall (fun c => Spec.card_ok c = true) (hole_cards ++ board_cards) ->
  hole_cards ++ board_cards <> [] ->
  _evaluate_hand hole_cards board_cards
  = Ok (Spec.strength (hole_cards ++ board_cards)).
Proof.
  intros F Hne. unfold _evaluate_hand, Spec.strength.
  set (cards := hole_cards ++ board_cards) in *.
  destruct (tally_counts cards F [] [] [] []
              (counts_empty _ _) (counts_empty _ _))
    as (sc & rc & E & Cs & Cr).
  cbn [app] in E, Cs, Cr. rewrite E. cbn [Py.bind].
  set (ranks := map (fun c => Spec.rank_number (rank c)) cards) in *.
  assert (Hl : forall r, In r ranks -> In r Spec.ladder).
  { intros r Hr. unfold ranks in Hr. apply in_map_iff in Hr.
    destruct Hr as (c & <- & Hc). rewrite Forall_forall in F.
    specialize (F c Hc). unfold Spec.card_ok in F. apply andb_prop in F.
    exact (proj2 (rank_value_number _ (proj1 F))). }
  assert (Hs : forall s, In s (map suit cards) -> Spec.suit_ok s = true).
  { intros s Hs. apply in_map_iff in Hs.
    destruct Hs as (c & <- & Hc). rewrite Forall_forall in F.
    specialize (F c Hc). unfold Spec.card_ok in F. apply andb_prop in F.
    exact (proj2 F). }
  assert (Ne : filter (Spec.held ranks) Spec.ladder <> []).
  { destruct cards as [|c t] eqn:Ec; [congruence|].
    intros X.
    assert (I : In (Spec.rank_number (rank c))
                  (filter (Spec.held ranks) Spec.ladder)).
    { apply filter_In. split.
      - apply Hl. unfold ranks. now left.
      - apply held_In. unfold ranks. now left. }
    rewrite X in I. exact I. }
  rewrite (flush_in_values sc _ Cs Hs).
  rewrite (unique_ranks_ladder ranks Hl).
  rewrite check_straight_ladder.
  rewrite (max_of_ladder _ Ne).
  rewrite (pair_counts_length rc ranks Cr Hl).
  rewrite !(count_in_values rc ranks _ Cr Hl) by lia.
  cbn [Py.bind].
  destruct (Spec.straight_of (Spec.held ranks) && Spec.has_flush (map suit cards));
    [reflexivity|].
  destruct (existsb (fun r => Spec.times ranks r =? 4) Spec.ladder) eqn:E4.
  { rewrite (max_rank_with_highest rc ranks 4 Cr Hl) by (lia || exact E4).
    reflexivity. }
  destruct (existsb (fun r => Spec.times ranks r =? 3) Spec.ladder) eqn:E3;
    destruct (existsb (fun r => Spec.times ranks r =? 2) Spec.ladder) eqn:E2;
    cbn [andb]; try reflexivity;
    destruct (Spec.has_flush (map suit cards)); try reflexivity;
    destruct (Spec.straight_of (Spec.held ranks)); try reflexivity.
  - rewrite (max_rank_with_highest rc ranks 3 Cr Hl) by (lia || exact E3).
    reflexivity.
  - destruct (2 <=? List.length
                      (filter (fun r => (2 <=? Spec.times ranks r)%Z) Spec.ladder))%nat;
      [reflexivity|].
    rewrite (max_rank_with_highest rc ranks 2 Cr Hl) by (lia || exact E2).
    reflexivity.
  - destruct (2 <=? List.length
                      (filter (fun r => (2 <=? Spec.times ranks r)%Z) Spec.ladder))%nat;
      reflexivity.
Qed.


(** *** One trial of the simulation *)
Lemma card_of_str_text (s : string) :
  In s _create_deck ->
  card_of_str s = Ok (Spec.card_of_text s)
  /\ Spec.card_ok (Spec.card_of_text s) = true.
Proof.
  intros H.
  assert (L : exists a b, s = String a (String b EmptyString)).
  { assert (B : forallb (fun s => (String.length s =? 2)%nat) _create_deck
                = true) by (vm_compute; reflexivity).
    rewrite forallb_forall in B. specialize (B s H).
    apply Nat.eqb_eq in B.
    destruct s as [|a [|b [|c t]]]; try discriminate. eauto. }
  destruct (card_of_str_total s H) as (c & E & Hc).
  destruct L as (a & b & ->).
  assert (X : card_of_str (String a (String b EmptyString))
              = Ok (Spec.card_of_text (String a (String b EmptyString))))
    by reflexivity.
  split; [exact X|]. rewrite X in E. inversion E. subst c. exact Hc.
Qed.

Lemma mapM_map_ok {A B} (f : A -> result B) (g : A -> B) (l : list A) :
  (forall x, In x l -> f x = Ok (g x)) -> mapM f l = Ok (map g l).
Proof.
  induction l as [|x t IH]; intros H; [reflexivity|].
  cbn [mapM map]. rewrite (H x) by now left. cbn [Py.bind].
  rewrite IH by (intros; apply H; now right). reflexivity.
Qed.

Lemma dealt_cards (deck : list string) (i n : nat) :
  incl deck _create_deck ->
  mapM card_of_str (slice deck i (i + n)) = Ok (Spec.dealt deck i n)
  /\ Forall (fun c => Spec.card_ok c = true) (Spec.dealt deck i n).
Proof.
  intros Hd. unfold slice, Spec.dealt.
  replace (i + n - i)%nat with n by lia.
  assert (I : forall s, In s (firstn n (skipn i deck)) -> In s _create_deck).
  { intros s Hs. apply Hd. apply (slice_incl deck i (i + n)).
    unfold slice. now replace (i + n - i)%nat with n by lia. }
  split.
  - apply mapM_map_ok. intros s Hs. apply card_of_str_text. now apply I.
  - apply Forall_forall. intros c Hc. apply in_map_iff in Hc.
    destruct Hc as (s & <- & Hs). apply card_of_str_text. now apply I.
Qed.

Lemma deal_opponents_slices (deck : list string) (n : nat) :
  forall deck_index,
    deal_opponents deck n deck_index
    = (map (fun k => slice deck (deck_index + 2 * k) (deck_index + 2 * k + 2))
         (seq 0 n),
       (deck_index + 2 * n)%nat).
Proof.
  induction n as [|n IH]; intros i.
  - cbn [deal_opponents seq map]. f_equal. lia.
  - cbn [deal_opponents]. rewrite IH. cbn [seq map].
    rewrite <- seq_shift, map_map. f_equal; [|lia].
    f_equal.
    + f_equal; lia.
    + apply map_ext. intros k. f_equal; lia.
Qed.

Lemma complete_board_dealt (community_cards : list Card)
    (deck : list string) (deck_index : nat) :
  incl deck _create_deck ->
  complete_board community_cards deck deck_index
  = Ok (community_cards
        ++ Spec.dealt deck deck_index (5 - List.length community_cards)).
Proof.
  intros Hd. unfold complete_board.
  destruct (Z.ltb_spec 0 (5 - Z.of_nat (List.length community_cards)))
    as [P|P].
  - replace (Z.to_nat (5 - Z.of_nat (List.length community_cards)))
      with (5 - List.length community_cards)%nat by lia.
    rewrite (proj1 (dealt_cards deck deck_index _ Hd)). reflexivity.
  - replace (5 - List.length community_cards)%nat with 0%nat by lia.
    unfold Spec.dealt. cbn [firstn map]. now rewrite app_nil_r.
Qed.

(** Comparing with the greatest of the opponents is comparing with each
    of them. *)
Lemma max_below (t : list Z) (x p : Z) :
  (fold_left Z.max t x <? p) = forallb (fun o => o <? p) (x :: t)
  /\ (fold_left Z.max t x <=? p) = forallb (fun o => o <=? p) (x :: t).
Proof.
  revert x. induction t as [|a t IH]; intros x.
  - cbn [fold_left forallb]. now rewrite !andb_true_r.
  - cbn [fold_left]. destruct (IH (Z.max x a)) as [L E].
    rewrite L, E. cbn [forallb]. rewrite !andb_assoc. split; f_equal.
    + destruct (Z.ltb_spec (Z.max x a) p), (Z.ltb_spec x p),
        (Z.ltb_spec a p); try reflexivity; lia.
    + destruct (Z.leb_spec (Z.max x a) p), (Z.leb_spec x p),
        (Z.leb_spec a p); try reflexivity; lia.
Qed.

(** One pass of the simulation loop, on a deck of cards of the pack,
    has the outcome of the trial stated on the cards. *)
Lemma trial_of_the_code (hole_cards community_cards : list Card)
    (num_opponents : Z) (deck : list string) :
  incl deck _create_deck ->
  Forall (fun c => Spec.card_ok c = true) hole_cards ->
  Forall (fun c => Spec.card_ok c = true) community_cards ->
  community_cards <> []
  \/ (2 * Z.to_nat num_opponents < List.length deck)%nat ->
  1 <= num_opponents ->
  Spec.strength_trial_outcome hole_cards community_cards num_opponents deck
  = Ok (Spec.trial hole_cards community_cards num_opponents deck).
Proof.
  intros Hd Hh Hc Hne HN.
  unfold Spec.strength_trial_outcome, trial_strengths, Spec.trial.
  rewrite deal_opponents_slices. cbn [Nat.add].
  rewrite (complete_board_dealt community_cards deck _ Hd). cbn [Py.bind].
  set (n := Z.to_nat num_opponents) in *.
  set (board := community_cards
                ++ Spec.dealt deck (2 * n) (5 - List.length community_cards)).
  assert (Fb : Forall (fun c => Spec.card_ok c = true) board).
  { apply Forall_app. split; [exact Hc|]. now apply dealt_cards. }
  assert (Nb : board <> []).
  { unfold board. destruct Hne as [Hne|Hne].
    - destruct community_cards; [congruence | discriminate].
    - destruct community_cards; [|discriminate].
      cbn [app List.length Nat.sub]. apply nonempty_length.
      unfold Spec.dealt. rewrite length_map, length_firstn, length_skipn.
      lia. }
  rewrite (evaluate_hand_strength hole_cards board).
  2: { apply Forall_app. auto. }
  2: { destruct hole_cards; [exact Nb | discriminate]. }
  cbn [Py.bind].
  set (player := Spec.strength (hole_cards ++ board)).
  rewrite (mapM_map_ok _
             (fun opp => Spec.strength (map Spec.card_of_text opp ++ board))).
  2: { intros opp Ho. apply in_map_iff in Ho. destruct Ho as (k & <- & _).
       destruct (dealt_cards deck (2 * k) 2 Hd) as [E F].
       rewrite E. cbn [Py.bind].
       unfold slice. replace (2 * k + 2 - 2 * k)%nat with 2%nat by lia.
       fold (Spec.dealt deck (2 * k) 2).
       apply evaluate_hand_strength.
       - apply Forall_app. auto.
       - destruct (Spec.dealt deck (2 * k) 2); [exact Nb | discriminate]. }
  cbn [Py.bind]. rewrite map_map. f_equal.
  rewrite (map_ext
             (fun k => Spec.strength
                         (map Spec.card_of_text
                            (slice deck (2 * k) (2 * k + 2)) ++ board))
             (fun i => Spec.strength (Spec.dealt deck (2 * i) 2 ++ board))).
  2: { intros k. unfold slice, Spec.dealt.
       now replace (2 * k + 2 - 2 * k)%nat with 2%nat by lia. }
  destruct (map (fun i => Spec.strength (Spec.dealt deck (2 * i) 2 ++ board))
              (seq 0 n)) as [|x t] eqn:Eo.
  { apply (f_equal (@List.length Z)) in Eo.
    rewrite length_map, length_seq in Eo. simpl in Eo. lia. }
  destruct (max_below t x player) as [L E]. rewrite <- L, <- E.
  unfold Spec.strength_outcome.
  destruct (Z.ltb_spec (fold_left Z.max t x) player) as [P|P];
    [reflexivity|].
  destruct (Z.eqb_spec player (fold_left Z.max t x)) as [Q|Q];
    destruct (Z.leb_spec (fold_left Z.max t x) player) as [R|R];
    try reflexivity; lia.
Qed.

(** C2, as the code has it.  For two hole cards and community cards of
    the data model, 1 to 22 opponents, at least one trial and a shuffle
    that permutes the deck, [calculate_equity] does not raise and returns
    (wins + 0.5 ties) / trials over the trials [Spec.trial], one for each
    shuffle of the 52 cards without the known ones.  In a trial opponent
    [i] holds the cards at the positions [2 i] and [2 i + 1] of the
    shuffled deck and the board is the community cards followed by the
    next cards of the deck, up to five.  Every player is scored on their
    two cards with the board by [Spec.strength], not by the HandRank of
    section 4.2: 8000 plus the highest rank held for a straight together
    with five cards of one suit (not necessarily the same cards), 7000
    plus the rank for a rank held exactly four times, 6000 flat when one
    rank is held exactly three times and another exactly twice, 5000
    plus the highest rank held for five cards of a suit, 4000 plus the
    highest rank held for a straight, 3000 plus the rank for a rank held
    exactly three times, 2000 flat for two ranks held twice or more,
    1000 plus the rank for a pair, and the highest rank otherwise, with
    A = 14 down to 2.  The player wins the trial when every opponent
    scores strictly less, and ties when no opponent scores more and one
    scores the same.  This is also the outcome that the loop of the code
    computes from [trial_strengths] on each deck. *)
Theorem equity_counts_wins_and_ties_by_strength :
  forall shuffle num_simulations hole_cards community_cards num_opponents,
    (forall t deck, Permutation (shuffle t deck) deck) ->
    0 < num_simulations ->
    List.length hole_cards = 2%nat ->
    Forall (fun c => Spec.card_ok c = true) hole_cards ->
    Forall (fun c => Spec.card_ok c = true) community_cards ->
    1 <= num_opponents <= 22 ->
    exists equity,
      calculate_equity shuffle num_simulations hole_cards community_cards
        num_opponents = Ok equity
      /\ (equity
          == Spec.equity_of
               (map (fun t =>
                       Spec.trial hole_cards community_cards num_opponents
                         (shuffle t
                            (Spec.available_cards hole_cards
                               community_cards)))
                  (seq 0 (Z.to_nat num_simulations))))%Q
      /\ forall t,
           Spec.strength_trial_outcome hole_cards community_cards
             num_opponents
             (shuffle t (Spec.available_cards hole_cards community_cards))
           = Ok (Spec.trial hole_cards community_cards num_opponents
                   (shuffle t
                      (Spec.available_cards hole_cards community_cards))).
Proof.
  intros shuffle n hole community N Hperm Hn Hlen Hh Hc HN.
  set (available := Spec.available_cards hole community).
  assert (T : forall t,
             Spec.strength_trial_outcome hole community N (shuffle t available)
             = Ok (Spec.trial hole community N (shuffle t available))).
  { intros t. apply trial_of_the_code; auto; [| |lia].
    - intros x Hx. apply (Permutation_in _ (Hperm t available)) in Hx.
      unfold available, Spec.available_cards in Hx.
      apply filter_In in Hx. exact (proj1 Hx).
    - destruct community as [|c0 cs]; [right | left; discriminate].
      rewrite (Permutation_length (Hperm t available)).
      pose proof (available_cards_length hole []) as La.
      rewrite app_nil_r, Hlen in La. fold available in La. lia. }
  set (outcomes := map (fun t => Spec.trial hole community N
                                   (shuffle t available))
                     (seq 0 (Z.to_nat n))).
  assert (Em : mapM (fun t => Spec.strength_trial_outcome hole community N
                                (shuffle t available))
                 (seq 0 (Z.to_nat n)) = Ok outcomes).
  { apply mapM_map_ok. intros t _. apply T. }
  assert (El : List.length outcomes = Z.to_nat n).
  { unfold outcomes. now rewrite length_map, length_seq. }
  eexists. split; [|split; [|exact T]].
  - unfold calculate_equity. rewrite Hlen. cbn [Nat.eqb negb].
    fold (Spec.available_cards hole community). fold available.
    rewrite (simulation_loop_counts shuffle hole community N available
               (seq 0 (Z.to_nat n)) outcomes 0 0 Em).
    cbn [Py.bind].
    destruct (Z.eqb_spec n 0) as [E0|_]; [lia|]. reflexivity.
  - unfold Spec.equity_of. rewrite El, Z2Nat.id by lia.
    rewrite !Z.add_0_l.
    assert (D : ~ (inject_Z n == 0)%Q).
    { unfold Qeq. simpl. lia. }
    field. exact D.
Qed.

Lemma equity_counts_wins_and_ties_by_strength_witness :
  exists equity,
    calculate_equity Samples.no_shuffle 2
      [Samples.card "A" "h"; Samples.card "K" "d"] [] 1 = Ok equity
    /\ (equity
        == Spec.equity_of
             (map (fun t =>
                     Spec.trial [Samples.card "A" "h"; Samples.card "K" "d"]
                       [] 1
                       (Samples.no_shuffle t
                          (Spec.available_cards
                             [Samples.card "A" "h"; Samples.card "K" "d"]
                             [])))
                (seq 0 (Z.to_nat 2))))%Q
    /\ forall t,
         Spec.strength_trial_outcome
           [Samples.card "A" "h"; Samples.card "K" "d"] [] 1
           (Samples.no_shuffle t
              (Spec.available_cards
                 [Samples.card "A" "h"; Samples.card "K" "d"] []))
         = Ok (Spec.trial [Samples.card "A" "h"; Samples.card "K" "d"] [] 1
                 (Samples.no_shuffle t
                    (Spec.available_cards
                       [Samples.card "A" "h"; Samples.card "K" "d"] []))).
Proof.
  apply (equity_counts_wins_and_ties_by_strength Samples.no_shuffle 2
           [Samples.card "A" "h"; Samples.card "K" "d"] [] 1).
  - intros t deck. apply Permutation_refl.
  - lia.
  - reflexivity.
  - repeat (constructor; [reflexivity|]). constructor.
  - constructor.
  - lia.
Defined.

End Scoring.

(** * Further properties of the sources *)

(** ** The entry points of the hand evaluator *)

Section EvaluatorEntryPoints.
Import HandEvaluator HandTools.

Lemma combinations_nonempty {A} (l : list A) :
  forall r, (r <= List.length l)%nat -> combinations l r <> [].
Proof.
  induction l as [|x t IH]; intros [|r] L; simpl in *; try discriminate; try lia.
  intro H. apply app_eq_nil in H. destruct H as [H _].
  apply map_eq_nil in H. revert H. apply IH. lia.
Qed.

Lemma best_loop_of_five_or_more (cards : list Z) :
  (5 <= List.length cards)%nat ->
  exists best, best_loop (combinations cards 5) None = Ok (Some best).
Proof.
  intro L.
  assert (N : exists n, List.length (Spec.five_card_subsets cards) = S n).
  { unfold Spec.five_card_subsets.
    rewrite <- (combinations_are_the_subsequences cards 5).
    pose proof (combinations_nonempty cards 5 L) as H.
    destruct (combinations cards 5); [congruence | simpl; eauto]. }
  destruct N as (n & N).
  destruct (brute_force_maximum cards n N) as (ranks & best & _ & _ & E & _).
  eauto.
Qed.

Lemma evaluate_hand_returns (cards : list string) :
  (5 <= List.length cards)%nat ->
  exists rank, evaluate_hand cards = Ok (Some rank).
Proof.
  intro L. unfold evaluate_hand.
  assert (E : (List.length cards <? 5)%nat = false) by (apply Nat.ltb_ge; lia).
  rewrite E.
  set (card_ints := map (fun card =>
                           get_default String.eqb card_map (upper card) 0)
                      cards).
  assert (Li : List.length card_ints = List.length cards)
    by (unfold card_ints; apply length_map).
  destruct (List.length cards =? 5)%nat eqn:E5.
  - apply Nat.eqb_eq in E5.
    destruct (evaluate_5_cards_total card_ints) as (r & Er); [lia|].
    rewrite Er. simpl. eauto.
  - destruct (List.length cards =? 6)%nat eqn:E6;
      [|destruct (List.length cards =? 7)%nat eqn:E7].
    + apply best_loop_of_five_or_more. apply Nat.eqb_eq in E6. lia.
    + apply best_loop_of_five_or_more. apply Nat.eqb_eq in E7. lia.
    + apply best_loop_of_five_or_more.
      unfold slice. rewrite length_firstn. simpl skipn. lia.
Qed.

Lemma evaluate_hand_raises (cards : list string) :
  (List.length cards < 5)%nat ->
  evaluate_hand cards = Raise (ValueError "Need at least 5 cards to evaluate").
Proof.
  intro L. unfold evaluate_hand. apply Nat.ltb_lt in L. now rewrite L.
Qed.

(** [evaluate_hand] raises [ValueError] exactly on fewer than five card
    texts; on five or more it raises nothing and returns a rank, never
    [None]. *)
Theorem evaluate_hand_raises_only_below_five_cards :
  forall cards,
    ((List.length cards < 5)%nat ->
     evaluate_hand cards = Raise (ValueError "Need at least 5 cards to evaluate"))
    /\ ((5 <= List.length cards)%nat ->
        exists rank, evaluate_hand cards = Ok (Some rank)).
Proof.
  intro cards. split; [apply evaluate_hand_raises | apply evaluate_hand_returns].
Qed.

Lemma evaluate_hand_raises_only_below_five_cards_witness :
  evaluate_hand ["Ah"; "Kd"; "Qc"; "Js"]
  = Raise (ValueError "Need at least 5 cards to evaluate")
  /\ exists rank,
       evaluate_hand ["Ah"; "Kd"; "Qc"; "Js"; "Tc"; "9h"; "8s"; "7d"]
       = Ok (Some rank).
Proof.
  split.
  - apply (evaluate_hand_raises_only_below_five_cards
             ["Ah"; "Kd"; "Qc"; "Js"]). simpl. lia.
  - apply (evaluate_hand_raises_only_below_five_cards
             ["Ah"; "Kd"; "Qc"; "Js"; "Tc"; "9h"; "8s"; "7d"]). simpl. lia.
Defined.

End EvaluatorEntryPoints.

(** ** The converters between card texts and card codes *)

Section Converters.
Import HandEvaluator HandTools.

Lemma table_decodes_to_itself :
  forallb (fun s =>
             match card_of_int (get_default String.eqb card_map s 0) with
             | [t] => String.eqb t s
             | _ => false
             end) (keys card_map) = true.
Proof. vm_compute. reflexivity. Qed.

Lemma rank_index_range (c : Z) : 0 <= Z.land c 0xF < 16.
Proof.
  change 0xF with (Z.ones 4). rewrite Z.land_ones by lia.
  apply Z.mod_pos_bound. reflexivity.
Qed.

(** [int_array_to_cards] inverts the card table: the codes of documented
    card texts decode to the same texts, in the same order. *)
Theorem int_array_to_cards_inverts_the_card_table :
  forall cards,
    Forall (fun s => Spec.card_text_ok s = true) cards ->
    int_array_to_cards
      (map (fun s => get_default String.eqb card_map s 0) cards)
    = cards.
Proof.
  induction 1 as [|s t Hs _ IH]; [reflexivity|].
  unfold int_array_to_cards in *. simpl. rewrite IH.
  pose proof table_decodes_to_itself as T. rewrite forallb_forall in T.
  specialize (T s (card_text_ok_key s Hs)).
  destruct (card_of_int (get_default String.eqb card_map s 0))
    as [|x [|y r]]; try discriminate.
  apply String.eqb_eq in T. now subst.
Qed.

Lemma int_array_to_cards_inverts_the_card_table_witness :
  int_array_to_cards
    (map (fun s => get_default String.eqb card_map s 0) ["Ah"; "Td"; "2c"])
  = ["Ah"; "Td"; "2c"].
Proof.
  apply (int_array_to_cards_inverts_the_card_table ["Ah"; "Td"; "2c"]).
  repeat (constructor; [reflexivity|]). constructor.
Defined.

(** Through [cards_to_int_array] the round trip is lost: it upper-cases
    like [evaluate_hand], every documented text becomes the code 0, and 0
    decodes to the deuce of spades. *)
Theorem cards_to_int_array_round_trip_gives_deuces_of_spades :
  forall cards,
    Forall (fun s => Spec.card_text_ok s = true) cards ->
    cards_to_int_array cards = repeat 0 (List.length cards)
    /\ int_array_to_cards (cards_to_int_array cards)
       = repeat "2s" (List.length cards).
Proof.
  intros cards F.
  assert (E : cards_to_int_array cards = repeat 0 (List.length cards))
    by (apply documented_hand_encodes_as_zeros; exact F).
  split; [exact E|]. rewrite E. clear.
  induction (List.length cards) as [|n IH]; [reflexivity|].
  unfold int_array_to_cards in *. simpl repeat. simpl flat_map.
  rewrite IH. reflexivity.
Qed.

Lemma cards_to_int_array_round_trip_gives_deuces_of_spades_witness :
  int_array_to_cards (cards_to_int_array ["Ah"; "Kd"]) = ["2s"; "2s"].
Proof.
  apply (cards_to_int_array_round_trip_gives_deuces_of_spades ["Ah"; "Kd"]).
  repeat (constructor; [reflexivity|]). constructor.
Defined.

(** Whatever the codes, [int_array_to_cards] yields documented card texts
    only, at most one per code: a code is skipped exactly when its rank
    index, the low four bits, is 13, 14 or 15. *)
Theorem int_array_to_cards_yields_card_texts :
  forall card_ints,
    Forall (fun s => Spec.card_text_ok s = true)
      (int_array_to_cards card_ints)
    /\ List.length (int_array_to_cards card_ints)
       = List.length (filter (fun c => Z.land c 0xF <? 13) card_ints).
Proof.
  induction card_ints as [|c t [IH1 IH2]]; [split; [constructor | reflexivity]|].
  unfold int_array_to_cards in *. cbn [flat_map filter].
  assert (C : ((Z.land c 0xF <? 13) = true
               /\ exists s, card_of_int c = [s]
                            /\ Spec.card_text_ok s = true)
              \/ ((Z.land c 0xF <? 13) = false /\ card_of_int c = [])).
  { unfold card_of_int. pose proof (rank_index_range c) as R.
    set (r := Z.land c 0xF) in *.
    assert (D : r = 0 \/ r = 1 \/ r = 2 \/ r = 3 \/ r = 4 \/ r = 5 \/ r = 6
                \/ r = 7 \/ r = 8 \/ r = 9 \/ r = 10 \/ r = 11 \/ r = 12
                \/ r = 13 \/ r = 14 \/ r = 15) by lia.
    destruct (Z.land c 0xF000 =? 0x2000);
      [|destruct (Z.land c 0xF000 =? 0x4000);
        [|destruct (Z.land c 0xF000 =? 0x8000)]];
      repeat (destruct D as [D|D];
              [rewrite D; vm_compute; eauto 6|]);
      rewrite D; vm_compute; eauto 6. }
  destruct C as [(B & s & E & Hs)|(B & E)]; rewrite B, E; simpl; split;
    auto; now rewrite IH2.
Qed.

End Converters.

(** ** The shape of a rank *)

Section RankShape.
Import HandEvaluator HandTools.

Lemma sorted_In (l : list Z) (x : Z) : In x (sorted l) <-> In x l.
Proof.
  split; apply Permutation_in;
    [apply sorted_permutation | symmetry; apply sorted_permutation].
Qed.

Lemma sorted_reverse_In (l : list Z) (x : Z) :
  In x (sorted_reverse l) <-> In x l.
Proof. unfold sorted_reverse. rewrite <- in_rev. apply sorted_In. Qed.

Lemma firstn_In {A} (n : nat) (l : list A) (x : A) :
  In x (firstn n l) -> In x l.
Proof.
  revert l. induction n as [|n IH]; intros [|y l] H; simpl in *;
    try contradiction.
  destruct H as [->|H]; [now left | right; now apply IH].
Qed.

Lemma setitem_keys (d : list (Z * Z)) (k v : Z) (x : Z) :
  In x (keys (setitem Z.eqb d k v)) -> x = k \/ In x (keys d).
Proof.
  unfold keys. induction d as [|[k' v'] t IH]; simpl.
  - intros [<-|[]]. now left.
  - destruct (k' =? k); simpl; intros [<-|H]; auto.
    destruct (IH H); auto.
Qed.

Lemma count_ranks_keys (cards : list Z) (x : Z) :
  In x (keys (_count_ranks cards)) ->
  In x (map (fun c => Z.land c 0xF) cards).
Proof.
  unfold _count_ranks.
  assert (G : forall d,
             In x (keys (fold_left
                           (fun counts card =>
                              let rank := Z.land card 0xF in
                              setitem Z.eqb counts rank
                                (get_default Z.eqb counts rank 0 + 1))
                           cards d)) ->
             In x (keys d) \/ In x (map (fun c => Z.land c 0xF) cards)).
  { induction cards as [|c cs IH]; intros d H; simpl in *; [now left|].
    destruct (IH _ H) as [H'|H']; [|now right; right].
    apply setitem_keys in H'. destruct H' as [->|H']; auto. }
  intro H. destruct (G [] H) as [[]|H']. exact H'.
Qed.

Lemma ranks_where_keys (p : Z -> bool) (d : list (Z * Z)) (x : Z) :
  In x (ranks_where p d) -> In x (keys d).
Proof.
  unfold ranks_where, keys. intro H. apply in_map_iff in H.
  destruct H as (rc & <- & Hin). apply filter_In in Hin.
  apply in_map. exact (proj1 Hin).
Qed.

Lemma rank_of_card_range (cards : list Z) (x : Z) :
  In x (map (fun c => Z.land c 0xF) cards) -> 0 <= x < 16.
Proof.
  intro H. apply in_map_iff in H. destruct H as (c & <- & _).
  apply rank_index_range.
Qed.

Lemma straight_scan_In (ranks : list Z) (idxs : list nat) (h : Z) :
  Forall (fun i => (i + 4 < List.length ranks)%nat) idxs ->
  straight_scan ranks idxs = Some h -> In h ranks.
Proof.
  induction 1 as [|i t Hi _ IH]; simpl; [discriminate|].
  destruct (nth (i + 4) ranks 0 - nth i ranks 0 =? 4).
  - intro E. inversion E; subst. now apply nth_In.
  - exact IH.
Qed.

Lemma check_straight_range (cards : list Z) (h : Z) :
  _check_straight cards = Some h -> 0 <= h < 16.
Proof.
  unfold _check_straight.
  set (ranks := sorted (Py.set (map (fun c => Z.land c 0xF) cards))).
  destruct (List.length ranks <? 5)%nat eqn:L; [discriminate|].
  apply Nat.ltb_ge in L.
  destruct (straight_scan ranks (seq 0 (List.length ranks - 4))) as [x|] eqn:S.
  - intro E. inversion E; subst x.
    apply (rank_of_card_range cards).
    apply straight_scan_In in S.
    + unfold ranks in S. apply (proj1 (sorted_In _ _)) in S.
      unfold Py.set in S. now apply (proj1 (nodup_In _ _ _)) in S.
    + apply Forall_forall. intros i Hi. apply in_seq in Hi. lia.
  - destruct (list_eq ranks [0; 1; 2; 3; 12]); [|discriminate].
    intro E. inversion E. lia.
Qed.

(** How five cards split into ranks: with [n1] single ranks, [n2] pairs,
    [n3] trips and [n4] quads, the cards number
    [n1 + 2 n2 + 3 n3 + 4 n4] plus those of ranks held five times or
    more. *)
Lemma count_profile (d : list (Z * Z)) :
  Forall (fun rc => 1 <= snd rc) d ->
  exists big,
    Spec.total_count d
    = Z.of_nat (List.length (ranks_where (fun c => c =? 1) d))
      + 2 * Z.of_nat (List.length (ranks_where (fun c => c =? 2) d))
      + 3 * Z.of_nat (List.length (ranks_where (fun c => c =? 3) d))
      + 4 * Z.of_nat (List.length (ranks_where (fun c => c =? 4) d))
      + big
    /\ (big = 0 \/ 5 <= big).
Proof.
  unfold ranks_where.
  induction 1 as [|[k v] t Hv _ (big & E & B)]; [exists 0; simpl; lia|].
  change (Spec.total_count ((k, v) :: t)) with (v + Spec.total_count t).
  simpl in Hv. cbn [filter snd].
  destruct (Z.eqb_spec v 1); [|destruct (Z.eqb_spec v 2);
    [|destruct (Z.eqb_spec v 3); [|destruct (Z.eqb_spec v 4)]]];
    try (subst v; cbn [Z.eqb Pos.eqb]);
    cbn [map List.length]; rewrite ?Nat2Z.inj_succ;
    try (exists big; lia).
  exists (v + big). lia.
Qed.

Opaque firstn.

Lemma evaluate_5_cards_shape :
  forall cards rank,
    List.length cards = 5%nat ->
    _evaluate_5_cards cards = Ok rank ->
    Shape.well_shaped rank.
Proof.
  intros cards rank L. unfold Shape.well_shaped.
  destruct (count_ranks_total cards) as [T P]. rewrite L in T.
  destruct (count_profile _ P) as (big & Ep & B). rewrite T in Ep.
  assert (K : forall p x, In x (ranks_where p (_count_ranks cards)) ->
                          0 <= x < 16).
  { intros p x H. apply (rank_of_card_range cards).
    apply count_ranks_keys. eapply ranks_where_keys. exact H. }
  assert (KS : forall p n,
             Forall (fun v => 0 <= v < 16)
               (firstn n (sorted_reverse
                            (ranks_where p (_count_ranks cards))))).
  { intros p n. apply Forall_forall. intros x H.
    apply firstn_In in H. apply (proj1 (sorted_reverse_In _ _)) in H.
    eapply K. exact H. }
  assert (R5 : Forall (fun v => 0 <= v < 16)
                 (sorted_reverse (map (fun c => Z.land c 0xF) cards))).
  { apply Forall_forall. intros x H.
    apply (proj1 (sorted_reverse_In _ _)) in H.
    eapply rank_of_card_range. exact H. }
  assert (L5 : List.length
                 (sorted_reverse (map (fun c => Z.land c 0xF) cards))
               = 5%nat)
    by (now rewrite sorted_reverse_length, length_map).
  assert (SH : truthy (_check_straight cards) = true ->
               0 <= unwrap (_check_straight cards) < 16).
  { destruct (_check_straight cards) as [h|] eqn:S; [|discriminate].
    intros _. exact (check_straight_range cards h S). }
  unfold _evaluate_5_cards.
  destruct (truthy (_check_flush cards)).
  { destruct (truthy (_check_straight cards)).
    - intros [= <-]. cbn [category rank_values]. change_length. specialize (SH eq_refl).
      split; [lia|]. split; [repeat constructor; lia | reflexivity].
    - destruct (sorted_reverse (map (fun c => Z.land c 0xF) cards))
        as [|r0 rs] eqn:Es; [discriminate|].
      cbn [index0 Py.bind]. intros [= <-]. cbn [category rank_values]. change_length.
      split; [lia|]. split; [exact R5 | exact L5]. }
  destruct (truthy (_check_straight cards)).
  { intros [= <-]. cbn [category rank_values]. change_length. specialize (SH eq_refl).
    split; [lia|]. split; [repeat constructor; lia | reflexivity]. }
  destruct (ranks_where (fun c => c =? 4) (_count_ranks cards))
    as [|q0 qs] eqn:Q4.
  2:{ destruct (ranks_where (fun c => negb (c =? 4)) (_count_ranks cards))
        as [|k ks] eqn:Qk; [discriminate|].
      cbn [index0 Py.bind]. intros [= <-]. cbn [category rank_values]. change_length.
      split; [lia|]. split; [|reflexivity].
      constructor; [apply (K (fun c => c =? 4)); rewrite Q4; now left|].
      constructor; [|constructor].
      apply (K (fun c => negb (c =? 4))). rewrite Qk. now left. }
  simpl List.length in Ep.
  destruct (ranks_where (fun c => c =? 3) (_count_ranks cards))
    as [|t0 ts] eqn:Q3.
  2:{ assert (K3 : 0 <= t0 < 16)
        by (apply (K (fun c => c =? 3)); rewrite Q3; now left).
      destruct (ranks_where (fun c => c =? 2) (_count_ranks cards))
        as [|p0 ps] eqn:Q2.
      - intros [= <-]. cbn [category rank_values]. change_length.
        split; [lia|]. split; [constructor; [exact K3 | apply KS]|].
        cbn [List.length]. f_equal.
        rewrite length_firstn, sorted_reverse_length.
        simpl List.length in Ep. lia.
      - intros [= <-]. cbn [category rank_values]. change_length.
        split; [lia|]. split; [|reflexivity].
        constructor; [exact K3|]. constructor; [|constructor].
        apply (K (fun c => c =? 2)). rewrite Q2. now left. }
  simpl List.length in Ep.
  destruct (2 <=? List.length
                    (ranks_where (fun c => (c =? 2)%Z) (_count_ranks cards)))%nat
    eqn:L2.
  { apply Nat.leb_le in L2.
    destruct (sorted_reverse
                (ranks_where (fun c => c =? 1) (_count_ranks cards)))
      as [|k ks] eqn:Qk.
    - destruct (ranks_where (fun c => c =? 2) (_count_ranks cards));
        discriminate.
    - assert (Kk : 0 <= k < 16).
      { apply (K (fun c => c =? 1)). apply sorted_reverse_In.
        rewrite Qk. now left. }
      destruct (ranks_where (fun c => c =? 2) (_count_ranks cards))
        as [|p0 ps] eqn:Q2; [simpl in L2; lia|].
      cbn [index0 Py.bind]. intros [= <-]. cbn [category rank_values]. change_length.
      split; [lia|]. split.
      + apply Forall_app. split; [|repeat constructor; lia].
        rewrite <- Q2. apply KS.
      + rewrite length_app, length_firstn, sorted_reverse_length.
        simpl List.length in *. lia. }
  apply Nat.leb_gt in L2.
  destruct (ranks_where (fun c => c =? 2) (_count_ranks cards))
    as [|p0 [|p1 ps]] eqn:Q2; simpl in L2; try lia.
  - destruct (sorted_reverse (map (fun c => Z.land c 0xF) cards))
      as [|r0 rs] eqn:Es; [discriminate|].
    cbn [index0 Py.bind]. intros [= <-]. cbn [category rank_values]. change_length.
    split; [lia|]. split; [exact R5 | exact L5].
  - intros [= <-]. cbn [category rank_values]. change_length.
    split; [lia|]. split.
    + constructor; [|apply KS].
      apply (K (fun c => c =? 2)). rewrite Q2. now left.
    + cbn [List.length]. f_equal.
      rewrite length_firstn, sorted_reverse_length.
      simpl List.length in Ep. lia.
Qed.

Transparent firstn.

(** Every rank that [_evaluate_5_cards] builds from five cards has a
    category from 0 to 8, tie-break values from 0 to 15, and as many of
    them as its category asks for: 1 for a straight or straight flush, 2
    for quads or a full house, 3 for trips or two pair, 4 for a pair, 5 for
    a flush or high card.  Two ranks of one category therefore never
    differ by a missing tie-break value. *)
Theorem five_card_ranks_are_well_shaped :
  forall cards rank,
    List.length cards = 5%nat ->
    _evaluate_5_cards cards = Ok rank ->
    Shape.well_shaped rank.
Proof. exact evaluate_5_cards_shape. Qed.

Lemma five_card_ranks_are_well_shaped_witness :
  Shape.well_shaped
    (mkHandRank 2 [12; 11; 3] "Two Pair, As and Ks").
Proof.
  apply (five_card_ranks_are_well_shaped
           [0x200C; 0x400C; 0x200B; 0x400B; 0x8003]).
  - reflexivity.
  - reflexivity.
Defined.

End RankShape.

(** ** Comparison and strength of hands *)

Section CompareAndStrength.
Import HandEvaluator HandTools.

Lemma best_loop_origin (combos : list (list Z)) :
  forall best_rank best,
    best_loop combos best_rank = Ok (Some best) ->
    Some best = best_rank
    \/ exists combo, In combo combos /\ _evaluate_5_cards combo = Ok best.
Proof.
  induction combos as [|c cs IH]; intros init best H; simpl in H.
  - inversion H. now left.
  - destruct (_evaluate_5_cards c) as [r|e] eqn:Ec; [|discriminate].
    cbn [Py.bind] in H. apply IH in H. destruct H as [H|(x & Hx & Ex)].
    + destruct init as [b|].
      * destruct (gt r b); inversion H; subst.
        -- right. exists c. split; [now left | exact Ec].
        -- now left.
      * inversion H; subst. right. exists c. split; [now left | exact Ec].
    + right. exists x. split; [now right | exact Ex].
Qed.

Lemma combinations_length {A} (l : list A) (r : nat) (combo : list A) :
  In combo (combinations l r) -> List.length combo = r.
Proof.
  rewrite combinations_are_the_subsequences. intro H.
  apply filter_In in H. now apply Nat.eqb_eq.
Qed.

Lemma best_of_well_shaped (card_ints : list Z) (rank : HandRank) :
  best_loop (combinations card_ints 5) None = Ok (Some rank) ->
  Shape.well_shaped rank.
Proof.
  intro H. apply best_loop_origin in H.
  destruct H as [H|(c & Hc & Ec)]; [discriminate|].
  apply (evaluate_5_cards_shape c); [|exact Ec].
  eapply combinations_length. exact Hc.
Qed.

(** Whatever hand [evaluate_hand] is given, the rank it returns has the
    shape of a five-card rank. *)
Lemma evaluate_hand_well_shaped (cards : list string) (rank : HandRank) :
  evaluate_hand cards = Ok (Some rank) -> Shape.well_shaped rank.
Proof.
  unfold evaluate_hand.
  destruct (List.length cards <? 5)%nat; [discriminate|].
  destruct (List.length cards =? 5)%nat eqn:E5.
  - destruct (_evaluate_5_cards _) as [r|e] eqn:Er; [|discriminate].
    cbn [Py.bind]. intros [= <-].
    eapply evaluate_5_cards_shape; [|exact Er].
    rewrite length_map. now apply Nat.eqb_eq.
  - destruct (List.length cards =? 6)%nat;
      [|destruct (List.length cards =? 7)%nat]; apply best_of_well_shaped.
Qed.

Lemma subsequences_incl (l s : list Z) :
  In s (Spec.subsequences l) -> incl s l.
Proof.
  revert s. induction l as [|y t IH]; intros s Hs; simpl in Hs.
  - destruct Hs as [<-|[]]. intros z [].
  - apply in_app_or in Hs. destruct Hs as [Hs|Hs].
    + apply in_map_iff in Hs. destruct Hs as (s' & <- & Hs').
      intros z [<-|Hz]; [now left | right; now apply (IH s')].
    + intros z Hz. right. now apply (IH s).
Qed.

Lemma all_zero_ranks (l : list Z) :
  (forall x, In x l -> x = 0) ->
  (5 <= List.length l)%nat ->
  best_loop (combinations l 5) None
  = Ok (Some (mkHandRank 0 [0; 0; 0; 0; 0] "2 high")).
Proof.
  intros Z L.
  destruct (best_loop_of_five_or_more l L) as (best & E).
  rewrite E. f_equal. f_equal.
  apply best_loop_origin in E. destruct E as [E|(c & Hc & Ec)]; [discriminate|].
  assert (Z0 : c = repeat 0 5).
  { pose proof (combinations_length _ _ _ Hc) as Lc.
    assert (A : forall x, In x c -> x = 0).
    { intros x Hx. rewrite combinations_are_the_subsequences in Hc.
      apply filter_In in Hc. destruct Hc as [Hc _].
      apply Z. now apply (subsequences_incl _ _ Hc). }
    clear -Lc A.
    do 5 (destruct c as [|? c]; [discriminate|]).
    destruct c; [|discriminate].
    rewrite (A z), (A z0), (A z1), (A z2), (A z3); simpl; auto 10. }
  subst c. vm_compute in Ec. now inversion Ec.
Qed.

(** On documented card texts, five or more, [evaluate_hand] returns one
    and the same rank. *)
Lemma evaluate_hand_on_documented_cards (cards : list string) :
  (5 <= List.length cards)%nat ->
  Forall (fun s => Spec.card_text_ok s = true) cards ->
  evaluate_hand cards = Ok (Some (mkHandRank 0 [0; 0; 0; 0; 0] "2 high")).
Proof.
  intros L F. unfold evaluate_hand.
  rewrite (documented_hand_encodes_as_zeros cards F).
  assert (E : (List.length cards <? 5)%nat = false) by (apply Nat.ltb_ge; lia).
  rewrite E.
  destruct (List.length cards =? 5)%nat eqn:E5.
  - apply Nat.eqb_eq in E5. rewrite E5. reflexivity.
  - destruct (List.length cards =? 6)%nat eqn:E6;
      [|destruct (List.length cards =? 7)%nat eqn:E7].
    + apply all_zero_ranks; [apply repeat_spec | rewrite repeat_length; lia].
    + apply all_zero_ranks; [apply repeat_spec | rewrite repeat_length; lia].
    + apply all_zero_ranks.
      * intros x Hx. unfold slice in Hx. cbn [skipn Nat.sub] in Hx.
        apply firstn_In in Hx. now apply repeat_spec in Hx.
      * unfold slice. cbn [skipn Nat.sub].
        rewrite length_firstn, repeat_length.
        apply Nat.eqb_neq in E5, E6, E7. lia.
Qed.

(** [compare_hands] on two hands of five or more cards raises nothing
    and is antisymmetric: swapping the hands negates the result, which is
    1, 0 or -1 as the first rank is above, equal to or below the second.
    On documented card texts the result is always 0, the two hands being
    encoded alike. *)
Theorem compare_hands_is_antisymmetric :
  forall hand1 hand2,
    (5 <= List.length hand1)%nat -> (5 <= List.length hand2)%nat ->
    exists rank1 rank2 c,
      evaluate_hand hand1 = Ok (Some rank1)
      /\ evaluate_hand hand2 = Ok (Some rank2)
      /\ compare_hands hand1 hand2 = Returns c
      /\ compare_hands hand2 hand1 = Returns (- c)
      /\ (c = 1 <-> __lt__ rank2 rank1 = true)
      /\ (c = -1 <-> __lt__ rank1 rank2 = true)
      /\ (c = 0 <-> __eq__ rank1 rank2 = true)
      /\ (Forall (fun s => Spec.card_text_ok s = true) (hand1 ++ hand2) ->
          c = 0).
Proof.
  intros h1 h2 L1 L2.
  destruct (evaluate_hand_returns h1 L1)
    as (r1 & E1).
  destruct (evaluate_hand_returns h2 L2)
    as (r2 & E2).
  exists r1, r2.
  assert (D : Forall (fun s => Spec.card_text_ok s = true) (h1 ++ h2) ->
              __lt__ r2 r1 = false /\ __lt__ r1 r2 = false).
  { intros F. apply Forall_app in F. destruct F as [F1 F2].
    rewrite (evaluate_hand_on_documented_cards h1 L1 F1) in E1.
    rewrite (evaluate_hand_on_documented_cards h2 L2 F2) in E2.
    inversion E1; inversion E2; subst. split; reflexivity. }
  unfold compare_hands. rewrite E1, E2. cbn [lift greater less]. unfold gt.
  destruct (__lt__ r2 r1) eqn:G.
  - pose proof (lt_asym _ _ G) as G'. rewrite G'.
    exists 1. repeat split; try reflexivity; try lia; try congruence.
    + intro H. apply eq_spec in H. destruct H as [Hc Hr].
      unfold __lt__ in G. rewrite Hc, Hr, Z.eqb_refl in G. simpl in G.
      rewrite list_lt_irrefl in G. discriminate.
    + intro F. destruct (D F). congruence.
  - destruct (__lt__ r1 r2) eqn:G'.
    + exists (-1). repeat split; try reflexivity; try lia; try congruence.
      * intro H. apply eq_spec in H. destruct H as [Hc Hr].
        unfold __lt__ in G'. rewrite Hc, Hr, Z.eqb_refl in G'. simpl in G'.
        rewrite list_lt_irrefl in G'. discriminate.
      * intro F. destruct (D F). congruence.
    + exists 0. repeat split; try reflexivity; try lia; try congruence.
      intros _. destruct (lt_total r1 r2) as [H|[H|H]]; congruence.
Qed.

Lemma compare_hands_is_antisymmetric_witness :
  exists c,
    compare_hands ["Ah"; "Kh"; "Qh"; "Jh"; "Th"]
      ["2c"; "7d"; "9s"; "4h"; "Jc"; "3d"] = Returns c
    /\ c = 0.
Proof.
  destruct (compare_hands_is_antisymmetric
              ["Ah"; "Kh"; "Qh"; "Jh"; "Th"]
              ["2c"; "7d"; "9s"; "4h"; "Jc"; "3d"])
    as (r1 & r2 & c & _ & _ & E & _ & _ & _ & _ & Z0);
    [simpl; lia | simpl; lia |].
  exists c. split; [exact E|]. apply Z0.
  repeat (constructor; [reflexivity|]). constructor.
Defined.

(** [hand_strength] raises [ValueError] on fewer than five cards in all;
    otherwise it returns a value between 0 and 1.  On documented card
    texts that value is 0, whatever the cards. *)
Theorem hand_strength_is_between_0_and_1 :
  forall hole_cards community_cards,
    ((List.length (hole_cards ++ community_cards) < 5)%nat ->
     hand_strength hole_cards community_cards
     = Fails (Raised (ValueError "Need at least 5 cards to evaluate")))
    /\ ((5 <= List.length (hole_cards ++ community_cards))%nat ->
        exists s,
          hand_strength hole_cards community_cards = Returns s
          /\ (0 <= s)%Q /\ (s <= 1)%Q
          /\ (Forall (fun c => Spec.card_text_ok c = true)
                (hole_cards ++ community_cards) -> (s == 0)%Q)).
Proof.
  intros hole community. unfold hand_strength. split; intro L.
  - now rewrite (evaluate_hand_raises _ L).
  - destruct (evaluate_hand_returns _ L)
      as (r & E).
    rewrite E. cbn [lift]. exists (strength_of r).
    split; [reflexivity|].
    destruct (evaluate_hand_well_shaped _ _ E) as (Hc & Hv & _).
    assert (A : (0 <= inject_Z (category r) / 8)%Q).
    { apply Qle_shift_div_l; [reflexivity|]. rewrite Qmult_0_l.
      change 0%Q with (inject_Z 0). rewrite <- Zle_Qle. lia. }
    split; [|split].
    + unfold strength_of. apply Q.min_glb; [discriminate|].
      destruct (existsb (Z.eqb (category r)) [0; 1; 2; 3; 5]).
      * destruct (rank_values r) as [|r0 rs].
        -- rewrite Qplus_0_r. exact A.
        -- inversion Hv as [|? ? H0 _]; subst.
           rewrite <- (Qplus_0_r 0). apply Qplus_le_compat; [exact A|].
           apply Qmult_le_0_compat; [|discriminate].
           apply Qle_shift_div_l; [reflexivity|]. rewrite Qmult_0_l.
           change 0%Q with (inject_Z 0). rewrite <- Zle_Qle. lia.
      * rewrite Qplus_0_r. exact A.
    + unfold strength_of. apply Q.le_min_l.
    + intro F. rewrite (evaluate_hand_on_documented_cards _ L F) in E.
      inversion E; subst r. reflexivity.
Qed.

Lemma hand_strength_is_between_0_and_1_witness :
  hand_strength ["Ah"; "Kd"] ["Qc"; "Js"]
  = Fails (Raised (ValueError "Need at least 5 cards to evaluate"))
  /\ exists s, hand_strength ["Ah"; "Kd"] ["Qc"; "Js"; "Tc"] = Returns s
               /\ (0 <= s)%Q /\ (s <= 1)%Q.
Proof.
  split.
  - apply (hand_strength_is_between_0_and_1 ["Ah"; "Kd"] ["Qc"; "Js"]).
    simpl. lia.
  - destruct (proj2 (hand_strength_is_between_0_and_1
                       ["Ah"; "Kd"] ["Qc"; "Js"; "Tc"]))
      as (s & E & H0 & H1 & _); [simpl; lia|].
    exists s. auto.
Defined.

End CompareAndStrength.

(** ** The strategy table and the opponent models *)

Section StrategyAndOpponents.
Import AIEngine Strategy.

(** Whatever the position and the betting history, [get_gto_strategy]
    returns a probability distribution: every probability lies strictly
    between 0 and 1 and they add up to 1.  Its actions are fold, call and
    raise before the flop and when facing a bet or a raise, check and bet
    otherwise; and the baseline the analysis engine reports is the
    button's opening range. *)
Theorem get_gto_strategy_is_a_distribution :
  forall position action_history stack_sizes blinds,
    let strategy :=
      get_gto_strategy position action_history stack_sizes blinds in
    (total strategy == 1)%Q
    /\ Forall (fun p => (0 < p)%Q /\ (p < 1)%Q) (values strategy)
    /\ keys strategy
       = (if match action_history with [] => true | _ => false end
             || existsb (String.eqb "bet") action_history
             || existsb (String.eqb "raise") action_history
          then ["fold"; "call"; "raise"]
          else ["check"; "bet"])
    /\ _get_gto_baseline = get_gto_strategy BTN [] stack_sizes blinds.
Proof.
  intros position action_history stack_sizes blinds strategy.
  subst strategy. unfold get_gto_strategy.
  destruct action_history as [|a h].
  - destruct position; vm_compute; repeat split;
      repeat (constructor; [split; reflexivity|]); constructor.
  - destruct (existsb (String.eqb "bet") (a :: h)
              || existsb (String.eqb "raise") (a :: h)) eqn:E;
      cbn [orb]; rewrite ?E; vm_compute; repeat split;
      repeat (constructor; [split; reflexivity|]); constructor.
Qed.

Lemma update_stat_between (current_stat new_value : Q) (sample_size : Z) :
  ((current_stat <= new_value ->
    current_stat <= _update_stat current_stat new_value sample_size
    /\ _update_stat current_stat new_value sample_size <= new_value)
   /\ (new_value <= current_stat ->
       new_value <= _update_stat current_stat new_value sample_size
       /\ _update_stat current_stat new_value sample_size <= current_stat))%Q.
Proof.
  unfold _update_stat. destruct (sample_size <=? 1) eqn:E.
  - split; intro H; split; lra.
  - apply Z.leb_gt in E.
    set (w := inject_Z (Z.min 20 sample_size)).
    assert (W : (2 <= w)%Q).
    { unfold w. change 2%Q with (inject_Z 2). rewrite <- Zle_Qle. lia. }
    assert (P : (0 < w)%Q) by lra.
    split; intro H; split.
    + apply Qle_shift_div_l; [exact P|]. nra.
    + apply Qle_shift_div_r; [exact P|]. nra.
    + apply Qle_shift_div_l; [exact P|]. nra.
    + apply Qle_shift_div_r; [exact P|]. nra.
Qed.

(** With the floats read as exact rationals, the running average of
    [_update_stat] never leaves the interval between the old statistic
    and the new value; the first sample replaces the statistic, and from
    the twentieth on a sample weighs one twentieth.  In the doubles of
    the source the result is this value rounded, which can leave the
    interval by a rounding error. *)
Theorem update_stat_stays_between_old_and_new :
  forall current_stat new_value sample_size,
    (Qmin current_stat new_value
     <= _update_stat current_stat new_value sample_size)%Q
    /\ (_update_stat current_stat new_value sample_size
        <= Qmax current_stat new_value)%Q
    /\ (sample_size <= 1 ->
        _update_stat current_stat new_value sample_size = new_value)
    /\ (20 <= sample_size ->
        (_update_stat current_stat new_value sample_size
         == (19 # 20) * current_stat + (1 # 20) * new_value)%Q).
Proof.
  intros c v n.
  destruct (update_stat_between c v n) as [Lo Hi].
  split; [|split; [|split]].
  - destruct (Qlt_le_dec v c) as [H|H].
    + rewrite Q.min_r by lra. apply Hi. lra.
    + rewrite Q.min_l by lra. apply Lo. lra.
  - destruct (Qlt_le_dec v c) as [H|H].
    + rewrite Q.max_l by lra. apply Hi. lra.
    + rewrite Q.max_r by lra. apply Lo. lra.
  - intro H. unfold _update_stat. apply Z.leb_le in H. now rewrite H.
  - intro H. unfold _update_stat.
    assert (E : (n <=? 1) = false) by (apply Z.leb_gt; lia).
    rewrite E. rewrite Z.min_l by lia. 
    change (inject_Z 20) with 20%Q. field.
Qed.

Lemma update_stat_stays_between_old_and_new_witness :
  _update_stat (1 # 2) 1 1 = 1%Q
  /\ (_update_stat (1 # 2) 1 50 == 21 # 40)%Q.
Proof.
  destruct (update_stat_stays_between_old_and_new (1 # 2) 1 1)
    as (_ & _ & First & _).
  destruct (update_stat_stays_between_old_and_new (1 # 2) 1 50)
    as (_ & _ & _ & Late).
  split.
  - apply First. lia.
  - rewrite Late by lia. reflexivity.
Defined.


Lemma get_setitem_same {V} (d : list (string * V)) (k : string) (v : V) :
  get String.eqb (setitem String.eqb d k v) k = Some v.
Proof.
  induction d as [|[k' v'] t IH]; simpl.
  - now rewrite String.eqb_refl.
  - destruct (String.eqb k' k) eqn:E; simpl; rewrite E; [reflexivity | exact IH].
Qed.

Lemma get_setitem_other {V} (d : list (string * V)) (k k' : string) (v : V) :
  String.eqb k k' = false ->
  get String.eqb (setitem String.eqb d k v) k' = get String.eqb d k'.
Proof.
  intro N. induction d as [|[k0 v0] t IH]; simpl.
  - now rewrite N.
  - destruct (String.eqb k0 k) eqn:E; simpl.
    + apply String.eqb_eq in E. subst k0. now rewrite N.
    + destruct (String.eqb k0 k'); [reflexivity | exact IH].
Qed.

Lemma observe_snoc (observations : list Observation) (o : Observation) :
  observe (observations ++ [o])
  = update_opponent_model (observe observations) (who o) (what o)
      (how_much o) (seat o) (pot o) (at_time o).
Proof. unfold observe. now rewrite fold_left_app. Qed.

Lemma update_stat_positive (current_stat : Q) (sample_size : Z) :
  (0 <= current_stat)%Q -> (0 < _update_stat current_stat 1 sample_size)%Q.
Proof.
  intro H. unfold _update_stat. destruct (sample_size <=? 1) eqn:E.
  - reflexivity.
  - apply Z.leb_gt in E.
    set (w := inject_Z (Z.min 20 sample_size)).
    assert (W : (2 <= w)%Q).
    { unfold w. change 2%Q with (inject_Z 2). rewrite <- Zle_Qle. lia. }
    apply Qlt_shift_div_l; [lra|]. nra.
Qed.

Lemma update_stat_monotone (a b new_value : Q) (sample_size : Z) :
  (a <= b)%Q ->
  (_update_stat a new_value sample_size
   <= _update_stat b new_value sample_size)%Q.
Proof.
  intro H. unfold _update_stat. destruct (sample_size <=? 1) eqn:E.
  - lra.
  - apply Z.leb_gt in E.
    set (w := inject_Z (Z.min 20 sample_size)).
    assert (W : (2 <= w)%Q).
    { unfold w. change 2%Q with (inject_Z 2). rewrite <- Zle_Qle. lia. }
    unfold Qdiv. apply Qmult_le_compat_r.
    + nra.
    + apply Qlt_le_weak, Qinv_lt_0_compat. lra.
Qed.

Lemma aggressive_is_voluntary (o : Observation) :
  aggressive o = true -> voluntary o = true.
Proof. unfold aggressive, voluntary. now destruct (what o). Qed.

Lemma filter_snoc {A} (f : A -> bool) (l : list A) (x : A) :
  filter f (l ++ [x]) = filter f l ++ (if f x then [x] else []).
Proof. rewrite filter_app. reflexivity. Qed.

Lemma snoc_not_nil {A} (l : list A) (x : A) : l ++ [x] <> [].
Proof. destruct l; discriminate. Qed.

(** One update of a model that holds the profile of [seen] gives the
    profile of [seen] with the observation added. *)
Lemma update_keeps_profile (seen : list Observation) (o : Observation)
    (model : OpponentModel) :
  profile seen model ->
  profile (seen ++ [o])
    (mkOpponentModel (player_id model)
       (if voluntary o then _update_stat (vpip model) 1 (hands_observed model + 1)
        else vpip model)
       (if aggressive o then _update_stat (pfr model) 1 (hands_observed model + 1)
        else pfr model)
       (if aggressive o then Qmin 3 (aggression_factor model + (1 # 10))
        else aggression_factor model)
       (c_bet_frequency model) (fold_to_c_bet model)
       (hands_observed model + 1) (at_time o)).
Proof.
  unfold profile. intros (Hn & P0 & PV & V1 & VZ & PZ & AF & CB & FC).
  cbn [hands_observed pfr vpip aggression_factor c_bet_frequency fold_to_c_bet].
  rewrite !filter_snoc.
  pose proof (aggressive_is_voluntary o) as AV.
  assert (V0 : (0 <= vpip model)%Q) by lra.
  pose proof (update_stat_positive (vpip model) (hands_observed model + 1) V0)
    as VP.
  pose proof (update_stat_positive (pfr model) (hands_observed model + 1) P0)
    as PP.
  destruct (update_stat_between (vpip model) 1 (hands_observed model + 1))
    as [VB _]. specialize (VB V1).
  assert (P1 : (pfr model <= 1)%Q) by lra.
  destruct (update_stat_between (pfr model) 1 (hands_observed model + 1))
    as [PB _]. specialize (PB P1).
  pose proof (update_stat_monotone (pfr model) (vpip model) 1
                (hands_observed model + 1) PV) as Mono.
  split; [rewrite length_app; simpl List.length; lia|].
  destruct (aggressive o) eqn:Ea.
  - rewrite (AV eq_refl).
    split; [lra|]. split; [exact Mono|]. split; [lra|].
    split; [|split; [|split; [|split]]]; try assumption.
    + split; [intro H; lra | intro H; exfalso; eapply snoc_not_nil; exact H].
    + split; [intro H; lra | intro H; exfalso; eapply snoc_not_nil; exact H].
    + rewrite length_app. cbn [List.length]. rewrite Nat.add_1_r, Nat2Z.inj_succ.
      unfold Z.succ. rewrite inject_Z_plus.
      set (k := inject_Z (Z.of_nat (List.length (filter aggressive seen)))) in *.
      clearbody k. change (inject_Z 1) with 1%Q.
      assert (D : ((k + 1) / 10 == k / 10 + (1 # 10))%Q) by field.
      set (a := (k / 10)%Q) in *. set (b := ((k + 1) / 10)%Q) in *.
      clearbody a b.
      destruct (Q.min_spec 3 (1 + a)) as [[C E]|[C E]];
        rewrite E in AF;
        destruct (Q.min_spec 3 (aggression_factor model + (1 # 10)))
          as [[C1 E1]|[C1 E1]]; rewrite E1;
        destruct (Q.min_spec 3 (1 + b)) as [[C2 E2]|[C2 E2]];
        rewrite E2; lra.
  - rewrite !app_nil_r. 
    destruct (voluntary o) eqn:Ev.
    + split; [lra|]. split; [lra|]. split; [lra|].
      split; [|split; [|split; [|split]]]; try assumption.
      split; [intro H; lra | intro H; exfalso; eapply snoc_not_nil; exact H].
    + rewrite !app_nil_r. repeat split; try assumption; try lra; tauto.
Qed.

(** After any run of [update_opponent_model] on a new engine,
    [get_opponent_model] knows exactly the players that were observed, and
    the model of a player holds the profile of that player's own actions,
    whatever the other players did: the number of hands, [0 <= pfr <= vpip
    <= 1], a frequency of 0 exactly when no such action was seen, an
    aggression factor of 1 plus a tenth per bet or raise and never above
    3, and the time of the player's last action.  The frequencies and the
    aggression factor are those of exact rational arithmetic; the doubles
    of the source hold them up to rounding. *)
Theorem opponent_models_hold_the_profile_of_each_player :
  forall observations player,
    match get_opponent_model (observe observations) player with
    | None => observed player observations = []
    | Some model =>
        observed player observations <> []
        /\ player_id model = player
        /\ profile (observed player observations) model
        /\ last_updated model
           = last (map at_time (observed player observations)) 0%Q
    end.
Proof.
  unfold get_opponent_model.
  induction observations as [|o os IH] using rev_ind; intro p.
  - reflexivity.
  - rewrite observe_snoc. unfold observed. rewrite filter_snoc.
    fold (observed p os). unfold update_opponent_model.
    fold (voluntary o). fold (aggressive o).
    destruct (String.eqb (who o) p) eqn:E.
    + apply String.eqb_eq in E. subst p.
      rewrite get_setitem_same. specialize (IH (who o)). cbv beta iota.
      split; [apply snoc_not_nil|].
      rewrite map_app. cbn [map]. rewrite last_last.
      destruct (get String.eqb (observe os) (who o)) as [m|].
      * destruct IH as (_ & Id & Pr & _).
        split; [exact Id|]. split; [|reflexivity].
        apply update_keeps_profile. exact Pr.
      * rewrite IH. split; [reflexivity|]. split; [|reflexivity].
        apply (update_keeps_profile []
                 o (mkOpponentModel (who o) 0 0 1 (1 # 2) (1 # 2) 0 (at_time o))).
        unfold profile. simpl. repeat split; try reflexivity; try discriminate.
    + rewrite get_setitem_other by exact E. rewrite app_nil_r. apply IH.
Qed.

(** [update_opponent_model] touches the model of the observed player
    only, keeps the players in the order they were first seen, and never
    lowers a statistic of a model that holds a profile: a fold adds a hand
    and leaves [vpip], [pfr] and the aggression factor as they were. *)
Theorem update_opponent_model_only_raises_statistics :
  forall self player action amount position pot_size now seen model,
    get_opponent_model self player = Some model ->
    profile seen model ->
    exists updated,
      get_opponent_model
        (update_opponent_model self player action amount position pot_size now)
        player = Some updated
      /\ hands_observed updated = hands_observed model + 1
      /\ (vpip model <= vpip updated)%Q
      /\ (pfr model <= pfr updated)%Q
      /\ (aggression_factor model <= aggression_factor updated)%Q
      /\ (action = FOLD \/ action = CHECK \/ action = ALL_IN ->
          vpip updated = vpip model /\ pfr updated = pfr model
          /\ aggression_factor updated = aggression_factor model)
      /\ keys (update_opponent_model self player action amount position
                 pot_size now) = keys self
      /\ forall other,
           other <> player ->
           get_opponent_model
             (update_opponent_model self player action amount position
                pot_size now) other
           = get_opponent_model self other.
Proof.
  unfold get_opponent_model.
  intros self p a amt pos ps now seen m G (Hn & P0 & PV & V1 & _ & _ & AF & _).
  unfold update_opponent_model. rewrite G, get_setitem_same.
  eexists. split; [reflexivity|].
  cbn [hands_observed vpip pfr aggression_factor].
  assert (P1 : (pfr m <= 1)%Q) by lra.
  destruct (update_stat_between (vpip m) 1 (hands_observed m + 1)) as [VB _].
  destruct (update_stat_between (pfr m) 1 (hands_observed m + 1)) as [PB _].
  specialize (VB V1). specialize (PB P1).
  assert (A3 : (aggression_factor m <= 3)%Q).
  { rewrite AF. apply Q.le_min_l. }
  split; [reflexivity|].
  split; [destruct (action_in a [CALL; BET; RAISE]); lra|].
  split; [destruct (action_in a [BET; RAISE]); lra|].
  split.
  { destruct (action_in a [BET; RAISE]); [|lra].
    apply Q.min_glb; lra. }
  split.
  { intros [->|[->| ->]]; auto. }
  split.
  - clear -G. induction self as [|[k v] t IH]; simpl in *; [discriminate|].
    destruct (String.eqb k p); simpl; [reflexivity|].
    f_equal. apply IH. exact G.
  - intros q N. apply get_setitem_other. apply String.eqb_neq. congruence.
Qed.

Lemma update_opponent_model_only_raises_statistics_witness :
  exists updated,
    get_opponent_model
      (update_opponent_model
         (observe [mkObservation "villain" CALL None BTN 10 1])
         "villain" FOLD None BTN 12 2) "villain" = Some updated
    /\ hands_observed updated = 2
    /\ vpip updated = 1%Q.
Proof.
  destruct (update_opponent_model_only_raises_statistics
              (observe [mkObservation "villain" CALL None BTN 10 1])
              "villain" FOLD None BTN 12 2
              [mkObservation "villain" CALL None BTN 10 1]
              (mkOpponentModel "villain" 1 0 1 (1 # 2) (1 # 2) 1 1))
    as (u & G & H & _ & _ & _ & F & _).
  - reflexivity.
  - unfold profile. simpl. repeat split; try reflexivity; try discriminate.
  - exists u. split; [exact G|]. split; [exact H|].
    destruct F as (V & _); [now left | exact V].
Defined.

End StrategyAndOpponents.

(** ** Bounds of the equity and of the pot odds *)

Section EquityBounds.
Import ComputerVision AIEngine.

Lemma simulation_loop_bounds (shuffle : nat -> list string -> list string)
    (hole_cards community_cards : list Card) (num_opponents : Z)
    (available_cards : list string) (trials : list nat) :
  forall wins ties w t,
    simulation_loop shuffle hole_cards community_cards num_opponents
      available_cards trials wins ties = Ok (w, t) ->
    wins <= w /\ ties <= t
    /\ (w - wins) + (t - ties) <= Z.of_nat (List.length trials).
Proof.
  induction trials as [|x rest IH]; intros wins ties w t H;
    cbn [simulation_loop] in H.
  - inversion H; subst. simpl. lia.
  - destruct (trial_strengths hole_cards community_cards num_opponents
                (shuffle x available_cards)) as [[p m]|e]; [|discriminate].
    cbn [Py.bind] in H. cbn [List.length]. rewrite Nat2Z.inj_succ.
    destruct (m <? p); [|destruct (p =? m)]; apply IH in H; lia.
Qed.

(** [calculate_equity] answers 0 unless it is given two hole cards, and
    whenever it returns, with any shuffles, any number of simulations and
    any cards, the equity lies between 0 and 1.  With two hole cards and
    no simulation to run it raises [ZeroDivisionError]. *)
Theorem calculate_equity_is_a_probability :
  forall shuffle num_simulations hole_cards community_cards num_opponents,
    (List.length hole_cards <> 2%nat ->
     calculate_equity shuffle num_simulations hole_cards community_cards
       num_opponents = Ok 0%Q)
    /\ (List.length hole_cards = 2%nat -> num_simulations = 0 ->
        calculate_equity shuffle num_simulations hole_cards community_cards
          num_opponents
        = Raise (ZeroDivisionError "float division by zero"))
    /\ (forall equity,
          calculate_equity shuffle num_simulations hole_cards community_cards
            num_opponents = Ok equity ->
          (0 <= equity)%Q /\ (equity <= 1)%Q).
Proof.
  intros shuffle n hole community opp. unfold calculate_equity.
  split; [|split].
  - intro L. apply Nat.eqb_neq in L. now rewrite L.
  - intros L ->. apply Nat.eqb_eq in L. rewrite L. reflexivity.
  - intro e. destruct (List.length hole =? 2)%nat; cbn [negb].
    + destruct (simulation_loop _ _ _ _ _ _ _ _) as [[w t]|x] eqn:E;
        [|discriminate].
      cbn [Py.bind]. apply simulation_loop_bounds in E.
      rewrite length_seq in E.
      destruct (n =? 0) eqn:N; [discriminate|]. apply Z.eqb_neq in N.
      intros [= <-].
      destruct (Z.lt_ge_cases n 0) as [Neg|Pos].
      * replace (Z.to_nat n) with 0%nat in E by lia.
        assert (w = 0 /\ t = 0) as [-> ->] by lia.
        change (inject_Z 0) with 0%Q.
        assert (Z0 : ((0 + 0 * (1 # 2)) / inject_Z n == 0)%Q).
        { unfold Qdiv. ring. }
        rewrite Z0. split; [apply Qle_refl | discriminate].
      * rewrite Z2Nat.id in E by lia.
        assert (P : (0 < inject_Z n)%Q).
        { change 0%Q with (inject_Z 0). rewrite <- Zlt_Qlt. lia. }
        assert (W : (0 <= inject_Z w)%Q).
        { change 0%Q with (inject_Z 0). rewrite <- Zle_Qle. lia. }
        assert (T : (0 <= inject_Z t)%Q).
        { change 0%Q with (inject_Z 0). rewrite <- Zle_Qle. lia. }
        assert (S : (inject_Z w + inject_Z t <= inject_Z n)%Q).
        { rewrite <- inject_Z_plus, <- Zle_Qle. lia. }
        split.
        -- apply Qle_shift_div_l; [exact P|]. lra.
        -- apply Qle_shift_div_r; [exact P|]. lra.
    + intros [= <-]. split; [apply Qle_refl | discriminate].
Qed.

Lemma calculate_equity_is_a_probability_witness :
  (0 <= 3 # 6)%Q /\ (3 # 6 <= 1)%Q.
Proof.
  apply (calculate_equity_is_a_probability Samples.no_shuffle 3
           Samples.full_house_hole Samples.full_house_board 1).
  vm_compute. reflexivity.
Defined.


Lemma truthyQ_false (o : option Q) :
  truthyQ o = false <-> (forall q, o = Some q -> (q == 0)%Q).
Proof.
  destruct o as [q|]; simpl.
  - rewrite negb_false_iff, Qeq_bool_iff. split.
    + intros H q' [= <-]. exact H.
    + intro H. now apply H.
  - split; [discriminate | reflexivity].
Qed.

(** [_calculate_pot_odds] answers 0 when the pot or the bet is missing or
    zero.  For a positive pot and a positive bet it answers
    bet / (pot + bet) and the implied odds are one and a half times that;
    with the floats read as exact rationals the pot odds are strictly
    between 0 and 1, where the doubles of the source can round them to 0
    or to 1.  It raises only [ZeroDivisionError], and only when pot and
    bet cancel out, one of them being negative. *)
Theorem pot_odds_lie_between_0_and_1 :
  forall game_info,
    ((forall pot, pot_size game_info = Some pot -> (pot == 0)%Q)
     \/ (forall bet, current_bet game_info = Some bet -> (bet == 0)%Q) ->
     _calculate_pot_odds game_info = Ok 0%Q
     /\ _calculate_implied_odds game_info = Ok (0 * (3 # 2))%Q)
    /\ (forall pot bet,
          pot_size game_info = Some pot -> current_bet game_info = Some bet ->
          (0 < pot)%Q -> (0 < bet)%Q ->
          exists odds,
            _calculate_pot_odds game_info = Ok odds
            /\ (odds == bet / (pot + bet))%Q
            /\ (0 < odds)%Q /\ (odds < 1)%Q
            /\ _calculate_implied_odds game_info = Ok (odds * (3 # 2))%Q)
    /\ (forall e,
          _calculate_pot_odds game_info = Raise e ->
          e = ZeroDivisionError "float division by zero"
          /\ exists pot bet,
               pot_size game_info = Some pot /\ current_bet game_info = Some bet
               /\ ~ (pot == 0)%Q /\ (pot + bet == 0)%Q).
Proof.
  intros [pot bet round]. unfold _calculate_implied_odds, _calculate_pot_odds.
  cbn [pot_size current_bet]. split; [|split].
  - intros H.
    assert (E : negb (truthyQ pot) || negb (truthyQ bet) = true).
    { apply orb_true_iff. rewrite !negb_true_iff, !truthyQ_false. exact H. }
    rewrite E. split; reflexivity.
  - intros p b -> -> Hp Hb. cbn [truthyQ unwrapQ].
    destruct (Qeq_bool p 0) eqn:Ep; [apply Qeq_bool_iff in Ep; lra|].
    destruct (Qeq_bool b 0) eqn:Eb; [apply Qeq_bool_iff in Eb; lra|].
    destruct (Qeq_bool (p + b) 0) eqn:Es; [apply Qeq_bool_iff in Es; lra|].
    cbn [negb orb Py.bind]. eexists. split; [reflexivity|].
    split; [reflexivity|]. split; [|split; [|reflexivity]].
    + apply Qlt_shift_div_l; lra.
    + apply Qlt_shift_div_r; lra.
  - intro e.
    destruct pot as [p|]; [|discriminate].
    destruct bet as [b|]; cbn [truthyQ unwrapQ];
      [|rewrite orb_true_r; discriminate].
    destruct (Qeq_bool p 0) eqn:Ep; [discriminate|].
    destruct (Qeq_bool b 0) eqn:Eb; [discriminate|].
    cbn [negb orb].
    destruct (Qeq_bool (p + b) 0) eqn:Es; [|discriminate].
    intros [= <-]. split; [reflexivity|]. exists p, b.
    split; [reflexivity|]. split; [reflexivity|].
    split; [|now apply Qeq_bool_iff].
    intro H. apply Qeq_bool_iff in H. congruence.
Qed.

Lemma pot_odds_lie_between_0_and_1_witness :
  exists odds,
    _calculate_pot_odds (mkGameInfo (Some 100%Q) (Some 50%Q) None) = Ok odds
    /\ (0 < odds)%Q /\ (odds < 1)%Q.
Proof.
  destruct (pot_odds_lie_between_0_and_1
              (mkGameInfo (Some 100%Q) (Some 50%Q) None))
    as (_ & H & _).
  destruct (H 100%Q 50%Q) as (odds & E & _ & L & U & _);
    [reflexivity | reflexivity | reflexivity | reflexivity |].
  exists odds. auto.
Defined.

End EquityBounds.

(** ** From the analysis to the urgency of the decision *)

Section Pipeline.
Import ComputerVision AIEngine DecisionManager.

Lemma analysis_cycle_builds (shuffle : nat -> list string -> list string)
    (format_percent : Q -> string) (simulation_count : Z)
    (game_state : GameState) (analysis_time : Q) (analysis : HandAnalysis) :
  analysis_cycle shuffle format_percent simulation_count game_state
    analysis_time = Ok analysis ->
  exists hand_strength pot_odds implied_odds,
    analysis
    = mkHandAnalysis hand_strength pot_odds implied_odds (1 # 2) []
        (_generate_recommendation hand_strength pot_odds implied_odds
           (1 # 2) [])
        _get_gto_baseline [] analysis_time.
Proof.
  unfold analysis_cycle.
  destruct (_analyze_hand_strength _ _ _ _ _) as [hs|e]; [|discriminate].
  destruct (_calculate_pot_odds _) as [po|e]; [|discriminate].
  destruct (_calculate_implied_odds _) as [io|e]; [|discriminate].
  cbn [Py.bind]. intros [= <-]. eauto.
Qed.

(** What [_calculate_urgency] makes of the analyses that [analyze_hand]
    produces.  The engine recommends Bet, Call or Fold only.  An analysis
    that failed and degraded to Fold is always of High urgency.  And the
    urgency is Critical exactly for the calls made on pot odds alone: the
    analysis succeeded with an equity from 0.05 to 0.5 and pot odds above
    0.3 and at most 0.4. *)
Theorem urgency_of_the_analyses_of_the_engine :
  forall shuffle format_percent simulation_count self game_state
         analysis_time,
    let cycle := analysis_cycle shuffle format_percent simulation_count
                   game_state analysis_time in
    let analysis := fst (analyze_hand shuffle format_percent simulation_count
                           self game_state analysis_time) in
    let u := _calculate_urgency analysis game_state in
    (action (recommendation analysis) = BET
     \/ action (recommendation analysis) = CALL
     \/ action (recommendation analysis) = FOLD)
    /\ (forall e, cycle = Raise e -> u = HIGH)
    /\ (u = CRITICAL <->
        (exists built, cycle = Ok built)
        /\ (5 # 100 <= equity (hand_strength analysis))%Q
        /\ (equity (hand_strength analysis) <= 5 # 10)%Q
        /\ (3 # 10 < pot_odds analysis)%Q
        /\ (pot_odds analysis <= 4 # 10)%Q)
    /\ (u = CRITICAL ->
        action (recommendation analysis) = CALL
        /\ reasoning (recommendation analysis) = "Good pot odds - calling").
Proof.
  intros shuffle fmt n self gs t cycle analysis u.
  subst cycle analysis u. unfold analyze_hand.
  destruct (analysis_cycle shuffle fmt n gs t) as [a|e] eqn:E.
  - apply analysis_cycle_builds in E. destruct E as (hs & po & io & ->).
    cbn [fst]. unfold _calculate_urgency, _generate_recommendation.
    cbn [recommendation hand_strength pot_odds].
    destruct (Qgtb (equity hs) (7 # 10)) eqn:E1;
      [apply Qgtb_true in E1 | apply Qgtb_false in E1];
    (destruct (Qgtb (equity hs) (5 # 10)) eqn:E2;
      [apply Qgtb_true in E2 | apply Qgtb_false in E2]);
    (destruct (Qgtb po (3 # 10)) eqn:E3;
      [apply Qgtb_true in E3 | apply Qgtb_false in E3]);
    (destruct (Qgtb (equity hs) (95 # 100)) eqn:E4;
      [apply Qgtb_true in E4 | apply Qgtb_false in E4]);
    (destruct (Qltb (equity hs) (5 # 100)) eqn:E5;
      [apply Qltb_true in E5 | apply Qltb_false in E5]);
    (destruct (Qgtb po (4 # 10)) eqn:E6;
      [apply Qgtb_true in E6 | apply Qgtb_false in E6]);
    cbn; try lra;
    (split; [tauto|]); (split; [discriminate|]);
    (split;
     [split; [first [discriminate | intros _; split; [eauto|]; lra]
             | first [intros (_ & ? & ? & ? & ?); lra | reflexivity]]
     | first [discriminate | intros _; split; reflexivity]]).
  - cbn. split; [tauto|]. split; [reflexivity|].
    split; [split; [discriminate | intros [[b B] _]; discriminate]
           | discriminate].
Qed.

Lemma urgency_of_the_analyses_of_the_engine_witness :
  _calculate_urgency
    (fst (analyze_hand Samples.no_shuffle Samples.no_format 1
            (mkEngine 0 0) Samples.bad_rank_state 0))
    Samples.bad_rank_state = HIGH.
Proof.
  destruct (urgency_of_the_analyses_of_the_engine
              Samples.no_shuffle Samples.no_format 1 (mkEngine 0 0)
              Samples.bad_rank_state 0) as (_ & H & _).
  eapply H. vm_compute. reflexivity.
Defined.

End Pipeline.

(** ** Straights among five cards *)

Section Straights.
Import HandEvaluator.

Lemma nodup_length_le (l : list Z) :
  (List.length (nodup Z.eq_dec l) <= List.length l)%nat.
Proof.
  induction l as [|x t IH]; simpl; [lia|].
  destruct (in_dec Z.eq_dec x t); simpl; lia.
Qed.

Lemma nodup_length_NoDup (l : list Z) :
  List.length (nodup Z.eq_dec l) = List.length l -> NoDup l.
Proof.
  induction l as [|x t IH]; simpl; [constructor|].
  pose proof (nodup_length_le t) as L.
  destruct (in_dec Z.eq_dec x t) as [I|N]; simpl; intro E; [lia|].
  constructor; [exact N | apply IH; lia].
Qed.

Lemma run_of_five_sorted (h : Z) :
  StronglySorted Z.le [h - 4; h - 3; h - 2; h - 1; h].
Proof.
  repeat (constructor; [|repeat (constructor; [lia|]); constructor]).
  constructor.
Qed.

Lemma run_of_five_NoDup (h : Z) : NoDup [h - 4; h - 3; h - 2; h - 1; h].
Proof.
  repeat (constructor;
          [simpl; intro H;
           repeat (destruct H as [H|H]; [lia|]); exact H|]).
  constructor.
Qed.

(** [_check_straight] is right on five cards: it returns [h] exactly when
    the five rank codes are the run h-4, ..., h in some order, or when
    they are the wheel A, 2, 3, 4, 5 (the codes 12, 0, 1, 2, 3) and [h] is
    3, the code of the five.  In all other cases, a repeated rank among
    them, it returns [None]. *)
Theorem check_straight_is_exact_on_five_cards :
  forall cards h,
    List.length cards = 5%nat ->
    (_check_straight cards = Some h
     <-> Permutation (map (fun c => Z.land c 0xF) cards)
           [h - 4; h - 3; h - 2; h - 1; h]
         \/ (h = 3
             /\ Permutation (map (fun c => Z.land c 0xF) cards)
                  [12; 0; 1; 2; 3])).
Proof.
  intros cards h L. unfold _check_straight, Py.set.
  set (rs := map (fun c => Z.land c 0xF) cards).
  assert (Lr : List.length rs = 5%nat) by (unfold rs; now rewrite length_map).
  split.
  - destruct (List.length (sorted (nodup Z.eq_dec rs)) <? 5)%nat eqn:E5;
      [discriminate|].
    apply Nat.ltb_ge in E5. rewrite sorted_length in E5.
    pose proof (nodup_length_le rs) as Le.
    assert (N : NoDup rs) by (apply nodup_length_NoDup; lia).
    rewrite (nodup_fixed_point Z.eq_dec N).
    pose proof (sorted_permutation rs) as P.
    pose proof (sorted_is_sorted rs) as S.
    pose proof (sorted_length rs) as Ls. rewrite Lr in Ls.
    assert (Ns : NoDup (sorted rs)).
    { eapply Permutation_NoDup; [symmetry; exact P | exact N]. }
    destruct (sorted rs) as [|a [|b [|c [|d [|e [|]]]]]]; try discriminate.
    cbn [List.length Nat.sub seq straight_scan nth Nat.add].
    inversion S as [|? ? S1 F1]; subst. inversion S1 as [|? ? S2 F2]; subst.
    inversion S2 as [|? ? S3 F3]; subst. inversion S3 as [|? ? S4 F4]; subst.
    inversion F1 as [|? ? Hab _]; inversion F2 as [|? ? Hbc _];
      inversion F3 as [|? ? Hcd _]; inversion F4 as [|? ? Hde _]; subst.
    inversion Ns as [|? ? Na N1]; subst. inversion N1 as [|? ? Nb N2]; subst.
    inversion N2 as [|? ? Nc N3]; subst. inversion N3 as [|? ? Nd _]; subst.
    assert (a <> b /\ b <> c /\ c <> d /\ d <> e) as (? & ? & ? & ?).
    { repeat split; intro Q; [apply Na | apply Nb | apply Nc | apply Nd];
        left; congruence. }
    destruct (Z.eqb_spec (e - a) 4) as [E|E].
    + intros [= <-]. left. symmetry.
      replace (e - 4) with a by lia. replace (e - 3) with b by lia.
      replace (e - 2) with c by lia. replace (e - 1) with d by lia.
      exact P.
    + destruct (list_eq [a; b; c; d; e] [0; 1; 2; 3; 12]) eqn:W;
        [|discriminate].
      intros [= <-]. right. split; [reflexivity|].
      apply list_eq_spec in W. rewrite W in P.
      rewrite <- P. change [0; 1; 2; 3; 12] with (sorted [12; 0; 1; 2; 3]).
      apply sorted_permutation.
  - intros [P|[-> P]].
    + assert (N : NoDup rs).
      { eapply Permutation_NoDup; [symmetry; exact P | apply run_of_five_NoDup]. }
      rewrite (nodup_fixed_point Z.eq_dec N).
      rewrite (sorted_of_permutation _ _ P (run_of_five_sorted h)).
      cbn [List.length Nat.ltb Nat.leb Nat.sub seq straight_scan nth Nat.add].
      replace (h - (h - 4) =? 4) with true by (symmetry; apply Z.eqb_eq; lia).
      reflexivity.
    + assert (N : NoDup rs).
      { eapply Permutation_NoDup; [symmetry; exact P|].
        apply NoDup_nodup with (decA := Z.eq_dec) (l := [12; 0; 1; 2; 3]). }
      rewrite (nodup_fixed_point Z.eq_dec N).
      rewrite (sorted_of_permutation _ [0; 1; 2; 3; 12]).
      * reflexivity.
      * rewrite P. change [0; 1; 2; 3; 12] with (sorted [12; 0; 1; 2; 3]).
        symmetry. apply sorted_permutation.
      * change [0; 1; 2; 3; 12] with (sorted [12; 0; 1; 2; 3]).
        apply sorted_is_sorted.
Qed.

Lemma check_straight_is_exact_on_five_cards_witness :
  _check_straight [0x1008; 0x2004; 0x4006; 0x8005; 0x1007] = Some 8
  <-> Permutation [8; 4; 6; 5; 7] [4; 5; 6; 7; 8]
      \/ (8 = 3 /\ Permutation [8; 4; 6; 5; 7] [12; 0; 1; 2; 3]).
Proof.
  apply (check_straight_is_exact_on_five_cards
           [0x1008; 0x2004; 0x4006; 0x8005; 0x1007] 8).
  reflexivity.
Defined.

End Straights.

(** ** The history and the statistics of the decisions *)

Section DecisionLog.
Import AIEngine DecisionManager Decisions.

Lemma slice_from_neg {A} (l : list A) (k : Z) :
  0 < k ->
  slice_from l (- k) = skipn (List.length l - Z.to_nat k) l.
Proof.
  intro K. unfold slice_from.
  replace (- k <? 0) with true by (symmetry; apply Z.ltb_lt; lia).
  f_equal. lia.
Qed.

Lemma skipn_snoc_last {A} (l : list A) (x : A) (m : nat) :
  (0 < m)%nat ->
  skipn (List.length (skipn (List.length l - m) l ++ [x]) - m)
    (skipn (List.length l - m) l ++ [x])
  = skipn (List.length (l ++ [x]) - m) (l ++ [x]).
Proof.
  intro M.
  destruct (Nat.le_gt_cases (List.length l) (m - 1)) as [Le|Gt].
  - replace (List.length l - m)%nat with 0%nat by lia. reflexivity.
  - assert (L1 : (List.length (skipn (List.length l - m) l ++ [x]) - m
                  = 1)%nat).
    { rewrite length_app, length_skipn. cbn [List.length]. lia. }
    assert (L2 : (List.length (l ++ [x]) - m
                  = 1 + (List.length l - m))%nat).
    { rewrite length_app. cbn [List.length]. lia. }
    rewrite L1, L2, <- skipn_skipn, (skipn_app (List.length l - m)).
    replace (List.length l - m - List.length l)%nat with 0%nat by lia.
    reflexivity.
Qed.

Lemma record_snoc (max_history : Z) (added : list Decision) (d : Decision) :
  record max_history (added ++ [d])
  = add_decision (record max_history added) d.
Proof. unfold record. now rewrite fold_left_app. Qed.

Lemma record_max_history (max_history : Z) (added : list Decision) :
  Decisions.max_history (record max_history added) = max_history.
Proof.
  induction added as [|d ds IH] using rev_ind; [reflexivity|].
  rewrite record_snoc. unfold add_decision. rewrite IH.
  destruct (_ <? _); reflexivity.
Qed.

(** A history that starts empty keeps the last [max_history] decisions
    added to it, oldest first, when [max_history] is positive.  With
    [max_history = 0] it keeps every decision and grows without bound,
    since [decisions[-0:]] is the whole list; with a negative
    [max_history] it keeps none. *)
Theorem history_keeps_the_last_max_history_decisions :
  forall max_history added,
    (0 < max_history ->
     decisions (record max_history added)
     = skipn (List.length added - Z.to_nat max_history) added
     /\ Z.of_nat (List.length (decisions (record max_history added)))
        = Z.min (Z.of_nat (List.length added)) max_history)
    /\ (max_history = 0 -> decisions (record max_history added) = added)
    /\ (max_history < 0 -> decisions (record max_history added) = []).
Proof.
  intros m added. split; [|split]; intro M.
  - assert (E : decisions (record m added)
                = skipn (List.length added - Z.to_nat m) added).
    { induction added as [|d ds IH] using rev_ind; [reflexivity|].
      rewrite record_snoc. unfold add_decision.
      rewrite record_max_history, IH.
      destruct (m <? _) eqn:C.
      - cbn [decisions]. rewrite slice_from_neg by exact M.
        apply skipn_snoc_last. lia.
      - cbn [decisions]. apply Z.ltb_ge in C.
        rewrite length_app, length_skipn in C. cbn [List.length] in C.
        rewrite length_app. cbn [List.length].
        replace (List.length ds - Z.to_nat m)%nat with 0%nat by lia.
        replace (List.length ds + 1 - Z.to_nat m)%nat with 0%nat by lia.
        reflexivity. }
    split; [exact E|]. rewrite E, length_skipn. lia.
  - subst m. induction added as [|d ds IH] using rev_ind; [reflexivity|].
    rewrite record_snoc. unfold add_decision.
    rewrite record_max_history, IH.
    replace (0 <? Z.of_nat (List.length (ds ++ [d]))) with true.
    + cbn [decisions]. unfold slice_from. cbn [Z.opp Z.ltb Z.compare].
      rewrite Z.min_l by lia. reflexivity.
    + symmetry. apply Z.ltb_lt. rewrite length_app. simpl. lia.
  - induction added as [|d ds IH] using rev_ind; [reflexivity|].
    rewrite record_snoc. unfold add_decision.
    rewrite record_max_history, IH.
    replace (m <? Z.of_nat (List.length ([] ++ [d]))) with true
      by (symmetry; apply Z.ltb_lt; simpl; lia).
    cbn [decisions app]. unfold slice_from.
    replace (- m <? 0) with false by (symmetry; apply Z.ltb_ge; lia).
    cbn [List.length]. rewrite Z.min_r by lia. reflexivity.
Qed.

Lemma history_keeps_the_last_max_history_decisions_witness :
  decisions
    (record 2 [Examples.decision 1; Examples.decision 2; Examples.decision 3])
  = [Examples.decision 2; Examples.decision 3]
  /\ decisions
       (record 0 [Examples.decision 1; Examples.decision 2; Examples.decision 3])
     = [Examples.decision 1; Examples.decision 2; Examples.decision 3]
  /\ decisions
       (record (-1)
          [Examples.decision 1; Examples.decision 2; Examples.decision 3])
     = [].
Proof.
  destruct (history_keeps_the_last_max_history_decisions 2
              [Examples.decision 1; Examples.decision 2; Examples.decision 3])
    as ((H2 & _) & _); [lia|].
  destruct (history_keeps_the_last_max_history_decisions 0
              [Examples.decision 1; Examples.decision 2; Examples.decision 3])
    as (_ & H0 & _).
  destruct (history_keeps_the_last_max_history_decisions (-1)
              [Examples.decision 1; Examples.decision 2; Examples.decision 3])
    as (_ & _ & Hn).
  split; [exact H2|]. split; [apply H0; reflexivity | apply Hn; lia].
Defined.

(** [get_recent_decisions(count)] returns the last [count] decisions of
    the history, oldest first, or all of them when there are fewer.  Asked
    for 0 decisions it returns the whole history, not the empty list; and
    a negative [count] drops that many of the oldest decisions. *)
Theorem get_recent_decisions_returns_a_suffix :
  forall self count,
    (0 < count ->
     get_recent_decisions self count
     = skipn (List.length (decisions self) - Z.to_nat count) (decisions self)
     /\ Z.of_nat (List.length (get_recent_decisions self count))
        = Z.min count (Z.of_nat (List.length (decisions self))))
    /\ (count = 0 -> get_recent_decisions self count = decisions self)
    /\ (count < 0 ->
        get_recent_decisions self count
        = skipn (Z.to_nat (- count)) (decisions self)).
Proof.
  intros self count. unfold get_recent_decisions. split; [|split]; intro C.
  - rewrite slice_from_neg by exact C. split; [reflexivity|].
    rewrite length_skipn. lia.
  - subst count. unfold slice_from. cbn [Z.opp Z.ltb Z.compare].
    rewrite Z.min_l by lia. reflexivity.
  - unfold slice_from.
    replace (- count <? 0) with false by (symmetry; apply Z.ltb_ge; lia).
    destruct (Z.le_gt_cases (- count) (Z.of_nat (List.length (decisions self))))
      as [Le|Gt].
    + rewrite Z.min_l by lia. reflexivity.
    + rewrite Z.min_r by lia. rewrite Nat2Z.id.
      rewrite skipn_all. symmetry. apply skipn_all2. lia.
Qed.

Lemma get_recent_decisions_returns_a_suffix_witness :
  get_recent_decisions
    (mkDecisionHistory
       [Examples.decision 1; Examples.decision 2; Examples.decision 3] 1000) 2
  = [Examples.decision 2; Examples.decision 3]
  /\ get_recent_decisions
       (mkDecisionHistory
          [Examples.decision 1; Examples.decision 2; Examples.decision 3] 1000)
       0
     = [Examples.decision 1; Examples.decision 2; Examples.decision 3].
Proof.
  destruct (get_recent_decisions_returns_a_suffix
              (mkDecisionHistory
                 [Examples.decision 1; Examples.decision 2;
                  Examples.decision 3] 1000) 2) as ((H2 & _) & _); [lia|].
  destruct (get_recent_decisions_returns_a_suffix
              (mkDecisionHistory
                 [Examples.decision 1; Examples.decision 2;
                  Examples.decision 3] 1000) 0) as (_ & H0 & _).
  split; [exact H2 | apply H0; reflexivity].
Defined.

Lemma tally_snoc (made : list Decision) (d : Decision) :
  tally (made ++ [d]) = (s <- tally made ;; _update_stats s d).
Proof. unfold tally. now rewrite fold_left_app. Qed.

Lemma total_confidence_snoc (made : list Decision) (d : Decision) :
  (total_confidence (made ++ [d]) == total_confidence made + confidence d)%Q.
Proof.
  induction made as [|x t IH]; simpl.
  - ring.
  - rewrite IH. ring.
Qed.

(** The statistics of a new manager never fail to update, count the
    decisions made, and hold the arithmetic mean of their confidences:
    the running average of [_update_stats] is the plain average. *)
Theorem average_confidence_is_the_mean :
  forall made,
    exists stats,
      tally made = Ok stats
      /\ decisions_made stats = Z.of_nat (List.length made)
      /\ (average_confidence stats * inject_Z (Z.of_nat (List.length made))
          == total_confidence made)%Q
      /\ voice_outputs stats = 0 /\ overlay_updates stats = 0
      /\ api_calls stats = 0.
Proof.
  induction made as [|d ds IH] using rev_ind.
  - exists new_stats. simpl. repeat split; reflexivity.
  - destruct IH as (s & E & N & A & V & O & P).
    rewrite tally_snoc, E. cbn [Py.bind]. unfold _update_stats.
    rewrite N. rewrite length_app. cbn [List.length].
    destruct (Z.of_nat (List.length ds) + 1 =? 0) eqn:Z0;
      [apply Z.eqb_eq in Z0; lia|].
    eexists. split; [reflexivity|].
    cbn [decisions_made average_confidence voice_outputs overlay_updates
           api_calls].
    split; [lia|]. split; [|auto].
    rewrite total_confidence_snoc, <- A.
    replace (Z.of_nat (List.length ds + 1)) with (Z.of_nat (List.length ds) + 1)
      by lia.
    rewrite inject_Z_plus. change (inject_Z 1) with 1%Q.
    set (n := inject_Z (Z.of_nat (List.length ds))).
    assert (Pn : (0 <= n)%Q).
    { unfold n. change 0%Q with (inject_Z 0). rewrite <- Zle_Qle. lia. }
    field. lra.
Qed.

End DecisionLog.

(** ** What the capture loop leaves in the queue *)

Section CaptureQueue.
Import ScreenCapture.

Lemma skipn_succ_snoc {A} (l : list A) (x : A) (k : nat) :
  (k < List.length l)%nat ->
  skipn (S k) (l ++ [x]) = tl (skipn k l) ++ [x].
Proof.
  revert l. induction k as [|k IH]; intros [|y t] L; simpl in L; try lia.
  - reflexivity.
  - cbn [skipn app]. change (skipn (S k) (t ++ [x]) = tl (skipn k t) ++ [x]).
    apply IH. lia.
Qed.

(** The capture loop, started on a new engine and left to run alone,
    keeps in the queue the last [max_queue_size] results of the backend,
    oldest first, failed captures included; with a capacity of 0 or less
    the queue is unbounded and keeps them all.  The capture counter
    counts the results and the error counter the failed ones: making room
    in a full queue never counts as an error. *)
Theorem capture_loop_keeps_the_last_results :
  forall max_queue_size results,
    run_captures (init max_queue_size) results
    = mkEngine
        (mkQueue max_queue_size
           (if 0 <? max_queue_size
            then skipn (List.length results - Z.to_nat max_queue_size) results
            else results))
        (Z.of_nat (List.length results))
        (Z.of_nat (List.length (filter (fun r => negb (success r)) results))).
Proof.
  intros m results. induction results as [|r rs IH] using rev_ind.
  - unfold run_captures, init. simpl. destruct (0 <? m); reflexivity.
  - rewrite run_captures_snoc, IH. clear IH.
    unfold _capture_loop_pass, put_nowait, get_nowait, qsize.
    cbn [_frame_queue _capture_count _error_count maxsize items].
    rewrite filter_app, !length_app. cbn [filter List.length].
    assert (C : Z.of_nat (List.length rs) + 1
                = Z.of_nat (List.length rs + 1)) by lia.
    assert (E : (if negb (success r)
                 then Z.of_nat (List.length
                                  (filter (fun r => negb (success r)) rs)) + 1
                 else Z.of_nat (List.length
                                  (filter (fun r => negb (success r)) rs)))
                = Z.of_nat (List.length (filter (fun r => negb (success r)) rs)
                            + List.length (if negb (success r) then [r] else []))).
    { destruct (negb (success r)); simpl; lia. }
    destruct (0 <? m) eqn:M; cbn [andb].
    + pose proof M as Mb. apply Z.ltb_lt in M. rewrite length_skipn.
      destruct (m <=? _) eqn:F.
      * apply Z.leb_le in F.
        destruct (skipn (List.length rs - Z.to_nat m) rs) as [|y t] eqn:Sk.
        { exfalso. assert (X := length_skipn (List.length rs - Z.to_nat m) rs).
          rewrite Sk in X. simpl in X. lia. }
        cbn [maxsize items].
        assert (Lt : List.length t = (Z.to_nat m - 1)%nat).
        { assert (X := length_skipn (List.length rs - Z.to_nat m) rs).
          rewrite Sk in X. simpl in X. lia. }
        replace (m <=? Z.of_nat (List.length t)) with false
          by (symmetry; apply Z.leb_gt; lia).
        rewrite Mb. cbn [andb]. rewrite C, E. f_equal. f_equal.
        replace (List.length rs + 1 - Z.to_nat m)%nat
          with (S (List.length rs - Z.to_nat m)) by lia.
        rewrite skipn_succ_snoc by lia. now rewrite Sk.
      * apply Z.leb_gt in F. rewrite C, E. f_equal. f_equal.
        replace (List.length rs - Z.to_nat m)%nat with 0%nat by lia.
        replace (List.length rs + 1 - Z.to_nat m)%nat with 0%nat by lia.
        reflexivity.
    + rewrite C, E. reflexivity.
Qed.

End CaptureQueue.

(** ** Suppression of overlapping detections *)

Section Suppression.
Import AIEngine CardDetector Detection.

(** [_calculate_overlap] is symmetric and always a ratio between 0 and
    1, whatever the boxes, also with negative sizes: it is 0 unless the
    boxes share a region of positive area, and 1 for two detections of
    one and the same box of positive area. *)
Theorem calculate_overlap_is_a_symmetric_ratio :
  forall det1 det2,
    _calculate_overlap det1 det2 = _calculate_overlap det2 det1
    /\ (0 <= _calculate_overlap det1 det2)%Q
    /\ (_calculate_overlap det1 det2 <= 1)%Q
    /\ (forall x y w h,
          bounding_box det1 = (x, y, w, h) ->
          bounding_box det2 = (x, y, w, h) ->
          0 < w -> 0 < h ->
          (_calculate_overlap det1 det2 == 1)%Q).
Proof.
  intros d1 d2. unfold _calculate_overlap.
  destruct (bounding_box d1) as [[[x1 y1] w1] h1].
  destruct (bounding_box d2) as [[[x2 y2] w2] h2].
  split; [|split; [|split]].
  - rewrite (Z.max_comm x2 x1), (Z.max_comm y2 y1),
      (Z.min_comm (x2 + w2) (x1 + w1)), (Z.min_comm (y2 + h2) (y1 + h1)),
      (Z.add_comm (w2 * h2) (w1 * h1)).
    reflexivity.
  - destruct ((Z.max x1 x2 <? Z.min (x1 + w1) (x2 + w2))
              && (Z.max y1 y2 <? Z.min (y1 + h1) (y2 + h2))) eqn:C;
      [|apply Qle_refl].
    apply andb_true_iff in C. rewrite !Z.ltb_lt in C. destruct C as [Cx Cy].
    destruct (0 <? _) eqn:U; [|apply Qle_refl]. apply Z.ltb_lt in U.
    apply Qle_shift_div_l.
    + change 0%Q with (inject_Z 0). rewrite <- Zlt_Qlt. exact U.
    + rewrite Qmult_0_l. change 0%Q with (inject_Z 0). rewrite <- Zle_Qle. nia.
  - destruct ((Z.max x1 x2 <? Z.min (x1 + w1) (x2 + w2))
              && (Z.max y1 y2 <? Z.min (y1 + h1) (y2 + h2))) eqn:C;
      [|discriminate].
    apply andb_true_iff in C. rewrite !Z.ltb_lt in C. destruct C as [Cx Cy].
    destruct (0 <? _) eqn:U; [|discriminate]. apply Z.ltb_lt in U.
    apply Qle_shift_div_r.
    + change 0%Q with (inject_Z 0). rewrite <- Zlt_Qlt. exact U.
    + rewrite Qmult_1_l, <- Zle_Qle.
      set (a := Z.min (x1 + w1) (x2 + w2) - Z.max x1 x2) in *.
      set (b := Z.min (y1 + h1) (y2 + h2) - Z.max y1 y2) in *.
      assert (0 < a /\ a <= w1 /\ a <= w2) as (A0 & A1 & A2) by (unfold a; lia).
      assert (0 < b /\ b <= h1 /\ b <= h2) as (B0 & B1 & B2) by (unfold b; lia).
      clearbody a b.
      assert (a * b <= w1 * h1) by nia.
      assert (a * b <= w2 * h2) by nia.
      lia.
  - intros x y w h [= -> -> -> ->] [= -> -> -> ->] W H.
    rewrite !Z.max_id, !Z.min_id.
    replace (x + w - x) with w by lia. replace (y + h - y) with h by lia.
    replace (x <? x + w) with true by (symmetry; apply Z.ltb_lt; lia).
    replace (y <? y + h) with true by (symmetry; apply Z.ltb_lt; lia).
    cbn [andb]. replace (w * h + w * h - w * h) with (w * h) by lia.
    replace (0 <? w * h) with true by (symmetry; apply Z.ltb_lt; nia).
    apply Qmult_inv_r.
    change 0%Q with (inject_Z 0). rewrite inject_Z_injective. nia.
Qed.

Lemma calculate_overlap_is_a_symmetric_ratio_witness :
  (_calculate_overlap Samples.ace_yolo Samples.ace_yolo == 1)%Q.
Proof.
  destruct (calculate_overlap_is_a_symmetric_ratio
              Samples.ace_yolo Samples.ace_yolo) as (_ & _ & _ & H).
  eapply H; reflexivity.
Defined.


Lemma insert_by_confidence_permutation (d : CardDetectionResult)
    (l : list CardDetectionResult) :
  Permutation (insert_by_confidence d l) (d :: l).
Proof.
  induction l as [|e t IH]; simpl; [reflexivity|].
  destruct (Qgtb (confidence e) (confidence d)); [|reflexivity].
  rewrite IH. apply perm_swap.
Qed.

Lemma sort_by_confidence_permutation (l : list CardDetectionResult) :
  Permutation (sort_by_confidence l) l.
Proof.
  induction l as [|d t IH]; simpl; [reflexivity|].
  rewrite insert_by_confidence_permutation. now constructor.
Qed.

Lemma insert_by_confidence_sorted (d : CardDetectionResult)
    (l : list CardDetectionResult) :
  StronglySorted (fun a b => (confidence b <= confidence a)%Q) l ->
  StronglySorted (fun a b => (confidence b <= confidence a)%Q)
    (insert_by_confidence d l).
Proof.
  induction 1 as [|e t St IH Fe]; simpl.
  - repeat constructor.
  - destruct (Qgtb (confidence e) (confidence d)) eqn:C.
    + apply Qgtb_true in C. constructor; [exact IH|].
      eapply Permutation_Forall.
      * symmetry. apply insert_by_confidence_permutation.
      * constructor; [lra | exact Fe].
    + apply Qgtb_false in C. constructor; [constructor; assumption|].
      constructor; [exact C|].
      eapply Forall_impl; [|exact Fe]. intros z Hz. simpl in Hz. lra.
Qed.

Lemma sort_by_confidence_sorted (l : list CardDetectionResult) :
  StronglySorted (fun a b => (confidence b <= confidence a)%Q)
    (sort_by_confidence l).
Proof.
  induction l as [|d t IH]; simpl; [constructor|].
  now apply insert_by_confidence_sorted.
Qed.

Lemma ForallOrdPairs_snoc {A} (R : A -> A -> Prop) (l : list A) (x : A) :
  ForallOrdPairs R l -> Forall (fun a => R a x) l ->
  ForallOrdPairs R (l ++ [x]).
Proof.
  induction 1 as [|a t Fa Ft IH]; intro F; simpl.
  - repeat constructor.
  - inversion F as [|? ? Ra Ft']; subst. constructor.
    + apply Forall_app. split; [exact Fa | now constructor].
    + apply IH. exact Ft'.
Qed.

Lemma StronglySorted_snoc {A} (R : A -> A -> Prop) (l : list A) (x : A) :
  StronglySorted R l -> Forall (fun a => R a x) l ->
  StronglySorted R (l ++ [x]).
Proof.
  induction 1 as [|a t St IH Fa]; intro F; simpl.
  - repeat constructor.
  - inversion F as [|? ? Ra Ft]; subst. constructor.
    + apply IH. exact Ft.
    + apply Forall_app. split; [exact Fa | now constructor].
Qed.

(** The loop of [_non_max_suppression], from any list [filtered] of
    accepted detections that dominate the ones still to come. *)
Lemma accept_loop (overlap_threshold : Q) (rest : list CardDetectionResult) :
  forall filtered,
    ForallOrdPairs
      (fun a b => (_calculate_overlap b a <= overlap_threshold)%Q) filtered ->
    StronglySorted (fun a b => (confidence b <= confidence a)%Q) filtered ->
    Forall (fun a => Forall (fun d => (confidence d <= confidence a)%Q) rest)
      filtered ->
    StronglySorted (fun a b => (confidence b <= confidence a)%Q) rest ->
    let kept := fold_left (accept overlap_threshold) rest filtered in
    ForallOrdPairs
      (fun a b => (_calculate_overlap b a <= overlap_threshold)%Q) kept
    /\ StronglySorted (fun a b => (confidence b <= confidence a)%Q) kept
    /\ incl filtered kept
    /\ incl kept (filtered ++ rest)
    /\ forall d,
         In d rest ->
         In d kept
         \/ exists a,
              In a kept
              /\ (overlap_threshold < _calculate_overlap d a)%Q
              /\ (confidence d <= confidence a)%Q.
Proof.
  induction rest as [|d rest IH]; intros acc H1 H2 H3 H4; cbn [fold_left].
  - split; [exact H1|]. split; [exact H2|]. split; [apply incl_refl|].
    split; [rewrite app_nil_r; apply incl_refl|]. intros d [].
  - inversion H4 as [|? ? S4 F4]; subst.
    assert (D : Forall (fun a =>
                          Forall (fun x => (confidence x <= confidence a)%Q)
                            rest) acc).
    { eapply Forall_impl; [|exact H3]. intros a Ha. now inversion Ha. }
    assert (Dd : Forall (fun a => (confidence d <= confidence a)%Q) acc).
    { eapply Forall_impl; [|exact H3]. intros a Ha. now inversion Ha. }
    destruct (existsb
                (fun accepted =>
                   Qgtb (_calculate_overlap d accepted) overlap_threshold)
                acc) eqn:E.
    + assert (A : accept overlap_threshold acc d = acc)
        by (unfold accept; now rewrite E).
      rewrite A.
      destruct (IH acc H1 H2 D S4) as (C1 & C2 & C3 & C4 & C5).
      split; [exact C1|]. split; [exact C2|]. split; [exact C3|].
      split.
      * intros x Hx. apply C4 in Hx. apply in_app_or in Hx.
        apply in_or_app. destruct Hx; [now left | right; now right].
      * intros x [<-|Hx]; [|now apply C5].
        right. apply existsb_exists in E. destruct E as (a & Ia & Oa).
        apply Qgtb_true in Oa. exists a. split; [now apply C3|].
        split; [exact Oa|]. rewrite Forall_forall in Dd. now apply Dd.
    + assert (N : Forall (fun a =>
                            (_calculate_overlap d a <= overlap_threshold)%Q)
                    acc).
      { apply Forall_forall. intros a Ia. apply Qgtb_false.
        destruct (Qgtb (_calculate_overlap d a) overlap_threshold) eqn:G;
          [|reflexivity].
        assert (X : existsb
                      (fun accepted =>
                         Qgtb (_calculate_overlap d accepted)
                           overlap_threshold) acc = true)
          by (apply existsb_exists; eauto).
        congruence. }
      assert (A : accept overlap_threshold acc d = acc ++ [d])
        by (unfold accept; now rewrite E).
      rewrite A.
      destruct (IH (acc ++ [d])) as (C1 & C2 & C3 & C4 & C5).
      * apply ForallOrdPairs_snoc; assumption.
      * apply StronglySorted_snoc; assumption.
      * apply Forall_app. split; [exact D|]. constructor; [exact F4|constructor].
      * exact S4.
      * split; [exact C1|]. split; [exact C2|].
        split; [intros x Hx; apply C3, in_or_app; now left|].
        split.
        -- intros x Hx. apply C4 in Hx. rewrite <- app_assoc in Hx. exact Hx.
        -- intros x [<-|Hx]; [|now apply C5].
           left. apply C3, in_or_app. right. now left.
Qed.

(** [_non_max_suppression] keeps detections of its input only, in
    descending order of confidence, no two of which overlap by more than
    the threshold; and it loses no card region: every detection of the
    input is kept, or overlaps by more than the threshold with a kept
    detection that is at least as confident. *)
Theorem non_max_suppression_keeps_a_cover :
  forall detections overlap_threshold,
    let kept := _non_max_suppression detections overlap_threshold in
    incl kept detections
    /\ ForallOrdPairs
         (fun a b => (_calculate_overlap b a <= overlap_threshold)%Q) kept
    /\ StronglySorted (fun a b => (confidence b <= confidence a)%Q) kept
    /\ (forall d,
          In d detections ->
          In d kept
          \/ exists a,
               In a kept
               /\ (overlap_threshold < _calculate_overlap d a)%Q
               /\ (confidence d <= confidence a)%Q).
Proof.
  intros detections thr kept. subst kept. unfold _non_max_suppression.
  destruct detections as [|d0 ds].
  - split; [apply incl_refl|]. split; [constructor|]. split; [constructor|].
    intros x [].
  - set (l := d0 :: ds).
    destruct (accept_loop thr (sort_by_confidence l) []
                (FOP_nil _) (SSorted_nil _) (Forall_nil _)
                (sort_by_confidence_sorted l))
      as (C1 & C2 & _ & C4 & C5).
    split.
    { intros x Hx. apply C4 in Hx. cbn [app] in Hx.
      eapply Permutation_in; [apply sort_by_confidence_permutation | exact Hx]. }
    split; [exact C1|]. split; [exact C2|].
    intros d Hd. apply C5.
    eapply Permutation_in; [symmetry; apply sort_by_confidence_permutation|].
    exact Hd.
Qed.

Lemma non_max_suppression_keeps_a_cover_witness :
  In Samples.ace_template
    (_non_max_suppression [Samples.ace_yolo; Samples.ace_template] (1 # 2))
  \/ exists a,
       In a (_non_max_suppression [Samples.ace_yolo; Samples.ace_template]
               (1 # 2))
       /\ (1 # 2 < _calculate_overlap Samples.ace_template a)%Q
       /\ (confidence Samples.ace_template <= confidence a)%Q.
Proof.
  apply (non_max_suppression_keeps_a_cover
           [Samples.ace_yolo; Samples.ace_template] (1 # 2)).
  right. left. reflexivity.
Defined.

End Suppression.

(** ** The detections returned and the statistics kept *)

Section Detections.
Import AIEngine CardDetector Detection.

Lemma insert_by_x_permutation (d : CardDetectionResult)
    (l : list CardDetectionResult) :
  Permutation (insert_by_x d l) (d :: l).
Proof.
  induction l as [|e t IH]; simpl; [reflexivity|].
  destruct (fst (position e) <? fst (position d)); [|reflexivity].
  rewrite IH. apply perm_swap.
Qed.

Lemma sort_by_x_permutation (l : list CardDetectionResult) :
  Permutation (sort_by_x l) l.
Proof.
  induction l as [|d t IH]; simpl; [reflexivity|].
  rewrite insert_by_x_permutation. now constructor.
Qed.

Lemma insert_by_x_sorted (d : CardDetectionResult)
    (l : list CardDetectionResult) :
  StronglySorted (fun a b => fst (position a) <= fst (position b)) l ->
  StronglySorted (fun a b => fst (position a) <= fst (position b))
    (insert_by_x d l).
Proof.
  induction 1 as [|e t St IH Fe]; simpl.
  - repeat constructor.
  - destruct (Z.ltb_spec (fst (position e)) (fst (position d))) as [C|C].
    + constructor; [exact IH|].
      eapply Permutation_Forall.
      * symmetry. apply insert_by_x_permutation.
      * constructor; [lia | exact Fe].
    + constructor; [constructor; assumption|].
      constructor; [exact C|].
      eapply Forall_impl; [|exact Fe]. intros z Hz. simpl in Hz. lia.
Qed.

Lemma sort_by_x_sorted (l : list CardDetectionResult) :
  StronglySorted (fun a b => fst (position a) <= fst (position b))
    (sort_by_x l).
Proof.
  induction l as [|d t IH]; simpl; [constructor|].
  now apply insert_by_x_sorted.
Qed.

Lemma firstn_dominates_skipn {A} (R : A -> A -> Prop) (l : list A) :
  StronglySorted R l ->
  forall n a b, In a (firstn n l) -> In b (skipn n l) -> R a b.
Proof.
  induction 1 as [|x t St IH Fx]; intros [|n] a b Ha Hb; simpl in *;
    try contradiction.
  destruct Ha as [<-|Ha].
  - rewrite Forall_forall in Fx. apply Fx.
    rewrite <- (firstn_skipn n t). apply in_or_app. now right.
  - now apply (IH n).
Qed.

Lemma firstn_sorted {A} (R : A -> A -> Prop) (l : list A) (n : nat) :
  StronglySorted R l -> StronglySorted R (firstn n l).
Proof.
  intro S. revert n. induction S as [|x t St IH Fx]; intros [|n]; simpl;
    try constructor.
  - apply IH.
  - rewrite Forall_forall in *. intros y Hy. apply Fx.
    rewrite <- (firstn_skipn n t). apply in_or_app. now left.
Qed.

Lemma filter_length_le {A} (f : A -> bool) (l : list A) :
  (List.length (filter f l) <= List.length l)%nat.
Proof.
  induction l as [|x t IH]; simpl; [lia|]. destruct (f x); simpl; lia.
Qed.

Lemma update_stats_counts (stats : Stats) (found : list CardDetectionResult) :
  total_detections (_update_stats stats found)
  = total_detections stats + len found
  /\ yolo_detections (_update_stats stats found) = yolo_detections stats
  /\ template_detections (_update_stats stats found)
     = template_detections stats
  /\ hybrid_detections (_update_stats stats found) = hybrid_detections stats.
Proof. unfold _update_stats. destruct found; simpl; auto. Qed.

Lemma filter_and_sort (raw : list CardDetectionResult) :
  Forall (fun d => (7 # 10 <= confidence d)%Q)
    (sort_by_confidence
       (filter (fun d => Qle_bool min_confidence (confidence d)) raw))
  /\ StronglySorted (fun a b => (confidence b <= confidence a)%Q)
       (sort_by_confidence
          (filter (fun d => Qle_bool min_confidence (confidence d)) raw))
  /\ Permutation
       (sort_by_confidence
          (filter (fun d => Qle_bool min_confidence (confidence d)) raw))
       (filter (fun d => Qle_bool min_confidence (confidence d)) raw)
  /\ len (sort_by_confidence
            (filter (fun d => Qle_bool min_confidence (confidence d)) raw))
     <= len raw.
Proof.
  split; [|split; [|split]].
  - eapply Permutation_Forall.
    + symmetry. apply sort_by_confidence_permutation.
    + apply Forall_forall. intros d Hd. apply filter_In in Hd.
      apply Qle_bool_iff. exact (proj2 Hd).
  - apply sort_by_confidence_sorted.
  - apply sort_by_confidence_permutation.
  - unfold len.
    rewrite (Permutation_length (sort_by_confidence_permutation _)).
    pose proof (filter_length_le
                  (fun d => Qle_bool min_confidence (confidence d)) raw).
    lia.
Qed.

Lemma detect_cards_found (yolo_detector :
      option (option (Z * Z * Z * Z) -> list CardDetectionResult))
    (template_detector : option (Z * Z * Z * Z) -> list CardDetectionResult)
    (stats : Stats) (roi : option (Z * Z * Z * Z)) (method : string) :
  Forall (fun d => (7 # 10 <= confidence d)%Q)
    (fst (detect_cards yolo_detector template_detector stats roi method))
  /\ StronglySorted (fun a b => (confidence b <= confidence a)%Q)
       (fst (detect_cards yolo_detector template_detector stats roi method)).
Proof.
  unfold detect_cards.
  destruct (if String.eqb method "yolo" then yolo_detector else None);
    [|destruct (String.eqb method "template")]; cbn [fst];
    split; apply filter_and_sort.
Qed.

(** What [detect_cards] returns, whatever the engines find: only
    detections of confidence 0.7 or more, the most confident first, and
    [total_detections] grows by their number.  They are the detections
    of the engine that the method chooses, those that pass this filter:
    "yolo" with a YOLO model asks that model alone and counts what it
    found, before the filter, in [yolo_detections]; "template" asks the
    template engine alone and counts in [template_detections]; every
    other method, and "yolo" without a model, merges the detections of
    the model, if there is one, and of the template engine, and counts
    the merged detections in [hybrid_detections].  The other two
    counters are left as they were, so the total never grows faster than
    the counters of the methods. *)
Theorem detect_cards_filters_and_sorts :
  forall yolo_detector template_detector stats roi method,
    let out := detect_cards yolo_detector template_detector stats roi method in
    let passes raw :=
      Permutation (fst out)
        (filter (fun d => Qle_bool min_confidence (confidence d)) raw)
      /\ len (fst out) <= len raw in
    let counted yolo template hybrid :=
      yolo_detections (snd out) = yolo_detections stats + yolo
      /\ template_detections (snd out) = template_detections stats + template
      /\ hybrid_detections (snd out) = hybrid_detections stats + hybrid in
    Forall (fun d => (7 # 10 <= confidence d)%Q) (fst out)
    /\ StronglySorted (fun a b => (confidence b <= confidence a)%Q) (fst out)
    /\ total_detections (snd out) = total_detections stats + len (fst out)
    /\ (forall detect,
          yolo_detector = Some detect -> method = "yolo" ->
          passes (detect roi) /\ counted (len (detect roi)) 0 0)
    /\ (method = "template" ->
        passes (template_detector roi)
        /\ counted 0 (len (template_detector roi)) 0)
    /\ (forall detect,
          yolo_detector = Some detect ->
          method <> "yolo" -> method <> "template" ->
          passes (_merge_detections (detect roi ++ template_detector roi))
          /\ counted 0 0
               (len (_merge_detections (detect roi ++ template_detector roi))))
    /\ (yolo_detector = None -> method <> "template" ->
        passes (_merge_detections (template_detector roi))
        /\ counted 0 0 (len (_merge_detections (template_detector roi)))).
Proof.
  intros yolo template stats roi method out passes counted.
  assert (Run : forall raw counter,
             out = (sort_by_confidence
                      (filter (fun d => Qle_bool min_confidence (confidence d))
                         raw),
                    _update_stats counter
                      (sort_by_confidence
                         (filter (fun d => Qle_bool min_confidence
                                             (confidence d)) raw))) ->
             passes raw
             /\ yolo_detections (snd out) = yolo_detections counter
             /\ template_detections (snd out) = template_detections counter
             /\ hybrid_detections (snd out) = hybrid_detections counter).
  { intros raw counter E. subst passes. cbv beta. rewrite E. cbn [fst snd].
    destruct (filter_and_sort raw) as (_ & _ & G3 & G4).
    destruct (update_stats_counts counter
                (sort_by_confidence
                   (filter (fun d => Qle_bool min_confidence (confidence d))
                      raw))) as (_ & U2 & U3 & U4).
    auto. }
  destruct (detect_cards_found yolo template stats roi method) as [F So].
  fold out in F, So.
  split; [exact F|]. split; [exact So|].
  split.
  { subst out. unfold detect_cards.
    destruct (if String.eqb method "yolo" then yolo else None);
      [|destruct (String.eqb method "template")]; cbn [fst snd];
      match goal with
      | |- total_detections (_update_stats ?c ?f) = _ =>
          rewrite (proj1 (update_stats_counts c f))
      end; reflexivity. }
  split; [|split; [|split]].
  - intros detect -> ->.
    destruct (Run (detect roi)
                (mkStats (total_detections stats)
                   (yolo_detections stats + len (detect roi))
                   (template_detections stats) (hybrid_detections stats)
                   (average_confidence stats)) eq_refl)
      as (P & Y & T & H).
    split; [exact P|]. subst counted. cbv beta. rewrite Y, T, H. cbn. lia.
  - intros ->.
    destruct (Run (template roi)
                (mkStats (total_detections stats) (yolo_detections stats)
                   (template_detections stats + len (template roi))
                   (hybrid_detections stats) (average_confidence stats)))
      as (P & Y & T & H).
    { subst out. unfold detect_cards. cbn [String.eqb Ascii.eqb Bool.eqb].
      reflexivity. }
    split; [exact P|]. subst counted. cbv beta. rewrite Y, T, H. cbn. lia.
  - intros detect -> Ny Nt.
    apply String.eqb_neq in Ny, Nt.
    destruct (Run (_merge_detections (detect roi ++ template roi))
                (mkStats (total_detections stats) (yolo_detections stats)
                   (template_detections stats)
                   (hybrid_detections stats
                    + len (_merge_detections (detect roi ++ template roi)))
                   (average_confidence stats)))
      as (P & Y & T & H).
    { subst out. unfold detect_cards, _hybrid_detection. rewrite Ny, Nt.
      reflexivity. }
    split; [exact P|]. subst counted. cbv beta. rewrite Y, T, H. cbn. lia.
  - intros -> Nt. apply String.eqb_neq in Nt.
    destruct (Run (_merge_detections (template roi))
                (mkStats (total_detections stats) (yolo_detections stats)
                   (template_detections stats)
                   (hybrid_detections stats
                    + len (_merge_detections (template roi)))
                   (average_confidence stats)))
      as (P & Y & T & H).
    { subst out. unfold detect_cards, _hybrid_detection. rewrite Nt.
      destruct (String.eqb method "yolo"); reflexivity. }
    split; [exact P|]. subst counted. cbv beta. rewrite Y, T, H. cbn. lia.
Qed.

Lemma detect_cards_filters_and_sorts_witness :
  fst (detect_cards (Some (fun _ => [Samples.king_yolo]))
         (fun _ => [Samples.ace_template]) new_stats None "yolo")
  = [Samples.king_yolo]
  /\ yolo_detections
       (snd (detect_cards (Some (fun _ => [Samples.king_yolo]))
               (fun _ => [Samples.ace_template]) new_stats None "yolo")) = 1
  /\ hybrid_detections
       (snd (detect_cards None (fun _ => [Samples.ace_template]) new_stats
               None "yolo")) = 1.
Proof.
  destruct (detect_cards_filters_and_sorts
              (Some (fun _ => [Samples.king_yolo]))
              (fun _ => [Samples.ace_template]) new_stats None "yolo")
    as (_ & _ & _ & Y & _).
  destruct (Y (fun _ => [Samples.king_yolo]) eq_refl eq_refl)
    as [[P _] (Cy & _)].
  destruct (detect_cards_filters_and_sorts
              None (fun _ => [Samples.ace_template]) new_stats None "yolo")
    as (_ & _ & _ & _ & _ & _ & H).
  destruct (H eq_refl) as [_ (_ & _ & Ch)]; [discriminate|].
  split; [|split; [exact Cy | exact Ch]].
  apply Permutation_length_1_inv. symmetry. exact P.
Defined.

(** [detect_hole_cards] searches a region that lies inside the image,
    at most 180 by 168 pixels, and that contains the position of the
    player when that position is inside the image.  It returns at most
    two detections, each of confidence 0.7 or more: the most confident
    ones found in the region. *)
Theorem detect_hole_cards_returns_the_two_best :
  forall yolo_detector template_detector stats h w player_position,
    let roi := hole_cards_roi h w player_position in
    let found :=
      fst (detect_cards yolo_detector template_detector stats (Some roi)
             "hybrid") in
    let cards :=
      fst (detect_hole_cards yolo_detector template_detector stats h w
             player_position) in
    (let '(x, y, roi_width, roi_height) := roi in
     0 <= x /\ 0 <= y /\ x + roi_width <= w /\ y + roi_height <= h
     /\ roi_width <= 180 /\ roi_height <= 168
     /\ (0 <= fst player_position < w -> 0 <= snd player_position < h ->
         x <= fst player_position < x + roi_width
         /\ y <= snd player_position < y + roi_height))
    /\ (List.length cards <= 2)%nat
    /\ cards = firstn 2 found
    /\ Forall (fun d => (7 # 10 <= confidence d)%Q) cards
    /\ (forall kept other,
          In kept cards -> In other (skipn 2 found) ->
          (confidence other <= confidence kept)%Q)
    /\ snd (detect_hole_cards yolo_detector template_detector stats h w
              player_position)
       = snd (detect_cards yolo_detector template_detector stats (Some roi)
                "hybrid").
Proof.
  intros yolo template stats h w [px py] roi found cards.
  assert (E : detect_hole_cards yolo template stats h w (px, py)
              = (firstn 2 found,
                 snd (detect_cards yolo template stats (Some roi) "hybrid"))).
  { unfold detect_hole_cards. fold roi. subst found.
    destruct (detect_cards yolo template stats (Some roi) "hybrid").
    reflexivity. }
  subst cards. rewrite E. cbn [fst snd].
  destruct (detect_cards_found yolo template stats (Some roi) "hybrid")
    as [F So]. fold found in F, So.
  split.
  { subst roi. unfold hole_cards_roi. cbn [fst snd].
    change (60 * 3 / 2) with 90. change (84 * 2 / 2) with 84.
    change (60 * 3) with 180. change (84 * 2) with 168. lia. }
  split; [apply firstn_le_length|]. split; [reflexivity|].
  split.
  { apply Forall_forall. intros d Hd. apply firstn_In in Hd.
    rewrite Forall_forall in F. now apply F. }
  split; [|reflexivity].
  intros kept other Hk Ho.
  exact (firstn_dominates_skipn _ found So 2 kept other Hk Ho).
Qed.

Lemma detect_hole_cards_returns_the_two_best_witness :
  let '(x, y, roi_width, roi_height) := hole_cards_roi 600 800 (790, 20) in
  x <= 790 < x + roi_width /\ y <= 20 < y + roi_height.
Proof.
  destruct (detect_hole_cards_returns_the_two_best
              None (fun _ => []) new_stats 600 800 (790, 20)) as (R & _).
  destruct (hole_cards_roi 600 800 (790, 20)) as [[[x y] rw] rh].
  destruct R as (_ & _ & _ & _ & _ & _ & R). apply R; simpl; lia.
Defined.

(** [detect_community_cards] returns at most five detections, each of
    confidence 0.7 or more, from left to right: the five leftmost of
    those found in the area, whatever their confidence beyond 0.7. *)
Theorem detect_community_cards_returns_the_five_leftmost :
  forall yolo_detector template_detector stats community_area,
    let found :=
      fst (detect_cards yolo_detector template_detector stats
             (Some community_area) "hybrid") in
    let cards :=
      fst (detect_community_cards yolo_detector template_detector stats
             community_area) in
    (List.length cards <= 5)%nat
    /\ Forall (fun d => (7 # 10 <= confidence d)%Q) cards
    /\ StronglySorted (fun a b => fst (position a) <= fst (position b)) cards
    /\ (exists dropped,
          Permutation (cards ++ dropped) found
          /\ forall kept other,
               In kept cards -> In other dropped ->
               fst (position kept) <= fst (position other))
    /\ ((List.length found <= 5)%nat -> Permutation cards found).
Proof.
  intros yolo template stats area found cards.
  assert (E : cards = firstn 5 (sort_by_x found)).
  { subst cards found. unfold detect_community_cards.
    destruct (detect_cards yolo template stats (Some area) "hybrid").
    reflexivity. }
  rewrite E. clear E cards.
  destruct (detect_cards_found yolo template stats (Some area) "hybrid")
    as [F _]. fold found in F.
  pose proof (sort_by_x_permutation found) as P.
  pose proof (sort_by_x_sorted found) as So.
  split; [apply firstn_le_length|]. split.
  { apply Forall_forall. intros d Hd. apply firstn_In in Hd.
    rewrite Forall_forall in F. apply F.
    eapply Permutation_in; [exact P | exact Hd]. }
  split; [now apply firstn_sorted|]. split.
  - exists (skipn 5 (sort_by_x found)). split.
    + rewrite firstn_skipn. exact P.
    + intros kept other Hk Ho.
      exact (firstn_dominates_skipn _ _ So 5 kept other Hk Ho).
  - intro L. rewrite firstn_all2; [exact P|].
    now rewrite (Permutation_length P).
Qed.

Lemma detect_community_cards_returns_the_five_leftmost_witness :
  Permutation
    (fst (detect_community_cards None
            (fun _ => [Samples.ace_template; Samples.king_yolo]) new_stats
            (0, 0, 100, 100)))
    (fst (detect_cards None
            (fun _ => [Samples.ace_template; Samples.king_yolo]) new_stats
            (Some (0, 0, 100, 100)) "hybrid")).
Proof.
  apply (detect_community_cards_returns_the_five_leftmost None
           (fun _ => [Samples.ace_template; Samples.king_yolo]) new_stats
           (0, 0, 100, 100)).
  vm_compute. lia.
Defined.

Lemma sum_confidence_from (l : list CardDetectionResult) :
  forall acc,
    (fold_left (fun acc d => acc + confidence d) l acc
     == acc + sum_confidence l)%Q.
Proof.
  unfold sum_confidence.
  induction l as [|d t IH]; intro acc; cbn [fold_left].
  - ring.
  - rewrite (IH (acc + confidence d)%Q), (IH (0 + confidence d)%Q). ring.
Qed.

Lemma sum_confidence_app (a b : list CardDetectionResult) :
  (sum_confidence (a ++ b) == sum_confidence a + sum_confidence b)%Q.
Proof.
  unfold sum_confidence at 1. rewrite fold_left_app.
  rewrite sum_confidence_from. reflexivity.
Qed.

Lemma detection_tally_snoc (batches : list (list CardDetectionResult))
    (b : list CardDetectionResult) :
  tally (batches ++ [b]) = _update_stats (tally batches) b.
Proof. unfold tally. now rewrite fold_left_app. Qed.

(** The statistics of a new detector, after any run of [_update_stats],
    count the detections of all batches and hold the arithmetic mean of
    their confidences: the weighted running average is the plain average,
    and a batch without detections changes nothing. *)
Theorem detection_average_is_the_mean :
  forall batches,
    total_detections (tally batches) = len (List.concat batches)
    /\ (average_confidence (tally batches)
        * inject_Z (len (List.concat batches))
        == sum_confidence (List.concat batches))%Q
    /\ tally (batches ++ [[]]) = tally batches.
Proof.
  intro batches.
  assert (I : total_detections (tally batches) = len (List.concat batches)
              /\ (average_confidence (tally batches)
                  * inject_Z (len (List.concat batches))
                  == sum_confidence (List.concat batches))%Q).
  { induction batches as [|b bs IH] using rev_ind.
    - split; reflexivity.
    - destruct IH as [T A]. rewrite detection_tally_snoc, concat_app.
      cbn [List.concat]. rewrite app_nil_r.
      assert (Ln : len (List.concat bs ++ b) = len (List.concat bs) + len b).
      { unfold len. rewrite length_app. lia. }
      assert (N0 : 0 <= len (List.concat bs)) by (unfold len; lia).
      rewrite Ln, sum_confidence_app, <- A.
      unfold _update_stats. rewrite T.
      destruct b as [|d t].
      + cbn [total_detections average_confidence].
        change (len []) with 0. rewrite !Z.add_0_r.
        split; [reflexivity|]. unfold sum_confidence. simpl. ring.
      + set (b := d :: t) in *.
        assert (Lb : 0 < len b) by (unfold len, b; simpl; lia).
        cbn [total_detections average_confidence]. split; [reflexivity|].
        set (n := len (List.concat bs)) in *.
        assert (Pb : ~ (inject_Z (len b) == 0)%Q).
        { change 0%Q with (inject_Z 0). rewrite inject_Z_injective. lia. }
        assert (Pt : ~ (inject_Z (n + len b) == 0)%Q).
        { change 0%Q with (inject_Z 0). rewrite inject_Z_injective. lia. }
        destruct (Z.ltb_spec (len b) (n + len b)) as [C|C].
        * replace (n + len b - len b) with n by lia. field. auto.
        * assert (n = 0) as -> by lia. cbn [Z.add].
          change (inject_Z 0) with 0%Q. field. exact Pb. }
  destruct I as [T A]. split; [exact T|]. split; [exact A|].
  rewrite detection_tally_snoc. unfold _update_stats. change (len []) with 0.
  rewrite Z.add_0_r. now destruct (tally batches).
Qed.

End Detections.

(** ** More cards to choose from *)

Section MoreCards.
Import HandEvaluator.

Lemma subsequences_trans {A} (big : list A) :
  forall small c,
    In small (Spec.subsequences big) -> In c (Spec.subsequences small) ->
    In c (Spec.subsequences big).
Proof.
  induction big as [|x t IH]; intros small c Hs Hc; cbn [Spec.subsequences] in *.
  - destruct Hs as [<-|[]]. exact Hc.
  - apply in_app_or in Hs. destruct Hs as [Hs|Hs].
    + apply in_map_iff in Hs. destruct Hs as (s' & <- & Hs').
      cbn [Spec.subsequences] in Hc. apply in_app_or in Hc.
      apply in_or_app. destruct Hc as [Hc|Hc].
      * apply in_map_iff in Hc. destruct Hc as (c' & <- & Hc').
        left. apply in_map. now apply (IH s').
      * right. now apply (IH s').
    + apply in_or_app. right. now apply (IH small).
Qed.

Lemma mapM_In {A B} (f : A -> result B) (l : list A) :
  forall ys x y, mapM f l = Ok ys -> In x l -> f x = Ok y -> In y ys.
Proof.
  induction l as [|a t IH]; intros ys x y E Hx Fx; [contradiction|].
  cbn [mapM] in E.
  destruct (f a) as [b|e] eqn:Fa; [|discriminate]. cbn [Py.bind] in E.
  destruct (mapM f t) as [bs|e] eqn:Ft; [|discriminate]. cbn [Py.bind] in E.
  inversion E; subst ys. destruct Hx as [->|Hx].
  - left. congruence.
  - right. now apply (IH bs x y).
Qed.

Lemma best_dominates_subsets (big combo : list Z) (best rank : HandRank) :
  best_loop (combinations big 5) None = Ok (Some best) ->
  In combo (Spec.five_card_subsets big) ->
  _evaluate_5_cards combo = Ok rank ->
  __lt__ best rank = false.
Proof.
  intros Eb Hc Er.
  destruct (Spec.five_card_subsets big) as [|c0 cs] eqn:F; [contradiction|].
  destruct (brute_force_maximum big (List.length cs))
    as (ranks & best' & Em & _ & Eb' & [_ Max] & _).
  { now rewrite F. }
  rewrite Eb in Eb'. inversion Eb'; subst best'. apply Max.
  rewrite F in Em. eapply mapM_In; [exact Em | exact Hc | exact Er].
Qed.

(** Cards added to a hand never lower its rank: when the cards of a
    hand are among the cards of a larger one, in the same order, the best
    rank found in the larger hand is not below the best rank found in the
    smaller, nor below the rank of any five of its cards. *)
Theorem more_cards_never_lower_the_rank :
  forall small big best_big,
    In small (Spec.subsequences big) ->
    _evaluate_7_cards big = Ok (Some best_big) ->
    (forall best_small,
       _evaluate_6_cards small = Ok (Some best_small) ->
       __lt__ best_big best_small = false)
    /\ (forall rank,
          List.length small = 5%nat -> _evaluate_5_cards small = Ok rank ->
          __lt__ best_big rank = false).
Proof.
  intros small big best_big Sub Eb. unfold _evaluate_7_cards in Eb. split.
  - intros best_small Es. unfold _evaluate_6_cards in Es.
    apply best_loop_origin in Es. destruct Es as [Es|(c & Hc & Ec)];
      [discriminate|].
    apply (best_dominates_subsets big c); [exact Eb | | exact Ec].
    rewrite combinations_are_the_subsequences in Hc.
    apply filter_In in Hc. destruct Hc as [Hc L5].
    apply filter_In. split; [|exact L5].
    now apply (subsequences_trans big small).
  - intros rank L Er.
    apply (best_dominates_subsets big small); [exact Eb | | exact Er].
    apply filter_In. split; [exact Sub | now apply Nat.eqb_eq].
Qed.

Lemma more_cards_never_lower_the_rank_witness :
  __lt__ (mkHandRank 1 [12; 11; 10; 9] "Pair of As")
    (mkHandRank 0 [12; 11; 10; 9; 7] "A high") = false.
Proof.
  apply (more_cards_never_lower_the_rank
           [0x100C; 0x200B; 0x400A; 0x8009; 0x1007]
           [0x100C; 0x200B; 0x400A; 0x8009; 0x1007; 0x200C]
           (mkHandRank 1 [12; 11; 10; 9] "Pair of As")).
  - vm_compute. auto 10.
  - vm_compute. reflexivity.
  - reflexivity.
  - vm_compute. reflexivity.
Defined.

(** Of more than seven cards [evaluate_hand] reads the first seven
    only: the cards after the seventh never change the result. *)
Theorem evaluate_hand_reads_the_first_seven_cards :
  forall cards,
    (7 <= List.length cards)%nat ->
    evaluate_hand cards = evaluate_hand (firstn 7 cards).
Proof.
  intros cards L. unfold evaluate_hand.
  assert (L7 : List.length (firstn 7 cards) = 7%nat)
    by (rewrite length_firstn; lia).
  rewrite L7. change (7 <? 5)%nat with false. change (7 =? 5)%nat with false.
  change (7 =? 6)%nat with false. change (7 =? 7)%nat with true. cbv iota.
  replace (List.length cards <? 5)%nat with false
    by (symmetry; apply Nat.ltb_ge; lia).
  replace (List.length cards =? 5)%nat with false
    by (symmetry; apply Nat.eqb_neq; lia).
  replace (List.length cards =? 6)%nat with false
    by (symmetry; apply Nat.eqb_neq; lia).
  destruct (List.length cards =? 7)%nat eqn:E7.
  - apply Nat.eqb_eq in E7. rewrite firstn_all2 by lia. reflexivity.
  - unfold _evaluate_best_7, slice. cbn [skipn Nat.sub].
    now rewrite firstn_map.
Qed.

Lemma evaluate_hand_reads_the_first_seven_cards_witness :
  evaluate_hand ["Ah"; "Kh"; "Qh"; "Jh"; "Th"; "2c"; "3d"; "As"; "Ad"]
  = evaluate_hand ["Ah"; "Kh"; "Qh"; "Jh"; "Th"; "2c"; "3d"].
Proof.
  apply (evaluate_hand_reads_the_first_seven_cards
           ["Ah"; "Kh"; "Qh"; "Jh"; "Th"; "2c"; "3d"; "As"; "Ad"]).
  simpl. lia.
Defined.

End MoreCards.

(** ** The order of the cards *)

Section CardOrder.
Import HandEvaluator.

Lemma filter_permutation {A} (f : A -> bool) (l l' : list A) :
  Permutation l l' -> Permutation (filter f l) (filter f l').
Proof.
  induction 1 as [|x l l' P IH|x y l|l l' l'' P1 IH1 P2 IH2]; simpl.
  - constructor.
  - destruct (f x); [now constructor | exact IH].
  - destruct (f x), (f y); try reflexivity. apply perm_swap.
  - now transitivity (filter f l').
Qed.

Lemma sorted_of_permuted (l l' : list Z) :
  Permutation l l' -> sorted l = sorted l'.
Proof.
  intro P. apply sorted_of_permutation; [|apply sorted_is_sorted].
  rewrite P. symmetry. apply sorted_permutation.
Qed.

Lemma sorted_reverse_of_permuted (l l' : list Z) :
  Permutation l l' -> sorted_reverse l = sorted_reverse l'.
Proof. intro P. unfold sorted_reverse. now rewrite (sorted_of_permuted l l'). Qed.

Lemma check_flush_of_permuted (cards cards' : list Z) :
  Permutation cards cards' -> _check_flush cards = _check_flush cards'.
Proof.
  intro P.
  assert (G : forall a b : list Z,
             Permutation a b ->
             forall s, _check_flush a = Some s -> _check_flush b = Some s).
  { intros a b Pab s. unfold _check_flush.
    destruct a as [|a0 ra]; [discriminate|].
    destruct b as [|b0 rb];
      [apply Permutation_sym, Permutation_nil in Pab; discriminate|].
    destruct (forallb _ ra) eqn:Fa; [|discriminate]. intros [= <-].
    rewrite forallb_forall in Fa.
    assert (A : forall c, In c (a0 :: ra) ->
                          Z.land c 0xF000 = Z.land a0 0xF000).
    { intros c [<-|Hc]; [reflexivity|]. apply Z.eqb_eq. now apply Fa. }
    assert (B : forall c, In c (b0 :: rb) ->
                          Z.land c 0xF000 = Z.land a0 0xF000).
    { intros c Hc. apply A. eapply Permutation_in; [symmetry; exact Pab|].
      exact Hc. }
    rewrite (B b0 (or_introl eq_refl)).
    replace (forallb (fun card => Z.land card 0xF000 =? Z.land a0 0xF000) rb)
      with true; [reflexivity|].
    symmetry. apply forallb_forall. intros c Hc. apply Z.eqb_eq, B. now right. }
  destruct (_check_flush cards) as [s|] eqn:E.
  - symmetry. now apply (G cards cards' P).
  - destruct (_check_flush cards') as [s|] eqn:E'; [|reflexivity].
    rewrite (G cards' cards (Permutation_sym P) s E') in E. discriminate.
Qed.

Lemma check_straight_of_permuted (cards cards' : list Z) :
  Permutation cards cards' -> _check_straight cards = _check_straight cards'.
Proof.
  intro P. unfold _check_straight, Py.set.
  assert (E : sorted (nodup Z.eq_dec (map (fun c => Z.land c 0xF) cards))
              = sorted (nodup Z.eq_dec (map (fun c => Z.land c 0xF) cards'))).
  { apply sorted_of_permuted. apply NoDup_Permutation; try apply NoDup_nodup.
    intro x. rewrite !nodup_In. split; apply Permutation_in.
    - now apply Permutation_map.
    - now apply Permutation_map, Permutation_sym. }
  now rewrite E.
Qed.

Lemma get_setitem_Z {V} (d : list (Z * V)) (k k' : Z) (v : V) :
  get Z.eqb (setitem Z.eqb d k v) k'
  = if k =? k' then Some v else get Z.eqb d k'.
Proof.
  induction d as [|[k0 v0] t IH]; simpl.
  - reflexivity.
  - destruct (Z.eqb_spec k0 k) as [->|N]; simpl.
    + destruct (k =? k'); reflexivity.
    + destruct (Z.eqb_spec k0 k') as [->|N'].
      * destruct (Z.eqb_spec k k'); [congruence | reflexivity].
      * exact IH.
Qed.

Lemma setitem_keys_NoDup {V} (d : list (Z * V)) (k : Z) (v : V) :
  NoDup (keys d) -> NoDup (keys (setitem Z.eqb d k v)).
Proof.
  unfold keys. induction d as [|[k0 v0] t IH]; simpl; intro N.
  - repeat constructor. intros [].
  - inversion N as [|? ? Nk Nt]; subst.
    destruct (Z.eqb_spec k0 k) as [->|Ne]; simpl; [exact N|].
    constructor; [|now apply IH].
    intro H. apply Nk. clear -H Ne.
    induction t as [|[k1 v1] t IH]; simpl in *.
    + destruct H as [H|[]]. congruence.
    + destruct (k1 =? k); simpl in H; destruct H as [H|H]; auto.
Qed.

Lemma get_In {V} (d : list (Z * V)) (k : Z) (v : V) :
  get Z.eqb d k = Some v -> In (k, v) d.
Proof.
  induction d as [|[k0 v0] t IH]; simpl; [discriminate|].
  destruct (Z.eqb_spec k0 k) as [->|N].
  - intros [= ->]. now left.
  - intro H. right. now apply IH.
Qed.

Lemma In_get {V} (d : list (Z * V)) (k : Z) (v : V) :
  NoDup (keys d) -> In (k, v) d -> get Z.eqb d k = Some v.
Proof.
  unfold keys. induction d as [|[k0 v0] t IH]; simpl; intros N H;
    [contradiction|].
  inversion N as [|? ? Nk Nt]; subst.
  destruct H as [[= -> ->]|H].
  - now rewrite Z.eqb_refl.
  - destruct (Z.eqb_spec k0 k) as [->|Ne]; [|now apply IH].
    exfalso. apply Nk. change k with (fst (k, v)). now apply in_map.
Qed.

(** [_count_ranks] counts: its keys are distinct and the count of a
    rank is the number of cards of that rank. *)
Lemma count_ranks_counts (cards : list Z) :
  NoDup (keys (_count_ranks cards))
  /\ forall k,
       get_default Z.eqb (_count_ranks cards) k 0
       = Z.of_nat (count_occ Z.eq_dec (map (fun c => Z.land c 0xF) cards) k).
Proof.
  unfold _count_ranks.
  assert (G : forall seen d,
             NoDup (keys d) ->
             (forall k, get_default Z.eqb d k 0
                        = Z.of_nat (count_occ Z.eq_dec seen k)) ->
             NoDup (keys (fold_left
                            (fun counts card =>
                               let rank := Z.land card 0xF in
                               setitem Z.eqb counts rank
                                 (get_default Z.eqb counts rank 0 + 1))
                            cards d))
             /\ forall k,
                  get_default Z.eqb
                    (fold_left
                       (fun counts card =>
                          let rank := Z.land card 0xF in
                          setitem Z.eqb counts rank
                            (get_default Z.eqb counts rank 0 + 1))
                       cards d) k 0
                  = Z.of_nat (count_occ Z.eq_dec
                                (seen ++ map (fun c => Z.land c 0xF) cards) k)).
  { induction cards as [|c t IH]; intros seen d N C; cbn [fold_left map].
    - rewrite app_nil_r. auto.
    - destruct (IH (seen ++ [Z.land c 0xF])
                  (setitem Z.eqb d (Z.land c 0xF)
                     (get_default Z.eqb d (Z.land c 0xF) 0 + 1)))
        as [N' C'].
      + now apply setitem_keys_NoDup.
      + intro k. unfold get_default. rewrite get_setitem_Z.
        rewrite count_occ_app. cbn [count_occ].
        destruct (Z.eqb_spec (Z.land c 0xF) k) as [->|Ne].
        * destruct (Z.eq_dec k k); [|congruence].
          specialize (C k). unfold get_default in C. rewrite C. lia.
        * destruct (Z.eq_dec (Z.land c 0xF) k); [congruence|].
          specialize (C k). unfold get_default in C. rewrite C. lia.
      + split; [exact N'|]. intro k. rewrite C', <- app_assoc. reflexivity. }
  destruct (G [] [] (NoDup_nil _) (fun _ => eq_refl)) as [N C].
  split; [exact N | exact C].
Qed.

Lemma count_ranks_of_permuted (cards cards' : list Z) :
  Permutation cards cards' ->
  Permutation (_count_ranks cards) (_count_ranks cards').
Proof.
  intro P.
  assert (G : forall a b : list Z,
             Permutation a b ->
             forall rc, In rc (_count_ranks a) -> In rc (_count_ranks b)).
  { intros a b Pab [k v] H.
    destruct (count_ranks_counts a) as [Na Ca].
    destruct (count_ranks_counts b) as [Nb Cb].
    destruct (count_ranks_total a) as [_ Fa].
    rewrite Forall_forall in Fa. pose proof (Fa _ H) as V. cbn [snd] in V.
    apply (In_get _ _ _ Na) in H.
    specialize (Ca k). unfold get_default in Ca. rewrite H in Ca.
    specialize (Cb k). unfold get_default in Cb.
    pose proof (proj1 (Permutation_count_occ Z.eq_dec _ _)
                  (Permutation_map (fun c => Z.land c 0xF) Pab) k) as Eq.
    rewrite <- Eq, <- Ca in Cb.
    destruct (get Z.eqb (_count_ranks b) k) as [v'|] eqn:Gb; [|lia].
    subst v'. now apply get_In. }
  apply NoDup_Permutation.
  - apply (NoDup_map_inv fst). apply count_ranks_counts.
  - apply (NoDup_map_inv fst). apply count_ranks_counts.
  - intro rc. split; apply G; [exact P | now symmetry].
Qed.

Lemma ranks_where_of_permuted (p : Z -> bool) (d d' : list (Z * Z)) :
  Permutation d d' -> Permutation (ranks_where p d) (ranks_where p d').
Proof.
  intro P. unfold ranks_where. now apply Permutation_map, filter_permutation.
Qed.

Lemma quads_leave_one_rank (d : list (Z * Z)) :
  Forall (fun rc => 1 <= snd rc) d ->
  4 * Z.of_nat (List.length (ranks_where (fun c => c =? 4) d))
  + Z.of_nat (List.length (ranks_where (fun c => negb (c =? 4)) d))
  <= Spec.total_count d.
Proof.
  unfold ranks_where.
  induction 1 as [|[k v] t Hv _ IH]; [simpl; lia|].
  change (Spec.total_count ((k, v) :: t)) with (v + Spec.total_count t).
  cbn [filter snd] in *.
  destruct (Z.eqb_spec v 4) as [->|N]; cbn [negb map List.length];
    rewrite ?Nat2Z.inj_succ; lia.
Qed.

Lemma permuted_singleton {A} (x : A) (l l' : list A) :
  Permutation (x :: l) l' -> (List.length (x :: l) <= 1)%nat ->
  l = [] /\ l' = [x].
Proof.
  intros P L. destruct l; [|simpl in L; lia].
  split; [reflexivity|]. now apply Permutation_length_1_inv.
Qed.

(** The rank of five cards does not depend on the order in which they
    are given: [_evaluate_5_cards] returns the same category, tie-break
    values and description for every arrangement of the same five card
    codes. *)
Theorem five_card_rank_is_independent_of_order :
  forall cards cards',
    List.length cards = 5%nat ->
    Permutation cards cards' ->
    _evaluate_5_cards cards' = _evaluate_5_cards cards.
Proof.
  intros cards cards' L P. unfold _evaluate_5_cards.
  rewrite <- (check_flush_of_permuted cards cards' P).
  rewrite <- (check_straight_of_permuted cards cards' P).
  rewrite <- (sorted_reverse_of_permuted
                (map (fun c => Z.land c 0xF) cards)
                (map (fun c => Z.land c 0xF) cards'))
    by (now apply Permutation_map).
  destruct (truthy (_check_flush cards)); [reflexivity|].
  destruct (truthy (_check_straight cards)); [reflexivity|].
  pose proof (count_ranks_of_permuted cards cards' P) as Pd.
  destruct (count_ranks_total cards) as [T F]. rewrite L in T.
  destruct (count_profile _ F) as (big & Ep & B). rewrite T in Ep.
  pose proof (quads_leave_one_rank _ F) as Q. rewrite T in Q.
  set (d := _count_ranks cards) in *. set (d' := _count_ranks cards') in *.
  pose proof (ranks_where_of_permuted (fun c => c =? 4) d d' Pd) as P4.
  pose proof (ranks_where_of_permuted (fun c => negb (c =? 4)) d d' Pd) as Pn.
  pose proof (ranks_where_of_permuted (fun c => c =? 3) d d' Pd) as P3.
  pose proof (ranks_where_of_permuted (fun c => c =? 2) d d' Pd) as P2.
  pose proof (ranks_where_of_permuted (fun c => c =? 1) d d' Pd) as P1.
  rewrite <- (sorted_reverse_of_permuted _ _ P1).
  rewrite <- (sorted_reverse_of_permuted _ _ P2).
  rewrite <- (Permutation_length P2).
  destruct (ranks_where (fun c => c =? 4) d) as [|q0 r4] eqn:E4.
  - apply Permutation_nil in P4. rewrite P4.
    destruct (ranks_where (fun c => c =? 3) d) as [|t0 r3] eqn:E3.
    + apply Permutation_nil in P3. rewrite P3.
      destruct (2 <=? List.length (ranks_where (fun c => (c =? 2)%Z) d))%nat
        eqn:E2;
        [reflexivity|].
      apply Nat.leb_gt in E2.
      destruct (ranks_where (fun c => c =? 2) d) as [|p0 r2] eqn:Ed2.
      * apply Permutation_nil in P2. rewrite P2. reflexivity.
      * destruct (permuted_singleton _ _ _ P2) as [-> ->];
          [cbn [List.length] in *; lia | reflexivity].
    + destruct (permuted_singleton _ _ _ P3) as [-> ->];
        [cbn [List.length] in *; lia|].
      destruct (ranks_where (fun c => c =? 2) d) as [|p0 r2] eqn:Ed2.
      * apply Permutation_nil in P2. rewrite P2. reflexivity.
      * destruct (permuted_singleton _ _ _ P2) as [-> ->];
          [cbn [List.length] in *; lia | reflexivity].
  - destruct (permuted_singleton _ _ _ P4) as [-> ->]; [cbn [List.length] in *; lia|].
    destruct (ranks_where (fun c => negb (c =? 4)) d) as [|k0 rn] eqn:En.
    + apply Permutation_nil in Pn. rewrite Pn. reflexivity.
    + destruct (permuted_singleton _ _ _ Pn) as [-> ->];
        [cbn [List.length] in *; lia | reflexivity].
Qed.

Lemma five_card_rank_is_independent_of_order_witness :
  _evaluate_5_cards [0x2003; 0x100C; 0x4003; 0x800C; 0x1003]
  = _evaluate_5_cards [0x100C; 0x800C; 0x1003; 0x2003; 0x4003].
Proof.
  apply (five_card_rank_is_independent_of_order
           [0x100C; 0x800C; 0x1003; 0x2003; 0x4003]
           [0x2003; 0x100C; 0x4003; 0x800C; 0x1003]).
  - reflexivity.
  - apply NoDup_Permutation.
    + apply (NoDup_nodup Z.eq_dec [0x100C; 0x800C; 0x1003; 0x2003; 0x4003]).
    + apply (NoDup_nodup Z.eq_dec [0x2003; 0x100C; 0x4003; 0x800C; 0x1003]).
    + intro x. simpl. tauto.
Defined.

End CardOrder.
